(** * DROSS Command Center: the dashboard client (src/static/script.js)

    A shallow embedding of the client script: the reconnecting
    WebSocket, the message dispatcher, the two bounded DOM streams, the
    status poll and the incremental graph merge.  Globals of the script
    and the part of the page it touches are fields of one [State]
    record; every handler is a function [State -> State].  What the
    browser owns (sockets, pending timeouts, issued fetches) is kept in
    the same record so that handlers can be composed into runs.

    The second copy of the script in the repository (same functions,
    other css classes and markdown rendering of assistant text) has the
    same control flow; the Ether variant of [sendMessage] is embedded in
    [Module Ether]. *)

From stdpp Require Import base list gmap sets.
From Stdlib Require Import ZArith NArith Ascii DecimalString Lia.
From Stdlib Require String.
Import String.StringSyntax.

Open Scope Z_scope.

(** ** JavaScript strings

    A JS string is a sequence of UTF-16 code units. *)

Abbreviation jsstring := (list N).

(** An ASCII literal. *)
Definition lit (s : String.string) : jsstring :=
  (fun a => N_of_ascii a) <$> String.list_ascii_of_string s.
Arguments lit s%_string_scope.

(** [String(n)] for an integer [n]. *)
Definition decimal (z : Z) : jsstring :=
  lit (NilZero.string_of_int (Z.to_int z)).

(** LineTerminator of ECMAScript: what [.] in a regular expression does
    not match. *)
Definition isLineTerminator (c : N) : bool :=
  ((c =? 10) || (c =? 13) || (c =? 0x2028) || (c =? 0x2029))%N.

(** WhiteSpace and LineTerminator: the class [\s], and what [trim]
    removes. *)
Definition isWhiteSpace (c : N) : bool :=
  ((c =? 9) || (c =? 10) || (c =? 11) || (c =? 12) || (c =? 13) ||
   (c =? 32) || (c =? 0xA0) || (c =? 0x1680) ||
   ((0x2000 <=? c) && (c <=? 0x200A)) ||
   (c =? 0x2028) || (c =? 0x2029) || (c =? 0x202F) || (c =? 0x205F) ||
   (c =? 0x3000) || (c =? 0xFEFF))%N.

(** [s.startsWith(pat)], returning what follows [pat]. *)
Fixpoint stripPrefix (pat s : jsstring) : option jsstring :=
  match pat, s with
  | [], _ => Some s
  | _ :: _, [] => None
  | p :: pat', c :: s' => if (p =? c)%N then stripPrefix pat' s' else None
  end.

(** [s.includes(pat)] *)
Fixpoint includes (pat s : jsstring) : bool :=
  match stripPrefix pat s with
  | Some _ => true
  | None => match s with
            | [] => false
            | _ :: s' => includes pat s'
            end
  end.

(** Greedy [\s*] at the head of [s]. *)
Fixpoint skipWhiteSpace (s : jsstring) : jsstring :=
  match s with
  | c :: s' => if isWhiteSpace c then skipWhiteSpace s' else s
  | [] => []
  end.

(** [s.trim()] *)
Definition trim (s : jsstring) : jsstring :=
  rev (skipWhiteSpace (rev (skipWhiteSpace s))).

(** [text.replace(/\n/g, "<br>")] *)
Fixpoint replaceNewlines (s : jsstring) : jsstring :=
  match s with
  | [] => []
  | c :: s' => if (c =? 10)%N then lit "<br>" ++ replaceNewlines s'
               else c :: replaceNewlines s'
  end.

(** *** The heartbeat pattern

    The pattern of the dispatcher is: any run of characters of one line
    (greedy), the marker [Heartbeat:], white space (greedy), and
    optionally [Autonomy:] with the white space after it.

    [afterMarker s] matches the part from [Heartbeat:] on at the head of
    [s] and returns what is left.  Once [Heartbeat:] is found the rest of
    the pattern cannot fail, so the greedy choices are the ones taken. *)
Definition afterMarker (s : jsstring) : option jsstring :=
  match stripPrefix (lit "Heartbeat:") s with
  | None => None
  | Some r =>
      let r1 := skipWhiteSpace r in
      match stripPrefix (lit "Autonomy:") r1 with
      | Some r2 => Some (skipWhiteSpace r2)
      | None => Some r1
      end
  end.

(** The whole pattern anchored at the head of [s]: the leading run takes
    as many characters of the line as it can and gives them back one at a time
    until [Heartbeat:] follows. *)
Fixpoint matchAt (s : jsstring) : option jsstring :=
  match s with
  | [] => afterMarker []
  | c :: s' =>
      if isLineTerminator c then afterMarker s
      else match matchAt s' with
           | Some r => Some r
           | None => afterMarker s
           end
  end.

(** [regex.test(s)]: is there a position where the pattern matches. *)
Fixpoint heartbeatTest (s : jsstring) : bool :=
  match matchAt s with
  | Some _ => true
  | None => match s with
            | [] => false
            | _ :: s' => heartbeatTest s'
            end
  end.

(** [s.replace(pattern, empty)] without the [g] flag: the leftmost match
    is cut out, what precedes it stays. *)
Fixpoint replaceHeartbeat (s : jsstring) : jsstring :=
  match s with
  | [] => []
  | c :: s' =>
      match matchAt s with
      | Some r => r
      | None => c :: replaceHeartbeat s'
      end
  end.

(** ** Data model *)

Record GraphNode := mkNode { n_id : jsstring; n_label : jsstring }.

(** Edges of [/api/memory/graph] carry no id. *)
Record GraphEdge := mkEdge { e_from : jsstring; e_to : jsstring; e_label : jsstring }.

(** Body of [/api/memory/graph]; [None] is a missing field. *)
Record GraphData := mkGraphData {
  g_nodes : option (list GraphNode);
  g_edges : option (list GraphEdge)
}.

Record Subtask := mkSubtask { st_status : jsstring; st_description : jsstring }.

Record GoalData := mkGoal {
  goal_goal : option jsstring;
  goal_subtasks : option (list Subtask)
}.

(** Body of [/api/status]. *)
Record StatusData := mkStatus {
  memory_count : option Z;
  goal : option GoalData
}.

(** A parsed server frame: [data.type] with the fields the tags use. *)
Record Frame := mkFrame {
  f_type : jsstring;
  f_content : jsstring;
  f_status : jsstring
}.

Inductive Role := assistant | user.

Inductive ReadyState := CONNECTING | OPEN | CLOSED.

Inductive View := dashboard | graph | settings.

Inductive Tab := mission | logs | journal.

(** A [fetch] the script has issued. *)
Inductive Request :=
| ReqStatus
| ReqJournal
| ReqGraph (force : bool).

Record StatusPill := mkPill {
  pill_text : jsstring;
  pill_border : jsstring;
  pill_color : jsstring;
  pill_dot : jsstring
}.

Record GoalTitle := mkGoalTitle { gt_text : jsstring; gt_color : jsstring }.

(** Children of the subtask list. *)
Inductive SubtaskChild :=
| EmptyState (text : jsstring)
| SubtaskItem (completed : bool) (description : jsstring).

#[global] Instance GraphNode_eq_dec : EqDecision GraphNode.
Proof. solve_decision. Defined.
#[global] Instance GraphEdge_eq_dec : EqDecision GraphEdge.
Proof. solve_decision. Defined.
#[global] Instance ReadyState_eq_dec : EqDecision ReadyState.
Proof. solve_decision. Defined.
#[global] Instance View_eq_dec : EqDecision View.
Proof. solve_decision. Defined.
#[global] Instance Tab_eq_dec : EqDecision Tab.
Proof. solve_decision. Defined.
#[global] Instance Request_eq_dec : EqDecision Request.
Proof. solve_decision. Defined.

(** ** The state

    The globals of the script ([ws] to [lastMemoryCount]), the part of
    the page it reads and writes ([chatWindow] to [networkContainer]) and
    what the browser holds for it ([sockets] to [requests]). *)

Record State := mkState {
  ws : option nat;  (* [let ws]: handle of the current socket *)
  reconnectDelay : Z;
  reconnectTimer : option nat;  (* [null] or a timeout handle *)
  network : bool;  (* [network !== null] *)
  graphNodes : list GraphNode;  (* [graphData.nodes] *)
  graphEdges : list GraphEdge;  (* [graphData.edges] *)
  lastMemoryCount : Z;
  chatWindow : list (Role * jsstring);  (* children: role and the string assigned to innerHTML *)
  userInput : jsstring;  (* [els.userInput.value] *)
  statusPill : StatusPill;
  connectionDot : option jsstring;  (* className, [None] when the element is absent *)
  goalTitle : GoalTitle;
  subtaskList : list SubtaskChild;
  logConsole : list jsstring;  (* children, first child first *)
  memoryCount : option Z;  (* shown count, [None] when the element is absent *)
  thoughtStream : list jsstring;  (* children, first child first *)
  activeView : View;  (* the view carrying class [active] *)
  activeTab : Tab;  (* the right tab carrying class [active] *)
  networkContainer : bool;  (* does [network-container] exist *)
  sockets : list ReadyState;  (* sockets created so far, by handle *)
  timers : list (nat * Z);  (* pending timeouts: handle and delay *)
  nextTimer : nat;  (* next timeout handle *)
  sent : list (nat * jsstring);  (* frames passed to [send] *)
  requests : list Request  (* fetches issued so far *)
}.

(** Field updates. *)

Definition set_ws (v : option nat) (s : State) : State :=
  mkState v (reconnectDelay s) (reconnectTimer s) (network s) (graphNodes s)
    (graphEdges s) (lastMemoryCount s) (chatWindow s) (userInput s)
    (statusPill s) (connectionDot s) (goalTitle s) (subtaskList s)
    (logConsole s) (memoryCount s) (thoughtStream s) (activeView s)
    (activeTab s) (networkContainer s) (sockets s) (timers s) (nextTimer s)
    (sent s) (requests s).

Definition set_reconnectDelay (v : Z) (s : State) : State :=
  mkState (ws s) v (reconnectTimer s) (network s) (graphNodes s)
    (graphEdges s) (lastMemoryCount s) (chatWindow s) (userInput s)
    (statusPill s) (connectionDot s) (goalTitle s) (subtaskList s)
    (logConsole s) (memoryCount s) (thoughtStream s) (activeView s)
    (activeTab s) (networkContainer s) (sockets s) (timers s) (nextTimer s)
    (sent s) (requests s).

Definition set_reconnectTimer (v : option nat) (s : State) : State :=
  mkState (ws s) (reconnectDelay s) v (network s) (graphNodes s)
    (graphEdges s) (lastMemoryCount s) (chatWindow s) (userInput s)
    (statusPill s) (connectionDot s) (goalTitle s) (subtaskList s)
    (logConsole s) (memoryCount s) (thoughtStream s) (activeView s)
    (activeTab s) (networkContainer s) (sockets s) (timers s) (nextTimer s)
    (sent s) (requests s).

Definition set_network (v : bool) (s : State) : State :=
  mkState (ws s) (reconnectDelay s) (reconnectTimer s) v (graphNodes s)
    (graphEdges s) (lastMemoryCount s) (chatWindow s) (userInput s)
    (statusPill s) (connectionDot s) (goalTitle s) (subtaskList s)
    (logConsole s) (memoryCount s) (thoughtStream s) (activeView s)
    (activeTab s) (networkContainer s) (sockets s) (timers s) (nextTimer s)
    (sent s) (requests s).

Definition set_graphNodes (v : list GraphNode) (s : State) : State :=
  mkState (ws s) (reconnectDelay s) (reconnectTimer s) (network s) v
    (graphEdges s) (lastMemoryCount s) (chatWindow s) (userInput s)
    (statusPill s) (connectionDot s) (goalTitle s) (subtaskList s)
    (logConsole s) (memoryCount s) (thoughtStream s) (activeView s)
    (activeTab s) (networkContainer s) (sockets s) (timers s) (nextTimer s)
    (sent s) (requests s).

Definition set_graphEdges (v : list GraphEdge) (s : State) : State :=
  mkState (ws s) (reconnectDelay s) (reconnectTimer s) (network s)
    (graphNodes s) v (lastMemoryCount s) (chatWindow s) (userInput s)
    (statusPill s) (connectionDot s) (goalTitle s) (subtaskList s)
    (logConsole s) (memoryCount s) (thoughtStream s) (activeView s)
    (activeTab s) (networkContainer s) (sockets s) (timers s) (nextTimer s)
    (sent s) (requests s).

Definition set_lastMemoryCount (v : Z) (s : State) : State :=
  mkState (ws s) (reconnectDelay s) (reconnectTimer s) (network s)
    (graphNodes s) (graphEdges s) v (chatWindow s) (userInput s)
    (statusPill s) (connectionDot s) (goalTitle s) (subtaskList s)
    (logConsole s) (memoryCount s) (thoughtStream s) (activeView s)
    (activeTab s) (networkContainer s) (sockets s) (timers s) (nextTimer s)
    (sent s) (requests s).

Definition set_chatWindow (v : list (Role * jsstring)) (s : State) : State :=
  mkState (ws s) (reconnectDelay s) (reconnectTimer s) (network s)
    (graphNodes s) (graphEdges s) (lastMemoryCount s) v (userInput s)
    (statusPill s) (connectionDot s) (goalTitle s) (subtaskList s)
    (logConsole s) (memoryCount s) (thoughtStream s) (activeView s)
    (activeTab s) (networkContainer s) (sockets s) (timers s) (nextTimer s)
    (sent s) (requests s).

Definition set_userInput (v : jsstring) (s : State) : State :=
  mkState (ws s) (reconnectDelay s) (reconnectTimer s) (network s)
    (graphNodes s) (graphEdges s) (lastMemoryCount s) (chatWindow s) v
    (statusPill s) (connectionDot s) (goalTitle s) (subtaskList s)
    (logConsole s) (memoryCount s) (thoughtStream s) (activeView s)
    (activeTab s) (networkContainer s) (sockets s) (timers s) (nextTimer s)
    (sent s) (requests s).

Definition set_statusPill (v : StatusPill) (s : State) : State :=
  mkState (ws s) (reconnectDelay s) (reconnectTimer s) (network s)
    (graphNodes s) (graphEdges s) (lastMemoryCount s) (chatWindow s)
    (userInput s) v (connectionDot s) (goalTitle s) (subtaskList s)
    (logConsole s) (memoryCount s) (thoughtStream s) (activeView s)
    (activeTab s) (networkContainer s) (sockets s) (timers s) (nextTimer s)
    (sent s) (requests s).

Definition set_connectionDot (v : option jsstring) (s : State) : State :=
  mkState (ws s) (reconnectDelay s) (reconnectTimer s) (network s)
    (graphNodes s) (graphEdges s) (lastMemoryCount s) (chatWindow s)
    (userInput s) (statusPill s) v (goalTitle s) (subtaskList s)
    (logConsole s) (memoryCount s) (thoughtStream s) (activeView s)
    (activeTab s) (networkContainer s) (sockets s) (timers s) (nextTimer s)
    (sent s) (requests s).

Definition set_goalTitle (v : GoalTitle) (s : State) : State :=
  mkState (ws s) (reconnectDelay s) (reconnectTimer s) (network s)
    (graphNodes s) (graphEdges s) (lastMemoryCount s) (chatWindow s)
    (userInput s) (statusPill s) (connectionDot s) v (subtaskList s)
    (logConsole s) (memoryCount s) (thoughtStream s) (activeView s)
    (activeTab s) (networkContainer s) (sockets s) (timers s) (nextTimer s)
    (sent s) (requests s).

Definition set_subtaskList (v : list SubtaskChild) (s : State) : State :=
  mkState (ws s) (reconnectDelay s) (reconnectTimer s) (network s)
    (graphNodes s) (graphEdges s) (lastMemoryCount s) (chatWindow s)
    (userInput s) (statusPill s) (connectionDot s) (goalTitle s) v
    (logConsole s) (memoryCount s) (thoughtStream s) (activeView s)
    (activeTab s) (networkContainer s) (sockets s) (timers s) (nextTimer s)
    (sent s) (requests s).

Definition set_logConsole (v : list jsstring) (s : State) : State :=
  mkState (ws s) (reconnectDelay s) (reconnectTimer s) (network s)
    (graphNodes s) (graphEdges s) (lastMemoryCount s) (chatWindow s)
    (userInput s) (statusPill s) (connectionDot s) (goalTitle s)
    (subtaskList s) v (memoryCount s) (thoughtStream s) (activeView s)
    (activeTab s) (networkContainer s) (sockets s) (timers s) (nextTimer s)
    (sent s) (requests s).

Definition set_memoryCount (v : option Z) (s : State) : State :=
  mkState (ws s) (reconnectDelay s) (reconnectTimer s) (network s)
    (graphNodes s) (graphEdges s) (lastMemoryCount s) (chatWindow s)
    (userInput s) (statusPill s) (connectionDot s) (goalTitle s)
    (subtaskList s) (logConsole s) v (thoughtStream s) (activeView s)
    (activeTab s) (networkContainer s) (sockets s) (timers s) (nextTimer s)
    (sent s) (requests s).

Definition set_thoughtStream (v : list jsstring) (s : State) : State :=
  mkState (ws s) (reconnectDelay s) (reconnectTimer s) (network s)
    (graphNodes s) (graphEdges s) (lastMemoryCount s) (chatWindow s)
    (userInput s) (statusPill s) (connectionDot s) (goalTitle s)
    (subtaskList s) (logConsole s) (memoryCount s) v (activeView s)
    (activeTab s) (networkContainer s) (sockets s) (timers s) (nextTimer s)
    (sent s) (requests s).

Definition set_activeView (v : View) (s : State) : State :=
  mkState (ws s) (reconnectDelay s) (reconnectTimer s) (network s)
    (graphNodes s) (graphEdges s) (lastMemoryCount s) (chatWindow s)
    (userInput s) (statusPill s) (connectionDot s) (goalTitle s)
    (subtaskList s) (logConsole s) (memoryCount s) (thoughtStream s) v
    (activeTab s) (networkContainer s) (sockets s) (timers s) (nextTimer s)
    (sent s) (requests s).

Definition set_activeTab (v : Tab) (s : State) : State :=
  mkState (ws s) (reconnectDelay s) (reconnectTimer s) (network s)
    (graphNodes s) (graphEdges s) (lastMemoryCount s) (chatWindow s)
    (userInput s) (statusPill s) (connectionDot s) (goalTitle s)
    (subtaskList s) (logConsole s) (memoryCount s) (thoughtStream s)
    (activeView s) v (networkContainer s) (sockets s) (timers s)
    (nextTimer s) (sent s) (requests s).

Definition set_networkContainer (v : bool) (s : State) : State :=
  mkState (ws s) (reconnectDelay s) (reconnectTimer s) (network s)
    (graphNodes s) (graphEdges s) (lastMemoryCount s) (chatWindow s)
    (userInput s) (statusPill s) (connectionDot s) (goalTitle s)
    (subtaskList s) (logConsole s) (memoryCount s) (thoughtStream s)
    (activeView s) (activeTab s) v (sockets s) (timers s) (nextTimer s)
    (sent s) (requests s).

Definition set_sockets (v : list ReadyState) (s : State) : State :=
  mkState (ws s) (reconnectDelay s) (reconnectTimer s) (network s)
    (graphNodes s) (graphEdges s) (lastMemoryCount s) (chatWindow s)
    (userInput s) (statusPill s) (connectionDot s) (goalTitle s)
    (subtaskList s) (logConsole s) (memoryCount s) (thoughtStream s)
    (activeView s) (activeTab s) (networkContainer s) v (timers s)
    (nextTimer s) (sent s) (requests s).

Definition set_timers (v : list (nat * Z)) (s : State) : State :=
  mkState (ws s) (reconnectDelay s) (reconnectTimer s) (network s)
    (graphNodes s) (graphEdges s) (lastMemoryCount s) (chatWindow s)
    (userInput s) (statusPill s) (connectionDot s) (goalTitle s)
    (subtaskList s) (logConsole s) (memoryCount s) (thoughtStream s)
    (activeView s) (activeTab s) (networkContainer s) (sockets s) v
    (nextTimer s) (sent s) (requests s).

Definition set_nextTimer (v : nat) (s : State) : State :=
  mkState (ws s) (reconnectDelay s) (reconnectTimer s) (network s)
    (graphNodes s) (graphEdges s) (lastMemoryCount s) (chatWindow s)
    (userInput s) (statusPill s) (connectionDot s) (goalTitle s)
    (subtaskList s) (logConsole s) (memoryCount s) (thoughtStream s)
    (activeView s) (activeTab s) (networkContainer s) (sockets s) (timers s)
    v (sent s) (requests s).

Definition set_sent (v : list (nat * jsstring)) (s : State) : State :=
  mkState (ws s) (reconnectDelay s) (reconnectTimer s) (network s)
    (graphNodes s) (graphEdges s) (lastMemoryCount s) (chatWindow s)
    (userInput s) (statusPill s) (connectionDot s) (goalTitle s)
    (subtaskList s) (logConsole s) (memoryCount s) (thoughtStream s)
    (activeView s) (activeTab s) (networkContainer s) (sockets s) (timers s)
    (nextTimer s) v (requests s).

Definition set_requests (v : list Request) (s : State) : State :=
  mkState (ws s) (reconnectDelay s) (reconnectTimer s) (network s)
    (graphNodes s) (graphEdges s) (lastMemoryCount s) (chatWindow s)
    (userInput s) (statusPill s) (connectionDot s) (goalTitle s)
    (subtaskList s) (logConsole s) (memoryCount s) (thoughtStream s)
    (activeView s) (activeTab s) (networkContainer s) (sockets s) (timers s)
    (nextTimer s) (sent s) v.

(** ** Core UI functions *)

Definition updateStatus (status : jsstring) (s : State) : State :=
  let pill :=
    if bool_decide (status = lit "THINKING") then
      mkPill status (lit "var(--yellow)") (lit "var(--yellow)") (lit "var(--yellow)")
    else if bool_decide (status = lit "SPEAKING") then
      mkPill status (lit "var(--cyan)") (lit "var(--cyan)") (lit "var(--cyan)")
    else if bool_decide (status = lit "OFFLINE") then
      mkPill status (lit "var(--red)") (lit "var(--red)") (lit "var(--red)")
    else
      mkPill status (lit "#333") (lit "var(--green)") (lit "var(--green)") in
  set_statusPill pill s.

Definition addMessage (role : Role) (text : jsstring) (s : State) : State :=
  set_chatWindow (chatWindow s ++ [(role, replaceNewlines text)]) s.

(** [while (children.length > cap) removeChild(firstChild)] *)
Fixpoint removeFirstWhileOver {A} (cap : nat) (children : list A) : list A :=
  match children with
  | [] => []
  | _ :: rest =>
      if (cap <? length children)%nat then removeFirstWhileOver cap rest
      else children
  end.

(** [if (children.length > cap) removeChild(lastChild)] *)
Definition removeLastIfOver {A} (cap : nat) (children : list A) : list A :=
  if (cap <? length children)%nat then removelast children else children.

(** The text of a log line; [now] is the clock reading
    [toLocaleTimeString] formats. *)
Definition logLine (now text : jsstring) : jsstring :=
  lit "[" ++ now ++ lit "] " ++ text.

Definition addLog (now text : jsstring) (s : State) : State :=
  set_logConsole
    (removeFirstWhileOver 200 (logConsole s ++ [logLine now text])) s.

Definition addThought (text : jsstring) (s : State) : State :=
  set_thoughtStream (removeLastIfOver 20 (text :: thoughtStream s)) s.

(** [ws && ws.readyState === WebSocket.OPEN], with the handle. *)
Definition openSocket (s : State) : option nat :=
  match ws s with
  | None => None
  | Some h => if bool_decide (sockets s !! h = Some OPEN) then Some h else None
  end.

Definition cannotSend : jsstring :=
  lit "SYSTEM: Cannot send " ++ [0x2014%N] ++ lit " uplink not connected.".

Definition sendMessage (now : jsstring) (s : State) : State :=
  let text := trim (userInput s) in
  match text with
  | [] => s
  | _ :: _ =>
      match openSocket s with
      | None => addLog now cannotSend s
      | Some h =>
          let s1 := addMessage user text s in
          let s2 := set_sent (sent s1 ++ [(h, text)]) s1 in
          let s3 := set_userInput [] s2 in
          updateStatus (lit "THINKING") s3
      end
  end.

Definition renderSubtasks (tasks : list Subtask) (s : State) : State :=
  match tasks with
  | [] => set_subtaskList [EmptyState (lit "No subtasks")] s
  | _ :: _ =>
      set_subtaskList
        ((fun t => SubtaskItem (bool_decide (st_status t = lit "completed"))
                               (st_description t)) <$> tasks) s
  end.

(** ** Fetches

    [fetch(...)] is recorded in [requests]; the continuation that runs
    when the body has arrived is a function of its own ([_then]). *)

Definition fetchStatus (s : State) : State :=
  set_requests (requests s ++ [ReqStatus]) s.

Definition loadJournal (s : State) : State :=
  set_requests (requests s ++ [ReqJournal]) s.

Definition loadGraph (force : bool) (s : State) : State :=
  if networkContainer s then set_requests (requests s ++ [ReqGraph force]) s
  else s.

(** ** Graph

    [vis.DataSet] is the vis-data library, which is not part of the
    repository.  A data set is the list of its items in insertion
    order.  [add] of an array refuses the whole array when one of its
    ids is already in the set, and stops with an exception at an id
    that occurs twice in the array, keeping what it added before.  An
    item without id gets a fresh one, so adding edges never fails. *)

Definition hasId (i : jsstring) (ds : list GraphNode) : bool :=
  bool_decide (i ∈ n_id <$> ds).

Fixpoint addItems (items ds : list GraphNode) : list GraphNode * bool :=
  match items with
  | [] => (ds, true)
  | x :: rest =>
      if hasId (n_id x) ds then (ds, false) else addItems rest (ds ++ [x])
  end.

(** [nodes.add(items)]: the data set afterwards, and [false] when the
    call threw. *)
Definition nodesAdd (items ds : list GraphNode) : list GraphNode * bool :=
  if existsb (fun x => hasId (n_id x) ds) items then (ds, false)
  else addItems items ds.

Definition edgesAdd (items ds : list GraphEdge) : list GraphEdge :=
  ds ++ items.

(** The composite key of the deduplication. *)
Definition edgeKey (e : GraphEdge) : jsstring :=
  e_from e ++ lit "|" ++ e_to e ++ lit "|" ++ e_label e.

(** The continuation of [loadGraph(force)] on the fetched [data].  An
    exception leaves the promise rejected and the state as it was when
    it was thrown. *)
Definition loadGraph_then (force : bool) (data : GraphData) (s : State) : State :=
  match g_nodes data with
  | None => s
  | Some nodes =>
      if negb (network s) then
        let '(ds, ok) := nodesAdd nodes (graphNodes s) in
        let s1 := set_graphNodes ds s in
        if ok then
          match g_edges data with
          | None => s1
          | Some edges =>
              set_network true
                (set_graphEdges (edgesAdd edges (graphEdges s1)) s1)
          end
        else s1
      else if force then
        let existingNodeIds : gset jsstring :=
          list_to_set (n_id <$> graphNodes s) in
        let newNodes := filter (fun n => n_id n ∉ existingNodeIds) nodes in
        let '(ds, ok) :=
          if (0 <? length newNodes)%nat then nodesAdd newNodes (graphNodes s)
          else (graphNodes s, true) in
        let s1 := set_graphNodes ds s in
        if ok then
          match g_edges data with
          | None => s1
          | Some edges =>
              let existingEdges := graphEdges s1 in
              let existingEdgeKeys : gset jsstring :=
                list_to_set (edgeKey <$> existingEdges) in
              let newEdges :=
                filter (fun e => edgeKey e ∉ existingEdgeKeys) edges in
              if (0 <? length newEdges)%nat
              then set_graphEdges (edgesAdd newEdges (graphEdges s1)) s1
              else s1
          end
        else s1
      else s
  end.

(** ** Status poll *)

(** The block [// Stats] of [fetchStatus]: the counter and the change
    detection. *)
Definition updateStats (data : StatusData) (s : State) : State :=
  match memoryCount s with
  | None => s
  | Some _ =>
      let count := default 0 (memory_count data) in
      let s' := set_memoryCount (Some count) s in
      if lastMemoryCount s' <? count then
        let s'' :=
          if negb (lastMemoryCount s' =? -1)
             && bool_decide (activeView s' = graph)
          then loadGraph true s' else s' in
        set_lastMemoryCount count s''
      else s'
  end.

(** The block [// Goal] of [fetchStatus]. *)
Definition updateGoal (data : StatusData) (s : State) : State :=
  let idle :=
    set_subtaskList [EmptyState (lit "System Idle")]
      (set_goalTitle (mkGoalTitle (lit "No active goal") (lit "var(--text-dim)")) s) in
  match goal data with
  | None => idle
  | Some g =>
      match goal_goal g with
      | None | Some [] => idle
      | Some title =>
          if bool_decide (title = lit "Idle") then idle
          else
            renderSubtasks (default [] (goal_subtasks g))
              (set_goalTitle (mkGoalTitle title (lit "var(--text-main)")) s)
      end
  end.

(** The continuation of [fetchStatus()] on the fetched [data]. *)
Definition fetchStatus_then (data : StatusData) (s : State) : State :=
  updateGoal data (updateStats data s).

(** ** Navigation *)

Definition switchMainView (viewId : View) (s : State) : State :=
  let s1 := set_activeView viewId s in
  match viewId with
  | graph => loadGraph false s1
  | _ => s1
  end.

Definition switchRightTab (tabId : Tab) (s : State) : State :=
  let s1 := set_activeTab tabId s in
  match tabId with
  | journal => loadJournal s1
  | _ => s1
  end.

(** ** Connection manager *)

(** [setTimeout(callback, delay)]: the only callback the script ever
    schedules this way is [reconnect] below. *)
Definition setTimeout (delay : Z) (s : State) : nat * State :=
  let t := nextTimer s in
  (t, set_nextTimer (S t) (set_timers (timers s ++ [(t, delay)]) s)).

Definition clearTimeout (handle : option nat) (s : State) : State :=
  match handle with
  | None => s
  | Some t => set_timers (filter (fun p => p.1 ≠ t) (timers s)) s
  end.

(** [if (els.connectionDot) els.connectionDot.className = cls] *)
Definition setConnectionDot (cls : jsstring) (s : State) : State :=
  match connectionDot s with
  | None => s
  | Some _ => set_connectionDot (Some cls) s
  end.

(** [ws = new WebSocket(...)]; the three handlers are attached to it. *)
Definition connectWebSocket (s : State) : State :=
  set_ws (Some (length (sockets s))) (set_sockets (sockets s ++ [CONNECTING]) s).

Definition ws_onopen (now : jsstring) (s : State) : State :=
  let s1 := set_reconnectDelay 1000 s in
  let s2 := clearTimeout (reconnectTimer s1) s1 in
  let s3 := addLog now (lit "SYSTEM: Uplink established.") s2 in
  let s4 := updateStatus (lit "ONLINE") s3 in
  let s5 := setConnectionDot (lit "status-indicator online") s4 in
  fetchStatus s5.

(** The callback of the reconnection timeout. *)
Definition reconnect (s : State) : State :=
  connectWebSocket (set_reconnectDelay (Z.min (reconnectDelay s * 2) 30000) s).

Definition ws_onclose (now : jsstring) (s : State) : State :=
  let s1 :=
    addLog now
      (lit "SYSTEM: Uplink lost. Reconnecting in "
       ++ decimal (reconnectDelay s / 1000) ++ lit "s...") s in
  let s2 := updateStatus (lit "OFFLINE") s1 in
  let s3 := setConnectionDot (lit "status-indicator") s2 in
  let '(t, s4) := setTimeout (reconnectDelay s3) s3 in
  set_reconnectTimer (Some t) s4.

(** The thought a log line carries: the line with the heartbeat match
    cut out, trimmed. *)
Definition heartbeatThought (content : jsstring) : jsstring :=
  trim (replaceHeartbeat content).

Section Dispatcher.

(** [String.prototype.toUpperCase] *)
Variable toUpperCase : jsstring -> jsstring.

Definition ws_onmessage (now : jsstring) (data : Frame) (s : State) : State :=
  if bool_decide (f_type data = lit "response") then
    updateStatus (lit "IDLE") (addMessage assistant (f_content data) s)
  else if bool_decide (f_type data = lit "status") then
    updateStatus (toUpperCase (f_status data)) s
  else if bool_decide (f_type data = lit "log") then
    let s1 := addLog now (f_content data) s in
    if includes (lit "Heartbeat:") (f_content data) then
      let thought := heartbeatThought (f_content data) in
      match thought with
      | [] => s1
      | _ :: _ => addThought thought s1
      end
    else s1
  else if bool_decide (f_type data = lit "refresh_status") then
    fetchStatus s
  else if bool_decide (f_type data = lit "refresh_journal") then
    if bool_decide (activeTab s = journal) then loadJournal s else s
  else s.

(** ** The event loop

    One event of the browser at a time, each handler running to
    completion.  A socket opens at most once, while it is connecting;
    it closes once, from connecting or open; it delivers frames while
    open.  A timeout fires while it is pending.  A fetch continuation
    runs for a request that has been issued. *)

Inductive Event :=
| EvOpen (h : nat)
| EvMessage (h : nat) (data : option Frame)   (* [None]: the frame is not JSON *)
| EvClose (h : nat)
| EvTimeout (t : nat)
| EvPoll
| EvStatusBody (data : StatusData)
| EvGraphBody (force : bool) (data : GraphData)
| EvType (text : jsstring)
| EvSend
| EvSwitchMainView (viewId : View)
| EvSwitchRightTab (tabId : Tab)
| EvMemoryCleared
| EvResetDone.

Definition step (now : jsstring) (e : Event) (s : State) : option State :=
  match e with
  | EvOpen h =>
      if bool_decide (sockets s !! h = Some CONNECTING)
      then Some (ws_onopen now (set_sockets (<[h := OPEN]> (sockets s)) s))
      else None
  | EvMessage h data =>
      if bool_decide (sockets s !! h = Some OPEN)
      then Some (match data with
                 | Some d => ws_onmessage now d s
                 | None => s
                 end)
      else None
  | EvClose h =>
      if bool_decide (sockets s !! h = Some CONNECTING)
         || bool_decide (sockets s !! h = Some OPEN)
      then Some (ws_onclose now (set_sockets (<[h := CLOSED]> (sockets s)) s))
      else None
  | EvTimeout t =>
      (* a timeout that fires is no longer pending when its callback runs *)
      if bool_decide (t ∈ (timers s).*1)
      then Some (reconnect (clearTimeout (Some t) s))
      else None
  | EvPoll => Some (fetchStatus s)
  | EvStatusBody data =>
      if bool_decide (ReqStatus ∈ requests s)
      then Some (fetchStatus_then data s) else None
  | EvGraphBody force data =>
      if bool_decide (ReqGraph force ∈ requests s)
      then Some (loadGraph_then force data s) else None
  | EvType text => Some (set_userInput text s)
  | EvSend => Some (sendMessage now s)
  | EvSwitchMainView viewId => Some (switchMainView viewId s)
  | EvSwitchRightTab tabId => Some (switchRightTab tabId s)
  | EvMemoryCleared => Some (fetchStatus s)
  | EvResetDone => Some (loadJournal (fetchStatus s))
  end.

(** The state when the script has been loaded: the globals have their
    initial values and the first [connectWebSocket()] has run.  The
    page is whatever the markup makes it. *)
Definition initial (s : State) : Prop :=
  ws s = Some 0%nat /\ sockets s = [CONNECTING] /\
  reconnectDelay s = 1000 /\ reconnectTimer s = None /\ timers s = [] /\
  network s = false /\ graphNodes s = [] /\ graphEdges s = [] /\
  lastMemoryCount s = -1 /\ sent s = [] /\ requests s = [].

Inductive reachable : State -> Prop :=
| reachable_initial s : initial s -> reachable s
| reachable_step s now e s' :
    reachable s -> step now e s = Some s' -> reachable s'.



End Dispatcher.

(** A sequence of insertions into a stream, oldest first. *)
Definition addLogs (now : jsstring) (texts : list jsstring) (s : State) : State :=
  foldl (fun acc t => addLog now t acc) s texts.

Definition addThoughts (texts : list jsstring) (s : State) : State :=
  foldl (fun acc t => addThought t acc) s texts.

(** ** The Ether variant of the client

    The Ether script has its own page and its own [sendMessage]. *)
Module Ether.

Record State := mkState {
  ws : option ReadyState;            (* [undefined] before [connect()] *)
  chatInput : jsstring;
  chatMessages : list (Role * jsstring);
  liveStream : list jsstring;
  orb : jsstring;                    (* className *)
  stateLabel : jsstring;
  sent : list jsstring
}.

Definition setOrbState (state : jsstring) (s : State) : State :=
  let label :=
    if bool_decide (state = lit "thinking") then lit "Nexus Reasoning"
    else if bool_decide (state = lit "speaking") then lit "Nexus Speaking"
    else lit "Nexus Core" in
  mkState (ws s) (chatInput s) (chatMessages s) (liveStream s)
          (lit "orb " ++ state) label (sent s).

(** [addChatMessage('user', text)]: the text is set as [innerText]. *)
Definition addChatMessage_user (text : jsstring) (s : State) : State :=
  mkState (ws s) (chatInput s) (chatMessages s ++ [(user, text)])
          (liveStream s) (orb s) (stateLabel s) (sent s).

Definition sendMessage (s : State) : State :=
  let text := trim (chatInput s) in
  match text, ws s with
  | _ :: _, Some OPEN =>
      let s1 := addChatMessage_user text s in
      let s2 := mkState (ws s1) (chatInput s1) (chatMessages s1) (liveStream s1)
                        (orb s1) (stateLabel s1) (sent s1 ++ [text]) in
      let s3 := mkState (ws s2) [] (chatMessages s2) (liveStream s2)
                        (orb s2) (stateLabel s2) (sent s2) in
      setOrbState (lit "thinking") s3
  | _, _ => s
  end.

End Ether.

(** ** Sample pages and auxiliary notions *)

(** A page with every element in place, empty streams and the dashboard
    shown, in the state the script leaves it in when it has loaded. *)
Definition freshPage : State :=
  mkState (Some 0%nat) 1000 None false [] [] (-1)
          [] [] (mkPill (lit "IDLE") [] [] []) (Some (lit "status-indicator"))
          (mkGoalTitle [] []) [] [] (Some 0) []
          dashboard mission true
          [CONNECTING] [] 0%nat [] [].

(** The [n]-th text of a numbered sequence of distinct texts. *)
Definition numbered (n : nat) : jsstring :=
  lit "#" ++ decimal (Z.of_nat n).

(** Both streams full: 200 log lines and 20 thoughts, numbered in the
    order they were inserted. *)
Definition fullStreams : State :=
  addThoughts (numbered <$> seq 1 20)
    (addLogs (lit "09:00:00") (numbered <$> seq 1 200) freshPage).

(** The Ether page with the socket closed and a text typed in. *)
Definition etherOffline : Ether.State :=
  Ether.mkState (Some CLOSED) (lit "status?") [] []
                (lit "orb idle") (lit "Connection Lost") [].

(** The Command Center page in the same situation. *)
Definition dashboardOffline : State :=
  set_userInput (lit "status?") (set_sockets [CLOSED] freshPage).

Definition sampleGraph : GraphData :=
  mkGraphData
    (Some [mkNode (lit "m1") (lit "coffee"); mkNode (lit "m2") (lit "tea");
           mkNode (lit "m3") (lit "water")])
    (Some [mkEdge (lit "m1") (lit "m2") (lit "like");
           mkEdge (lit "m2") (lit "m3") (lit "like")]).

Definition grownGraph : GraphData :=
  mkGraphData
    (Some [mkNode (lit "m1") (lit "coffee"); mkNode (lit "m2") (lit "tea");
           mkNode (lit "m3") (lit "water"); mkNode (lit "m4") (lit "milk")])
    (Some [mkEdge (lit "m1") (lit "m2") (lit "like");
           mkEdge (lit "m2") (lit "m3") (lit "like");
           mkEdge (lit "m4") (lit "m1") (lit "in")]).

(** The page after the first graph body has arrived. *)
Definition seeded : State := loadGraph_then false sampleGraph freshPage.

(** The graph view shown, and 3 memories seen at the last poll. *)
Definition watchingGraph : State :=
  set_activeView graph (set_lastMemoryCount 3 freshPage).

(** [toUpperCase] on ASCII text. *)
Definition upperASCII (s : jsstring) : jsstring :=
  (fun c => if ((97 <=? c) && (c <=? 122))%N then (c - 32)%N else c) <$> s.

(** The fresh page after its first socket failed to connect. *)
Definition closedOnce : State :=
  ws_onclose (lit "09:00:00") (set_sockets [CLOSED] freshPage).

(** The delta a forced pass computes, against a plain list of keys. *)
Definition newNodesOf (have nodes : list GraphNode) : list GraphNode :=
  filter (fun n => n_id n ∉ n_id <$> have) nodes.

Definition newEdgesOf (have edges : list GraphEdge) : list GraphEdge :=
  filter (fun e => edgeKey e ∉ edgeKey <$> have) edges.

(** The fields the connection manager works on. *)
Definition connOf (s : State) :=
  (ws s, sockets s, timers s, reconnectTimer s, reconnectDelay s, nextTimer s).

(** Exactly one of the two is there: a live current socket, or one
    pending reconnection timeout, the one [reconnectTimer] holds,
    scheduled with the current delay.  Sockets are created one after the
    other, and only the last one can be live.  The delay is a multiple
    of 1000 between 1000 and 30000. *)
Definition connInv
    (c : option nat * list ReadyState * list (nat * Z) * option nat * Z * nat) : Prop :=
  let '(w, socks, tms, rt, d, nt) := c in
  (1000 <= d <= 30000 /\ (1000 | d)) /\
  exists h, w = Some h /\ length socks = S h /\
    (forall i, (i < h)%nat -> socks !! i = Some CLOSED) /\
    ((socks !! h = Some CONNECTING \/ socks !! h = Some OPEN) /\ tms = []
     \/ socks !! h = Some CLOSED /\ exists t, rt = Some t /\ tms = [(t, d)]).

(** A state in which a run of failures can start: the current socket is
    live and no reconnection is pending. *)
Definition ready (s : State) : Prop :=
  exists h, ws s = Some h /\
    (sockets s !! h = Some CONNECTING \/ sockets s !! h = Some OPEN) /\
    timers s = [].


(** ** Journal

    The continuation of [loadJournal()].  The journal feed is not part
    of [State]; the continuation is the function from the fetched body
    to the children it leaves in the feed. *)

Record JournalEntry := mkEntry { j_timestamp : jsstring; j_entry : jsstring }.

(** What the script reads of a parsed entry; [None] is a missing
    field. *)
Record ParsedEntry := mkParsed {
  p_lessons : option jsstring;
  p_outcome : option jsstring;
  p_what_failed : option jsstring
}.

Record EntryCard := mkCard {
  card_time : jsstring;
  card_body : jsstring;
  card_outcome : option (jsstring * jsstring)   (* colour and text of the tag *)
}.

Inductive JournalChild :=
| JournalEmpty (text : jsstring)
| JournalCard (card : EntryCard).

Definition getOutcomeColor (o : jsstring) : jsstring :=
  if bool_decide (o = lit "success") then lit "green"
  else if bool_decide (o = lit "failure") then lit "red"
  else lit "yellow".

(** Is a string field there and not empty. *)
Definition truthy (field : option jsstring) : bool :=
  match field with
  | Some (_ :: _) => true
  | _ => false
  end.

Section Journal.

(** [JSON.parse], [None] when it throws or yields [null]; and
    [new Date(t).toLocaleString()]. *)
Variable JSON_parse : jsstring -> option ParsedEntry.
Variable toLocaleString : jsstring -> jsstring.

Definition renderEntry (entry : JournalEntry) : EntryCard :=
  let time := toLocaleString (j_timestamp entry) in
  let content := j_entry entry in
  match JSON_parse content with
  | None => mkCard time content None
  | Some p =>
      let content1 :=
        if truthy (p_lessons p) then default [] (p_lessons p) else content in
      let outcome :=
        if truthy (p_outcome p)
        then Some (getOutcomeColor (default [] (p_outcome p)),
                   default [] (p_outcome p))
        else None in
      let content2 :=
        if truthy (p_what_failed p)
        then content1 ++ lit "<br><br>FAILED: " ++ default [] (p_what_failed p)
        else content1 in
      mkCard time content2 outcome
  end.

Definition loadJournal_then (entries : option (list JournalEntry))
  : list JournalChild :=
  match entries with
  | None | Some [] => [JournalEmpty (lit "No entries found.")]
  | Some es => (fun e => JournalCard (renderEntry e)) <$> reverse es
  end.

End Journal.

(** ** The second copy of the Command Center script

    What it has beyond the first: the host health grid. *)

(** [s.replace(pat, "")] with a string pattern: the first occurrence is
    removed. *)
Fixpoint removeFirst (pat s : jsstring) : jsstring :=
  match stripPrefix pat s with
  | Some rest => rest
  | None => match s with
            | [] => []
            | c :: s' => c :: removeFirst pat s'
            end
  end.

Definition cleanHost (host : jsstring) : jsstring :=
  removeFirst (lit "http://") (removeFirst (lit "https://") host).

Inductive HealthChild :=
| HealthEmpty (text : jsstring)
| HealthItem (label : jsstring) (cls : jsstring) (value : jsstring).

(** [healthMap] as the list of its entries in enumeration order. *)
Definition renderOllamaHealth (healthMap : list (jsstring * bool))
  : list HealthChild :=
  match healthMap with
  | [] => [HealthEmpty (lit "No hosts configured")]
  | _ :: _ =>
      (fun e : jsstring * bool =>
         HealthItem (cleanHost e.1)
                    (if e.2 then lit "online" else lit "offline")
                    (if e.2 then lit "ACTIVE" else lit "OFFLINE")) <$> healthMap
  end.

(** ** The live stream of the Ether script *)
Module EtherStream.

(** The line of [addStreamLine] with the clock reading [now]. *)
Definition streamLine (now text : jsstring) : jsstring :=
  lit "[" ++ now ++ lit "] " ++ text.

(** [addStreamLine(text, type)] on the children of the live stream. *)
Definition addStreamLine (now text : jsstring) (liveStream : list jsstring)
  : list jsstring :=
  removeLastIfOver 50 (streamLine now text :: liveStream).

(** The argument preview of a [tool_start] frame; [args] is
    [JSON.stringify(data.args)]. *)
Definition argsPreview (args : jsstring) : jsstring :=
  take 30 args ++ (if (30 <? length args)%nat then lit "..." else []).

(** The text a [tool_start] frame puts on the stream. *)
Definition toolStartText (tool args : jsstring) : jsstring :=
  [0x26A1%N] ++ lit " Running " ++ tool ++ lit "(" ++ argsPreview args ++ lit ")".

Definition addStreamLines (now : jsstring) (texts : list jsstring)
    (liveStream : list jsstring) : list jsstring :=
  foldl (fun acc t => addStreamLine now t acc) liveStream texts.

End EtherStream.

(** ** The system panel

    [fetchSystemInfo] of the second copy of the script shows one row per
    key of the body, the underscores of the key turned into spaces. *)

(** [key.replace(/_/g, ' ')] *)
Definition replaceUnderscores (key : jsstring) : jsstring :=
  (fun c => if (c =? 95)%N then 32%N else c) <$> key.

(** The continuation of [fetchSystemInfo()]: the rows it leaves in the
    panel, [None] when it returns without touching it.  [error] is
    whether the body has a truthy [error] field; [info] lists the
    entries of the body in enumeration order. *)
Definition fetchSystemInfo_then (error : bool) (info : list (jsstring * jsstring))
  : option (list (jsstring * jsstring)) :=
  if error then None
  else Some ((fun e : jsstring * jsstring => (replaceUnderscores e.1, e.2)) <$> info).

(** ** More auxiliary notions *)

(** A sequence of status bodies processed one after the other. *)
Definition processSnapshots (bodies : list StatusData) (s : State) : State :=
  foldl (fun acc d => fetchStatus_then d acc) s bodies.

(** A run of the event loop; [None] when an event is not enabled. *)
Definition runEvents (toUpperCase : jsstring -> jsstring)
    (events : list (jsstring * Event)) (s : State) : option State :=
  foldl (fun acc ne => acc ≫= step toUpperCase ne.1 ne.2) (Some s) events.

(** The counts of the status bodies among the events, in order. *)
Definition countsSeen (events : list (jsstring * Event)) : list Z :=
  omap (fun ne : jsstring * Event =>
          match ne.2 with
          | EvStatusBody d => Some (default 0 (memory_count d))
          | _ => None
          end) events.

(** The highest of the counts, -1 when there is none. *)
Definition highest (counts : list Z) : Z := foldl Z.max (-1) counts.

(** The graph view shown and the snapshots 3 and 2 processed, in this
    order. *)
Definition afterDip : State :=
  processSnapshots [mkStatus (Some 3) None; mkStatus (Some 2) None]
    (switchMainView graph freshPage).

(** A log text with a line before the line of the marker and nothing but
    white space after the marker. *)
Definition warmupLine : jsstring :=
  lit "warmup" ++ [10%N] ++ lit "Heartbeat:   ".

(** The client graph. *)
Definition graphOf (s : State) := (network s, graphNodes s, graphEdges s).

(** Both streams within their capacity. *)
Definition streamsBounded (s : State) : Prop :=
  (length (logConsole s) <= 200)%nat /\ (length (thoughtStream s) <= 20)%nat.

(** No white space at either end. *)
Definition trimmed (s : jsstring) : Prop := trim s = s.

(** The fresh page with a text typed in and the socket open. *)
Definition typedOnline : State :=
  set_userInput (lit "  status?  ") (set_sockets [OPEN] freshPage).

(** * Properties *)

(** ** Strings *)

Lemma afterMarker_stripPrefix s :
  is_Some (afterMarker s) <-> is_Some (stripPrefix (lit "Heartbeat:") s).
Proof.
  unfold afterMarker.
  destruct (stripPrefix (lit "Heartbeat:") s) as [r|]; [|done].
  split; intros _; [done|].
  destruct (stripPrefix (lit "Autonomy:") (skipWhiteSpace r)); done.
Qed.

Lemma includes_cons pat c s :
  includes pat (c :: s) =
  match stripPrefix pat (c :: s) with
  | Some _ => true
  | None => includes pat s
  end.
Proof. reflexivity. Qed.

Lemma includes_nil pat :
  includes pat [] = match stripPrefix pat [] with Some _ => true | None => false end.
Proof. reflexivity. Qed.

Lemma matchAt_includes s :
  is_Some (matchAt s) -> includes (lit "Heartbeat:") s = true.
Proof.
  induction s as [|c s IH]; intros Hm.
  - apply afterMarker_stripPrefix in Hm as [r Hr].
    rewrite includes_nil, Hr. done.
  - rewrite includes_cons.
    destruct (stripPrefix (lit "Heartbeat:") (c :: s)) as [r|] eqn:Hp; [done|].
    cbn [matchAt] in Hm.
    destruct (isLineTerminator c).
    + apply afterMarker_stripPrefix in Hm as [r Hr]. congruence.
    + destruct (matchAt s) as [r|] eqn:Hs.
      * apply IH. done.
      * apply afterMarker_stripPrefix in Hm as [r Hr]. congruence.
Qed.

Lemma stripPrefix_matchAt s :
  is_Some (stripPrefix (lit "Heartbeat:") s) -> is_Some (matchAt s).
Proof.
  intros Hp. apply afterMarker_stripPrefix in Hp.
  destruct s as [|c s]; [done|].
  cbn [matchAt]. destruct (isLineTerminator c); [done|].
  destruct (matchAt s); done.
Qed.

(** The guard [content.includes("Heartbeat:")] of the dispatcher holds
    exactly when the pattern it then replaces matches somewhere. *)
Lemma heartbeatTest_includes s :
  heartbeatTest s = includes (lit "Heartbeat:") s.
Proof.
  induction s as [|c s IH].
  - cbn [heartbeatTest]. rewrite includes_nil.
    destruct (matchAt []) as [r|] eqn:Hm.
    + symmetry. rewrite <- includes_nil. apply matchAt_includes. by rewrite Hm.
    + destruct (stripPrefix (lit "Heartbeat:") []) as [r|] eqn:Hp; [|done].
      assert (is_Some (matchAt [])) as [? ?]
        by (apply stripPrefix_matchAt; by rewrite Hp).
      congruence.
  - cbn [heartbeatTest]. rewrite includes_cons.
    destruct (matchAt (c :: s)) as [r|] eqn:Hm.
    + symmetry. rewrite <- includes_cons. apply matchAt_includes. by rewrite Hm.
    + destruct (stripPrefix (lit "Heartbeat:") (c :: s)) as [r|] eqn:Hp; [|done].
      assert (is_Some (matchAt (c :: s))) as [? ?]
        by (apply stripPrefix_matchAt; by rewrite Hp).
      congruence.
Qed.

Lemma stripPrefix_app pat rest : stripPrefix pat (pat ++ rest) = Some rest.
Proof.
  induction pat as [|p pat IH]; [by destruct rest|].
  cbn. by rewrite N.eqb_refl.
Qed.

Lemma matchAt_none s : includes (lit "Heartbeat:") s = false -> matchAt s = None.
Proof.
  intros Hno. destruct (matchAt s) as [r|] eqn:Hm; [|done].
  rewrite matchAt_includes in Hno by (by rewrite Hm). done.
Qed.

(** What is cut out when the marker is on the first line and does not
    occur again: everything up to the marker, the white space after it
    and an [Autonomy:] label with its white space.  What is left is the
    text after the marker. *)
Lemma replaceHeartbeat_marker (before after : jsstring) :
  forallb (fun c => negb (isLineTerminator c)) before = true ->
  includes (lit "Heartbeat:") (drop 1 (lit "Heartbeat:" ++ after)) = false ->
  replaceHeartbeat (before ++ lit "Heartbeat:" ++ after)
  = match stripPrefix (lit "Autonomy:") (skipWhiteSpace after) with
    | Some rest => skipWhiteSpace rest
    | None => skipWhiteSpace after
    end.
Proof.
  intros Hline Honce.
  set (left := match stripPrefix (lit "Autonomy:") (skipWhiteSpace after) with
               | Some rest => skipWhiteSpace rest
               | None => skipWhiteSpace after
               end).
  assert (afterMarker (lit "Heartbeat:" ++ after) = Some left) as Hafter.
  { unfold afterMarker. rewrite stripPrefix_app. cbv zeta. unfold left.
    by destruct (stripPrefix (lit "Autonomy:") (skipWhiteSpace after)). }
  assert (matchAt (lit "Heartbeat:" ++ after) = Some left) as Hhere.
  { apply matchAt_none in Honce.
    change (lit "Heartbeat:" ++ after)
      with (72%N :: drop 1 (lit "Heartbeat:" ++ after)) in Hafter |- *.
    cbn [matchAt]. change (isLineTerminator 72) with false. cbv iota.
    by rewrite Honce. }
  assert (matchAt (before ++ lit "Heartbeat:" ++ after) = Some left) as Hm.
  { induction before as [|c before IH]; [done|].
    cbn [forallb] in Hline. apply andb_true_iff in Hline as [Hc Hline].
    apply negb_true_iff in Hc.
    change ((c :: before) ++ lit "Heartbeat:" ++ after)
      with (c :: (before ++ lit "Heartbeat:" ++ after)).
    cbn [matchAt]. rewrite Hc, (IH Hline). done. }
  destruct before as [|c before].
  - change ([] ++ lit "Heartbeat:" ++ after)
      with (72%N :: drop 1 (lit "Heartbeat:" ++ after)) in Hm |- *.
    cbn [replaceHeartbeat]. by rewrite Hm.
  - change ((c :: before) ++ lit "Heartbeat:" ++ after)
      with (c :: (before ++ lit "Heartbeat:" ++ after)) in Hm |- *.
    cbn [replaceHeartbeat]. by rewrite Hm.
Qed.

(** When the marker is at the very start of a one-line text that holds
    it once, the thought is what follows it, trimmed. *)
Example heartbeatThought_plain :
  heartbeatThought ([0x26A1%N] ++ lit " Heartbeat: Autonomy: idle scan  ")
  = lit "idle scan".
Proof. vm_compute. reflexivity. Qed.

Example heartbeatThought_empty :
  heartbeatThought (lit "Heartbeat:   ") = [].
Proof. vm_compute. reflexivity. Qed.

(** The match is cut out of the text: lines before the line of the marker
    stay in the thought. *)
Example heartbeatThought_earlier_line :
  heartbeatThought (lit "warmup" ++ [10%N] ++ lit "Heartbeat: tick")
  = lit "warmup" ++ [10%N] ++ lit "tick".
Proof. vm_compute. reflexivity. Qed.

(** ** Bounded streams *)

Lemma removeFirstWhileOver_drop {A} cap (l : list A) :
  removeFirstWhileOver cap l = drop (length l - cap) l.
Proof.
  induction l as [|x l IH]; [done|].
  cbn [removeFirstWhileOver].
  destruct (Nat.ltb_spec cap (length (x :: l))) as [Hlt|Hge].
  - rewrite IH. cbn [length] in *.
    replace (S (length l) - cap)%nat with (S (length l - cap)) by lia.
    done.
  - replace (length (x :: l) - cap)%nat with 0%nat by lia. done.
Qed.

Lemma removeFirstWhileOver_length {A} cap (l : list A) :
  (length (removeFirstWhileOver cap l) <= cap)%nat.
Proof. rewrite removeFirstWhileOver_drop, length_drop. lia. Qed.

Lemma removelast_take {A} (l : list A) :
  removelast l = take (length l - 1) l.
Proof.
  induction l as [|x [|y l] IH]; [done..|].
  change (removelast (x :: y :: l)) with (x :: removelast (y :: l)).
  rewrite IH. cbn [length]. 
  replace (S (S (length l)) - 1)%nat with (S (S (length l) - 1)) by lia.
  done.
Qed.

Lemma removeLastIfOver_take {A} cap (l : list A) :
  (length l <= S cap)%nat -> removeLastIfOver cap l = take cap l.
Proof.
  intros Hl. unfold removeLastIfOver.
  destruct (Nat.ltb_spec cap (length l)) as [Hlt|Hge].
  - rewrite removelast_take. f_equal. lia.
  - by rewrite take_ge.
Qed.

Lemma logConsole_addLog now text s :
  logConsole (addLog now text s)
  = removeFirstWhileOver 200 (logConsole s ++ [logLine now text]).
Proof. reflexivity. Qed.

Lemma thoughtStream_addThought text s :
  thoughtStream (addThought text s)
  = removeLastIfOver 20 (text :: thoughtStream s).
Proof. reflexivity. Qed.

Lemma drop_app_keep {A} n (l k : list A) :
  (n <= length l)%nat -> drop n (l ++ k) = drop n l ++ k.
Proof.
  intros Hn. rewrite drop_app.
  replace (n - length l)%nat with 0%nat by lia. done.
Qed.

(** The log console after a history of insertions: the last 200 lines,
    oldest first. *)
Lemma logConsole_addLogs now texts s :
  (length (logConsole s) <= 200)%nat ->
  logConsole (addLogs now texts s)
  = drop (length (logConsole s) + length texts - 200)
         (logConsole s ++ (logLine now <$> texts)).
Proof.
  unfold addLogs. revert s.
  induction texts as [|t texts IH]; intros s Hs.
  - cbn. rewrite app_nil_r.
    replace (length (logConsole s) + 0 - 200)%nat with 0%nat by lia. done.
  - cbn [foldl]. rewrite IH by apply removeFirstWhileOver_length.
    rewrite logConsole_addLog, removeFirstWhileOver_drop.
    rewrite length_drop, !length_app. cbn [length fmap list_fmap].
    rewrite <- drop_app_keep by (rewrite length_app; cbn; lia).
    rewrite drop_drop, <- app_assoc. cbn [app].
    f_equal. lia.
Qed.

(** The thought stream after a history of insertions: the last 20
    thoughts, newest first. *)
Lemma thoughtStream_addThoughts texts s :
  (length (thoughtStream s) <= 20)%nat ->
  thoughtStream (addThoughts texts s)
  = take 20 (reverse texts ++ thoughtStream s).
Proof.
  unfold addThoughts. revert s.
  induction texts as [|t texts IH]; intros s Hs.
  - cbn. by rewrite take_ge.
  - cbn [foldl].
    assert (length (thoughtStream (addThought t s)) <= 20)%nat as Hb.
    { rewrite thoughtStream_addThought, removeLastIfOver_take by (cbn; lia).
      rewrite length_take. lia. }
    rewrite IH by done.
    rewrite thoughtStream_addThought, removeLastIfOver_take by (cbn; lia).
    rewrite reverse_cons, <- app_assoc. cbn [app].
    destruct (decide (length (reverse texts) <= 20)%nat) as [Hr|Hr].
    + rewrite !take_app_ge by done. f_equal.
      rewrite take_take. f_equal. lia.
    + rewrite !take_app_le by lia. done.
Qed.

(** C6 (as amended).  After an insertion the log console holds at most
    200 lines, and the thought stream at most 20 thoughts when it held at
    most 20 before.  Below capacity nothing is evicted.  An insertion
    into a full stream evicts exactly one child, and in both streams it
    is the oldest one: the first child of the log console, which appends,
    and the last child of the thought stream, which prepends.  From empty
    streams, a history of insertions leaves the last 200 lines oldest
    first, and the last 20 thoughts newest first. *)
Theorem streams_bounded_oldest_evicted (now text : jsstring) (s : State) :
  (length (thoughtStream s) <= 20)%nat ->
  (length (logConsole (addLog now text s)) <= 200)%nat /\
  (length (thoughtStream (addThought text s)) <= 20)%nat /\
  ((length (logConsole s) < 200)%nat ->
   logConsole (addLog now text s) = logConsole s ++ [logLine now text]) /\
  ((length (thoughtStream s) < 20)%nat ->
   thoughtStream (addThought text s) = text :: thoughtStream s) /\
  (length (logConsole s) = 200%nat ->
   logConsole (addLog now text s) = drop 1 (logConsole s) ++ [logLine now text]) /\
  (length (thoughtStream s) = 20%nat ->
   thoughtStream (addThought text s) = text :: take 19 (thoughtStream s)) /\
  (forall texts, logConsole s = [] ->
   logConsole (addLogs now texts s)
   = logLine now <$> drop (length texts - 200) texts) /\
  (forall texts, thoughtStream s = [] ->
   thoughtStream (addThoughts texts s) = take 20 (reverse texts)).
Proof.
  intros Hth.
  rewrite logConsole_addLog, thoughtStream_addThought.
  rewrite removeFirstWhileOver_drop, removeLastIfOver_take by (cbn; lia).
  rewrite length_drop, length_take, length_app. cbn [length].
  split_and!.
  - lia.
  - lia.
  - intros Hlt. replace (length (logConsole s) + 1 - 200)%nat with 0%nat by lia.
    done.
  - intros Hlt. by rewrite take_ge by (cbn; lia).
  - intros Hfull. rewrite Hfull. cbn [Nat.add Nat.sub].
    apply drop_app_keep. lia.
  - intros Hfull. done.
  - intros texts Hempty.
    rewrite logConsole_addLogs by (rewrite Hempty; cbn; lia).
    rewrite Hempty. cbn [length app Nat.add].
    by rewrite fmap_drop.
  - intros texts Hempty.
    rewrite thoughtStream_addThoughts by done.
    by rewrite Hempty, app_nil_r.
Qed.

Lemma streams_bounded_oldest_evicted_witness :
  (length (thoughtStream fullStreams) <= 20)%nat /\
  logConsole (addLog (lit "09:00:01") (numbered 201) fullStreams)
  = drop 1 (logConsole fullStreams) ++ [logLine (lit "09:00:01") (numbered 201)] /\
  thoughtStream (addThought (numbered 21) fullStreams)
  = numbered 21 :: take 19 (thoughtStream fullStreams).
Proof.
  assert (length (thoughtStream fullStreams) <= 20)%nat as Hth
    by (vm_compute; lia).
  split; [exact Hth|].
  split.
  - pose proof (streams_bounded_oldest_evicted
                  (lit "09:00:01") (numbered 201) fullStreams Hth)
      as (_ & _ & _ & _ & Hlog & _).
    apply Hlog. vm_compute. reflexivity.
  - pose proof (streams_bounded_oldest_evicted
                  (lit "09:00:01") (numbered 21) fullStreams Hth)
      as (_ & _ & _ & _ & _ & Hthought & _).
    apply Hthought. vm_compute. reflexivity.
Defined.

(** C6: the thought stream does not evict its newest entry.  With the
    thoughts #1 to #20 in the stream, inserting #21 drops exactly #1, the
    oldest; #21 and #20 stay. *)
Lemma thought_stream_evicts_oldest_not_newest :
  let before := thoughtStream fullStreams in
  let after := thoughtStream (addThought (numbered 21) fullStreams) in
  length before = 20%nat /\
  filter (fun t => t ∉ after) (numbered 21 :: before) = [numbered 1] /\
  numbered 21 ∈ after /\ numbered 20 ∈ after /\
  ~ (filter (fun t => t ∉ after) (numbered 21 :: before) = [numbered 21]) /\
  ~ (filter (fun t => t ∉ after) (numbered 21 :: before) = [numbered 20]).
Proof.
  cbv zeta.
  assert (filter (fun t => t ∉ thoughtStream (addThought (numbered 21) fullStreams))
                 (numbered 21 :: thoughtStream fullStreams) = [numbered 1]) as Hev
    by (vm_compute; reflexivity).
  rewrite Hev.
  split; [vm_compute; reflexivity|].
  split; [reflexivity|].
  split; [apply (bool_decide_unpack _); vm_compute; exact I|].
  split; [apply (bool_decide_unpack _); vm_compute; exact I|].
  split; intros Heq; vm_compute in Heq; discriminate Heq.
Qed.

(** ** Dispatcher *)

(** ** Sending *)

Lemma openSocket_open s h :
  openSocket s = Some h -> ws s = Some h /\ sockets s !! h = Some OPEN.
Proof.
  unfold openSocket. destruct (ws s) as [h'|]; [|done].
  case_bool_decide; [|done]. by intros [= ->].
Qed.

(** [sendMessage] of the Command Center script: an empty text changes
    nothing; without an open socket the only effect is the notice in the
    log console; a frame goes out only for a non-empty text on an open
    socket. *)
Lemma sendMessage_guards (now : jsstring) (s : State) :
  (trim (userInput s) = [] -> sendMessage now s = s) /\
  (trim (userInput s) <> [] -> openSocket s = None ->
   sendMessage now s = addLog now cannotSend s /\
   sent (sendMessage now s) = sent s /\
   userInput (sendMessage now s) = userInput s /\
   chatWindow (sendMessage now s) = chatWindow s /\
   statusPill (sendMessage now s) = statusPill s) /\
  (forall h, trim (userInput s) <> [] -> openSocket s = Some h ->
   sent (sendMessage now s) = sent s ++ [(h, trim (userInput s))] /\
   userInput (sendMessage now s) = []) /\
  (sent (sendMessage now s) <> sent s ->
   trim (userInput s) <> [] /\
   exists h, ws s = Some h /\ sockets s !! h = Some OPEN).
Proof.
  unfold sendMessage.
  destruct (trim (userInput s)) as [|c text] eqn:Htext.
  - split_and!; try done.
  - destruct (openSocket s) as [h|] eqn:Hopen.
    + split_and!; try done.
      * intros h' _ [= <-]. done.
      * intros _. split; [done|]. exists h. by apply openSocket_open.
    + split_and!; try done.
Qed.

(** C8.  With a text typed in and the socket closed, [sendMessage] of
    the Ether script sends nothing and keeps the input, but logs no
    notice either: the page is left exactly as it was.  The Command
    Center script in the same situation adds the notice to its log
    console. *)
Theorem ether_sendMessage_offline_silent :
  trim (Ether.chatInput etherOffline) <> [] /\
  Ether.sendMessage etherOffline = etherOffline /\
  Ether.liveStream (Ether.sendMessage etherOffline) = [] /\
  logConsole (sendMessage (lit "09:00:00") dashboardOffline)
  = [logLine (lit "09:00:00") cannotSend] /\
  sent (sendMessage (lit "09:00:00") dashboardOffline) = [] /\
  userInput (sendMessage (lit "09:00:00") dashboardOffline) = lit "status?".
Proof.
  split; [vm_compute; discriminate|].
  split_and!; vm_compute; reflexivity.
Qed.

(** Whatever the page, the Ether [sendMessage] does nothing at all unless
    the text is non-empty and the socket open. *)
Lemma ether_sendMessage_rejects (s : Ether.State) :
  trim (Ether.chatInput s) = [] \/ Ether.ws s <> Some OPEN ->
  Ether.sendMessage s = s.
Proof.
  unfold Ether.sendMessage. intros [Hempty|Hclosed].
  - rewrite Hempty. done.
  - destruct (trim (Ether.chatInput s)); [done|].
    destruct (Ether.ws s) as [[]|]; done.
Qed.

(** ** Graph synchronizer *)

(** C9.  Once the network exists, the continuation of a non-forced
    [loadGraph] leaves the whole state as it is, whatever was fetched;
    and switching views only ever issues the non-forced request, without
    touching the graph. *)
Theorem unforced_pass_is_noop (data : GraphData) (viewId : View) (s : State) :
  network s = true ->
  loadGraph_then false data s = s /\
  graphNodes (switchMainView viewId s) = graphNodes s /\
  graphEdges (switchMainView viewId s) = graphEdges s /\
  (requests (switchMainView viewId s) = requests s \/
   requests (switchMainView viewId s) = requests s ++ [ReqGraph false]).
Proof.
  intros Hnet. split_and!.
  - unfold loadGraph_then. rewrite Hnet.
    destruct (g_nodes data); done.
  - unfold switchMainView, loadGraph.
    destruct viewId; [done| |done]. by destruct (networkContainer _).
  - unfold switchMainView, loadGraph.
    destruct viewId; [done| |done]. by destruct (networkContainer _).
  - unfold switchMainView, loadGraph.
    destruct viewId; [by left| |by left].
    destruct (networkContainer _) eqn:Hc; [right|left]; done.
Qed.

Lemma unforced_pass_is_noop_witness :
  network seeded = true /\
  loadGraph_then false grownGraph seeded = seeded /\
  length (graphNodes (loadGraph_then false grownGraph seeded)) = 3%nat.
Proof.
  assert (network seeded = true) as Hnet by (vm_compute; reflexivity).
  split; [exact Hnet|].
  destruct (unforced_pass_is_noop grownGraph graph seeded Hnet) as (Hsame & _).
  split; [exact Hsame|].
  rewrite Hsame. vm_compute. reflexivity.
Defined.

(** ** Status poll *)

Lemma requests_loadGraph force s :
  requests (loadGraph force s)
  = requests s ++ (if networkContainer s then [ReqGraph force] else []).
Proof.
  unfold loadGraph. destruct (networkContainer s); [done|].
  by rewrite app_nil_r.
Qed.

Lemma updateGoal_frame data s :
  requests (updateGoal data s) = requests s /\
  lastMemoryCount (updateGoal data s) = lastMemoryCount s /\
  memoryCount (updateGoal data s) = memoryCount s.
Proof.
  unfold updateGoal. destruct (goal data) as [g|]; [|done].
  destruct (goal_goal g) as [[|c t]|]; [done| |done].
  case_bool_decide; [done|].
  unfold renderSubtasks. destruct (default [] (goal_subtasks g)); done.
Qed.

(** What the counter part of [fetchStatus_then] does to the request log
    and to [lastMemoryCount], with the counter element on the page. *)
Lemma fetchStatus_then_counter data s :
  memoryCount s <> None ->
  let count := default 0 (memory_count data) in
  let s' := fetchStatus_then data s in
  requests s'
  = requests s ++
    (if (lastMemoryCount s <? count) && negb (lastMemoryCount s =? -1)
        && bool_decide (activeView s = graph) && networkContainer s
     then [ReqGraph true] else []) /\
  lastMemoryCount s' = Z.max (lastMemoryCount s) count.
Proof.
  intros Hel. cbv zeta. unfold fetchStatus_then.
  destruct (updateGoal_frame data (updateStats data s)) as (-> & -> & _).
  unfold updateStats.
  destruct (memoryCount s) as [shown|] eqn:Hshown; [|done].
  set (count := default 0 (memory_count data)).
  cbn [lastMemoryCount set_memoryCount activeView].
  destruct (Z.ltb_spec (lastMemoryCount s) count) as [Hlt|Hge].
  - cbn [andb]. split; [|cbn; lia].
    cbn [requests set_lastMemoryCount].
    destruct (negb (lastMemoryCount s =? -1) && bool_decide (activeView s = graph)).
    + rewrite requests_loadGraph. cbn. done.
    + cbn. by rewrite app_nil_r.
  - cbn [andb]. split; [cbn; by rewrite app_nil_r|cbn; lia].
Qed.

(** The trigger in terms of the variable: with the counter element and
    the graph container on the page, processing a snapshot issues the
    forced graph fetch if and only if its count is strictly greater than
    [lastMemoryCount], [lastMemoryCount] is not -1, and the graph view is
    the active one; otherwise no request is issued at all. *)
Lemma forced_refresh_trigger (data : StatusData) (s : State) :
  memoryCount s <> None ->
  networkContainer s = true ->
  let count := default 0 (memory_count data) in
  let s' := fetchStatus_then data s in
  (requests s' = requests s ++ [ReqGraph true] <->
   count > lastMemoryCount s /\ lastMemoryCount s <> -1 /\ activeView s = graph) /\
  (requests s' = requests s ++ [ReqGraph true] \/ requests s' = requests s) /\
  (lastMemoryCount s = -1 -> requests s' = requests s).
Proof.
  intros Hel Hc. cbv zeta.
  destruct (fetchStatus_then_counter data s Hel) as [Hreq _].
  cbv zeta in Hreq. rewrite Hreq, Hc, andb_true_r. clear Hreq.
  set (count := default 0 (memory_count data)).
  set (fire := (lastMemoryCount s <? count) && negb (lastMemoryCount s =? -1)
               && bool_decide (activeView s = graph)).
  assert (fire = true <->
          count > lastMemoryCount s /\ lastMemoryCount s <> -1 /\
          activeView s = graph) as Hfire.
  { unfold fire. rewrite !andb_true_iff, negb_true_iff.
    rewrite Z.ltb_lt, Z.eqb_neq, bool_decide_eq_true. intuition lia. }
  destruct fire.
  - split_and!.
    + split; [intros _; by apply Hfire|done].
    + by left.
    + intros Hs. apply Hfire in Hs; [done|]. lia.
  - rewrite app_nil_r. split_and!.
    + split.
      * intros Heq. apply (f_equal length) in Heq.
        rewrite length_app in Heq. cbn in Heq. lia.
      * intros Hcond. apply Hfire in Hcond. done.
    + by right.
    + done.
Qed.

Lemma forced_refresh_trigger_witness :
  memoryCount watchingGraph <> None /\
  networkContainer watchingGraph = true /\
  requests (fetchStatus_then (mkStatus (Some 5) None) watchingGraph)
  = [ReqGraph true].
Proof.
  assert (memoryCount watchingGraph <> None) as Hel by (vm_compute; discriminate).
  assert (networkContainer watchingGraph = true) as Hc by reflexivity.
  split; [exact Hel|]. split; [exact Hc|].
  destruct (forced_refresh_trigger (mkStatus (Some 5) None) watchingGraph Hel Hc)
    as ([_ Hfire] & _).
  apply Hfire. vm_compute. split_and!; [reflexivity|discriminate|reflexivity].
Defined.

(** C3 (as amended).  With the counter element on the page,
    [lastMemoryCount] after a snapshot is the greater of its previous
    value and the count of the snapshot: it takes the new count whenever
    that is strictly greater, also on the first snapshot, where the
    forced pass is skipped, and it keeps its value when the count is
    equal or lower. *)
Theorem lastMemoryCount_high_water (data : StatusData) (s : State) :
  memoryCount s <> None ->
  let count := default 0 (memory_count data) in
  let s' := fetchStatus_then data s in
  lastMemoryCount s' = Z.max (lastMemoryCount s) count /\
  (count > lastMemoryCount s -> lastMemoryCount s' = count) /\
  (count <= lastMemoryCount s -> lastMemoryCount s' = lastMemoryCount s) /\
  (lastMemoryCount s = -1 -> 0 <= count ->
   lastMemoryCount s' = count /\ ReqGraph true ∉ drop (length (requests s)) (requests s')).
Proof.
  intros Hel. cbv zeta.
  destruct (fetchStatus_then_counter data s Hel) as [Hreq Hlast].
  cbv zeta in Hreq, Hlast. rewrite Hlast.
  split_and!; try lia.
  intros Hs Hpos. split; [lia|].
  rewrite Hreq, Hs. rewrite andb_false_r. cbn [andb].
  rewrite app_nil_r, drop_all. apply not_elem_of_nil.
Qed.

Lemma lastMemoryCount_high_water_witness :
  memoryCount watchingGraph <> None /\
  lastMemoryCount (fetchStatus_then (mkStatus (Some 5) None) watchingGraph) = 5 /\
  lastMemoryCount (fetchStatus_then (mkStatus (Some 2) None) watchingGraph) = 3.
Proof.
  assert (memoryCount watchingGraph <> None) as Hel by (vm_compute; discriminate).
  split; [exact Hel|]. split.
  - destruct (lastMemoryCount_high_water (mkStatus (Some 5) None) watchingGraph Hel)
      as (_ & Hup & _).
    apply Hup. vm_compute. reflexivity.
  - destruct (lastMemoryCount_high_water (mkStatus (Some 2) None) watchingGraph Hel)
      as (_ & _ & Hkeep & _).
    rewrite Hkeep; [reflexivity|]. vm_compute. discriminate.
Defined.

(** C3: a snapshot with a lower count does not lower [lastMemoryCount].
    After 3 memories were seen, a snapshot reporting 2 leaves it at 3. *)
Lemma lastMemoryCount_not_lowered :
  let data := mkStatus (Some 2) None in
  lastMemoryCount (fetchStatus_then data watchingGraph) = 3 /\
  lastMemoryCount (fetchStatus_then data watchingGraph)
  <> default 0 (memory_count data).
Proof.
  cbv zeta. split; [vm_compute; reflexivity|].
  vm_compute. discriminate.
Qed.

(** C10.  A snapshot whose goal is titled "Idle" leaves the page exactly
    as the same snapshot without a goal does: the title reads "No active
    goal", the subtask list holds the idle placeholder, and the subtasks
    of the goal are not rendered. *)
Theorem idle_goal_as_no_goal
    (mc : option Z) (subtasks : option (list Subtask)) (s : State) :
  let idle := mkStatus mc (Some (mkGoal (Some (lit "Idle")) subtasks)) in
  let none := mkStatus mc None in
  fetchStatus_then idle s = fetchStatus_then none s /\
  goalTitle (fetchStatus_then idle s)
  = mkGoalTitle (lit "No active goal") (lit "var(--text-dim)") /\
  subtaskList (fetchStatus_then idle s) = [EmptyState (lit "System Idle")].
Proof.
  cbv zeta. unfold fetchStatus_then.
  change (updateStats (mkStatus mc (Some (mkGoal (Some (lit "Idle")) subtasks))) s)
    with (updateStats (mkStatus mc None) s).
  generalize (updateStats (mkStatus mc None) s). intros s1.
  assert (updateGoal (mkStatus mc (Some (mkGoal (Some (lit "Idle")) subtasks))) s1
          = updateGoal (mkStatus mc None) s1) as Hsame.
  { unfold updateGoal. cbn [goal goal_goal].
    set (title := lit "Idle"). vm_compute in title. subst title.
    cbv iota. rewrite bool_decide_eq_true_2 by reflexivity. done. }
  rewrite Hsame. split_and!; done.
Qed.

(** ** Graph merge *)

Lemma set_graphNodes_same s : set_graphNodes (graphNodes s) s = s.
Proof. by destruct s. Qed.

Lemma hasId_true i ds : hasId i ds = true <-> i ∈ n_id <$> ds.
Proof. unfold hasId. apply bool_decide_eq_true. Qed.

Lemma hasId_false i ds : hasId i ds = false <-> i ∉ n_id <$> ds.
Proof. unfold hasId. apply bool_decide_eq_false. Qed.

(** Adding items whose ids are new and pairwise distinct appends them
    all and does not throw. *)
Lemma addItems_fresh items ds :
  NoDup (n_id <$> items) ->
  (forall x, x ∈ items -> n_id x ∉ n_id <$> ds) ->
  addItems items ds = (ds ++ items, true).
Proof.
  revert ds. induction items as [|x items IH]; intros ds Hnd Hnew.
  - cbn. by rewrite app_nil_r.
  - cbn [addItems]. rewrite fmap_cons in Hnd. apply NoDup_cons in Hnd as [Hx Hnd].
    rewrite (proj2 (hasId_false _ _)) by (apply Hnew; left).
    rewrite IH; [by rewrite <- app_assoc|done|].
    intros y Hy. rewrite fmap_app, elem_of_app. cbn.
    intros [Hin|Hin%list_elem_of_singleton].
    + by apply (Hnew y); [right|].
    + apply Hx. rewrite <- Hin. by apply list_elem_of_fmap_2.
Qed.

Lemma nodesAdd_fresh items ds :
  NoDup (n_id <$> items) ->
  (forall x, x ∈ items -> n_id x ∉ n_id <$> ds) ->
  nodesAdd items ds = (ds ++ items, true).
Proof.
  intros Hnd Hnew. unfold nodesAdd.
  replace (existsb (fun x => hasId (n_id x) ds) items) with false.
  - by apply addItems_fresh.
  - symmetry. apply not_true_is_false. intros (x & Hx & Hid)%existsb_exists.
    apply hasId_true in Hid. apply (Hnew x); [|done].
    by apply list_elem_of_In.
Qed.

Lemma NoDup_key_filter {A B} (key : A -> B) (P : A -> Prop)
    `{!forall x, Decision (P x)} (l : list A) :
  NoDup (key <$> l) -> NoDup (key <$> filter P l).
Proof.
  induction l as [|x l IH]; [done|].
  rewrite fmap_cons, NoDup_cons. intros [Hx Hnd].
  destruct (decide (P x)) as [Hp|Hp].
  - rewrite filter_cons_True by done. rewrite fmap_cons, NoDup_cons.
    split; [|by apply IH].
    intros (y & Hy & Hin)%list_elem_of_fmap. apply Hx. rewrite Hy.
    apply list_elem_of_fmap_2. apply list_elem_of_filter in Hin. tauto.
  - rewrite filter_cons_False by done. by apply IH.
Qed.

(** Appending the items whose key is absent keeps the keys distinct. *)
Lemma NoDup_key_delta {A B} `{EqDecision B} (key : A -> B) (have new : list A) :
  NoDup (key <$> have) -> NoDup (key <$> new) ->
  NoDup (key <$> (have ++ filter (fun x => key x ∉ key <$> have) new)).
Proof.
  intros Hhave Hnew. rewrite fmap_app. apply NoDup_app. split_and!.
  - done.
  - intros k Hk (x & -> & Hx)%list_elem_of_fmap.
    apply list_elem_of_filter in Hx as [Hout _]. done.
  - by apply NoDup_key_filter.
Qed.

Lemma filter_absent_nil {A B} `{EqDecision B} (key : A -> B) (have : list B) (l : list A) :
  (forall x, x ∈ l -> key x ∈ have) ->
  filter (fun x => key x ∉ have) l = [].
Proof.
  intros Hall. induction l as [|x l IH]; [done|].
  rewrite filter_cons_False.
  - apply IH. intros y Hy. apply Hall. by right.
  - intros Hn. apply Hn, Hall. by left.
Qed.

Lemma newNodes_set have nodes :
  filter (fun n => n_id n ∉ (list_to_set (n_id <$> have) : gset jsstring)) nodes
  = newNodesOf have nodes.
Proof.
  apply list_filter_iff. intros n. by rewrite elem_of_list_to_set.
Qed.

Lemma newEdges_set have edges :
  filter (fun e => edgeKey e ∉ (list_to_set (edgeKey <$> have) : gset jsstring)) edges
  = newEdgesOf have edges.
Proof.
  apply list_filter_iff. intros e. by rewrite elem_of_list_to_set.
Qed.

(** The forced branch of [loadGraph_then] on a body whose node ids are
    distinct. *)
Lemma loadGraph_then_forced nodes edges s :
  network s = true ->
  NoDup (n_id <$> nodes) ->
  loadGraph_then true (mkGraphData (Some nodes) (Some edges)) s
  = set_graphEdges (graphEdges s ++ newEdgesOf (graphEdges s) edges)
      (set_graphNodes (graphNodes s ++ newNodesOf (graphNodes s) nodes) s).
Proof.
  intros Hnet Hnd. unfold loadGraph_then. cbn [g_nodes g_edges].
  rewrite Hnet. cbn [negb]. rewrite newNodes_set.
  assert ((if (0 <? length (newNodesOf (graphNodes s) nodes))%nat
           then nodesAdd (newNodesOf (graphNodes s) nodes) (graphNodes s)
           else (graphNodes s, true))
          = (graphNodes s ++ newNodesOf (graphNodes s) nodes, true)) as ->.
  { destruct (newNodesOf (graphNodes s) nodes) as [|n new] eqn:Hnew.
    - cbn. by rewrite app_nil_r.
    - cbn [length Nat.ltb Nat.leb]. rewrite <- Hnew. apply nodesAdd_fresh.
      + by apply NoDup_key_filter.
      + intros x Hx. unfold newNodesOf in Hx.
        apply list_elem_of_filter in Hx. tauto. }
  cbn [graphEdges set_graphNodes]. rewrite newEdges_set.
  destruct (newEdgesOf (graphEdges s) edges) as [|e new] eqn:Hnew.
  - cbn. rewrite app_nil_r. by destruct s.
  - done.
Qed.

(** C1.  After the seed, a forced pass on a fetched body with distinct
    node ids appends to the client graph exactly the fetched nodes whose
    id it does not hold yet and exactly the fetched edges whose key
    [from|to|label] it does not hold yet, in the order fetched, and
    changes nothing else: what it held stays in place.  No appended node
    has an id, and no appended edge a key, that was held before.
    Merging the same body once more changes nothing.  Node ids that were
    distinct stay distinct, and so do edge keys when the keys of the body
    are distinct.  When the body covers everything the client holds, the
    client ends with exactly the ids and keys of the body. *)
Theorem forced_merge_adds_delta
    (nodes : list GraphNode) (edges : list GraphEdge) (s : State) :
  network s = true ->
  NoDup (n_id <$> nodes) ->
  let data := mkGraphData (Some nodes) (Some edges) in
  let s1 := loadGraph_then true data s in
  let addedNodes := filter (fun n => n_id n ∉ n_id <$> graphNodes s) nodes in
  let addedEdges := filter (fun e => edgeKey e ∉ edgeKey <$> graphEdges s) edges in
  s1 = set_graphEdges (graphEdges s ++ addedEdges)
         (set_graphNodes (graphNodes s ++ addedNodes) s) /\
  graphNodes s1 = graphNodes s ++ addedNodes /\
  graphEdges s1 = graphEdges s ++ addedEdges /\
  (forall n, n ∈ addedNodes -> n ∈ nodes /\ n_id n ∉ n_id <$> graphNodes s) /\
  (forall e, e ∈ addedEdges -> e ∈ edges /\ edgeKey e ∉ edgeKey <$> graphEdges s) /\
  loadGraph_then true data s1 = s1 /\
  (NoDup (n_id <$> graphNodes s) -> NoDup (n_id <$> graphNodes s1)) /\
  (NoDup (edgeKey <$> graphEdges s) -> NoDup (edgeKey <$> edges) ->
   NoDup (edgeKey <$> graphEdges s1)) /\
  ((forall n, n ∈ graphNodes s -> n_id n ∈ n_id <$> nodes) ->
   forall i, i ∈ n_id <$> graphNodes s1 <-> i ∈ n_id <$> nodes) /\
  ((forall e, e ∈ graphEdges s -> edgeKey e ∈ edgeKey <$> edges) ->
   forall k, k ∈ edgeKey <$> graphEdges s1 <-> k ∈ edgeKey <$> edges).
Proof.
  intros Hnet Hnd. cbv zeta.
  rewrite (loadGraph_then_forced nodes edges s Hnet Hnd).
  fold (newNodesOf (graphNodes s) nodes) (newEdgesOf (graphEdges s) edges).
  set (s1 := set_graphEdges _ _).
  assert (graphNodes s1 = graphNodes s ++ newNodesOf (graphNodes s) nodes)
    as HN by reflexivity.
  assert (graphEdges s1 = graphEdges s ++ newEdgesOf (graphEdges s) edges)
    as HE by reflexivity.
  assert (forall n, n ∈ nodes -> n_id n ∈ n_id <$> graphNodes s1) as Hcov.
  { intros n Hn. rewrite HN, fmap_app, elem_of_app.
    destruct (decide (n_id n ∈ n_id <$> graphNodes s)) as [Hin|Hout]; [by left|].
    right. apply list_elem_of_fmap_2. unfold newNodesOf.
    apply list_elem_of_filter. done. }
  assert (forall e, e ∈ edges -> edgeKey e ∈ edgeKey <$> graphEdges s1) as Hcov'.
  { intros e He. rewrite HE, fmap_app, elem_of_app.
    destruct (decide (edgeKey e ∈ edgeKey <$> graphEdges s)) as [Hin|Hout]; [by left|].
    right. apply list_elem_of_fmap_2. unfold newEdgesOf.
    apply list_elem_of_filter. done. }
  split_and!; try done.
  - intros n Hn. unfold newNodesOf in Hn. apply list_elem_of_filter in Hn. tauto.
  - intros e He. unfold newEdgesOf in He. apply list_elem_of_filter in He. tauto.
  - rewrite (loadGraph_then_forced nodes edges s1) by done.
    unfold newNodesOf, newEdgesOf.
    rewrite (filter_absent_nil n_id) by done.
    rewrite (filter_absent_nil edgeKey) by done.
    rewrite !app_nil_r. by destruct s1.
  - intros Hs. rewrite HN. by apply NoDup_key_delta.
  - intros Hs He. rewrite HE. by apply NoDup_key_delta.
  - intros Hsup i. split; [|intros (n & -> & Hn)%list_elem_of_fmap; by apply Hcov].
    rewrite HN, fmap_app, elem_of_app.
    intros [(n & -> & Hn)%list_elem_of_fmap|(n & -> & Hn)%list_elem_of_fmap].
    + by apply Hsup.
    + unfold newNodesOf in Hn. apply list_elem_of_filter in Hn as [_ Hn].
      by apply list_elem_of_fmap_2.
  - intros Hsup k. split; [|intros (e & -> & He)%list_elem_of_fmap; by apply Hcov'].
    rewrite HE, fmap_app, elem_of_app.
    intros [(e & -> & He)%list_elem_of_fmap|(e & -> & He)%list_elem_of_fmap].
    + by apply Hsup.
    + unfold newEdgesOf in He. apply list_elem_of_filter in He as [_ He].
      by apply list_elem_of_fmap_2.
Qed.

Lemma forced_merge_adds_delta_witness :
  network seeded = true /\
  length (graphNodes seeded) = 3%nat /\ length (graphEdges seeded) = 2%nat /\
  length (graphNodes (loadGraph_then true grownGraph seeded)) = 4%nat /\
  length (graphEdges (loadGraph_then true grownGraph seeded)) = 3%nat.
Proof.
  assert (network seeded = true) as Hnet by (vm_compute; reflexivity).
  assert (NoDup (n_id <$> [mkNode (lit "m1") (lit "coffee"); mkNode (lit "m2") (lit "tea");
                           mkNode (lit "m3") (lit "water"); mkNode (lit "m4") (lit "milk")]))
    as Hnd by (apply (bool_decide_unpack _); vm_compute; exact I).
  split; [exact Hnet|].
  split; [vm_compute; reflexivity|]. split; [vm_compute; reflexivity|].
  destruct (forced_merge_adds_delta _
              [mkEdge (lit "m1") (lit "m2") (lit "like");
               mkEdge (lit "m2") (lit "m3") (lit "like");
               mkEdge (lit "m4") (lit "m1") (lit "in")] seeded Hnet Hnd)
    as (_ & HN & HE & _).
  unfold grownGraph. rewrite HN, HE.
  split; vm_compute; reflexivity.
Defined.

(** A body that repeats a node id is not a node set: [add] throws at the
    repetition, and the nodes after it and all the edges of that body are
    left out of this pass. *)
Example forced_merge_repeated_id :
  let body :=
    mkGraphData
      (Some [mkNode (lit "m1") (lit "coffee"); mkNode (lit "m4") (lit "milk");
             mkNode (lit "m4") (lit "milk"); mkNode (lit "m5") (lit "oat")])
      (Some [mkEdge (lit "m4") (lit "m1") (lit "in")]) in
  graphNodes (loadGraph_then true body seeded)
  = graphNodes seeded ++ [mkNode (lit "m4") (lit "milk")] /\
  graphEdges (loadGraph_then true body seeded) = graphEdges seeded.
Proof. cbv zeta. split; vm_compute; reflexivity. Qed.

(** Edges carry no id, so a body that repeats an edge gets both copies
    appended in the pass that first sees them; later passes add none. *)
Example forced_merge_repeated_edge :
  let body :=
    mkGraphData
      (Some [mkNode (lit "m1") (lit "coffee")])
      (Some [mkEdge (lit "m3") (lit "m1") (lit "with");
             mkEdge (lit "m3") (lit "m1") (lit "with")]) in
  let once := loadGraph_then true body seeded in
  length (graphEdges once) = 4%nat /\
  loadGraph_then true body once = once.
Proof. cbv zeta. split; vm_compute; reflexivity. Qed.

(** ** Connection manager *)

Lemma connOf_addLog now text s : connOf (addLog now text s) = connOf s.
Proof. reflexivity. Qed.

Lemma connOf_addThought text s : connOf (addThought text s) = connOf s.
Proof. reflexivity. Qed.

Lemma connOf_updateStatus status s : connOf (updateStatus status s) = connOf s.
Proof. reflexivity. Qed.

Lemma connOf_addMessage role text s : connOf (addMessage role text s) = connOf s.
Proof. reflexivity. Qed.

Lemma connOf_fetchStatus s : connOf (fetchStatus s) = connOf s.
Proof. reflexivity. Qed.

Lemma connOf_loadJournal s : connOf (loadJournal s) = connOf s.
Proof. reflexivity. Qed.

Lemma connOf_loadGraph force s : connOf (loadGraph force s) = connOf s.
Proof. unfold loadGraph. by destruct (networkContainer s). Qed.

Lemma connOf_setConnectionDot cls s : connOf (setConnectionDot cls s) = connOf s.
Proof. unfold setConnectionDot. by destruct (connectionDot s). Qed.

Lemma connOf_sendMessage now s : connOf (sendMessage now s) = connOf s.
Proof.
  unfold sendMessage. destruct (trim (userInput s)); [done|].
  by destruct (openSocket s).
Qed.

Lemma connOf_loadGraph_then force data s :
  connOf (loadGraph_then force data s) = connOf s.
Proof.
  unfold loadGraph_then. destruct (g_nodes data) as [nodes|]; [|done].
  destruct (negb (network s)).
  - destruct (nodesAdd nodes (graphNodes s)) as [ds []]; [|done].
    by destruct (g_edges data).
  - destruct force; [|done].
    match goal with |- context [if ?b then nodesAdd ?x ?y else ?z] =>
      destruct (if b then nodesAdd x y else z) as [ds []] end; [|done].
    destruct (g_edges data) as [edges|]; [|done].
    match goal with |- context [if ?b then _ else _] => by destruct b end.
Qed.

Lemma connOf_fetchStatus_then data s :
  connOf (fetchStatus_then data s) = connOf s.
Proof.
  unfold fetchStatus_then.
  transitivity (connOf (updateStats data s)).
  - unfold updateGoal. destruct (goal data) as [g|]; [|done].
    destruct (goal_goal g) as [[|c t]|]; [done| |done].
    case_bool_decide; [done|].
    unfold renderSubtasks. by destruct (default [] (goal_subtasks g)).
  - unfold updateStats. destruct (memoryCount s); [|done].
    match goal with |- context [if ?b then _ else _] => destruct b end; [|done].
    match goal with |- context [if ?b then _ else _] => destruct b end; [|done].
    change (connOf (loadGraph true (set_memoryCount
              (Some (default 0 (memory_count data))) s)) = connOf s).
    by rewrite connOf_loadGraph.
Qed.

Lemma connOf_switchMainView viewId s : connOf (switchMainView viewId s) = connOf s.
Proof.
  unfold switchMainView. destruct viewId; [done| |done].
  by rewrite connOf_loadGraph.
Qed.

Lemma connOf_switchRightTab tabId s : connOf (switchRightTab tabId s) = connOf s.
Proof. by destruct tabId. Qed.

Lemma connOf_ws_onopen now s :
  connOf (ws_onopen now s)
  = (ws s, sockets s, timers (clearTimeout (reconnectTimer s) s),
     reconnectTimer s, 1000, nextTimer s).
Proof.
  unfold ws_onopen. cbv zeta.
  rewrite connOf_fetchStatus, connOf_setConnectionDot.
  rewrite connOf_updateStatus, connOf_addLog.
  change (reconnectTimer (set_reconnectDelay 1000 s)) with (reconnectTimer s).
  destruct (reconnectTimer s) eqn:Hrt; unfold connOf, clearTimeout; cbn;
    rewrite ?Hrt; reflexivity.
Qed.

Lemma connOf_ws_onclose now s :
  connOf (ws_onclose now s)
  = (ws s, sockets s, timers s ++ [(nextTimer s, reconnectDelay s)],
     Some (nextTimer s), reconnectDelay s, S (nextTimer s)).
Proof.
  unfold ws_onclose, setTimeout, setConnectionDot. cbv zeta.
  match goal with |- context [connectionDot ?x] => destruct (connectionDot x) end;
    reflexivity.
Qed.

Lemma connOf_reconnect s :
  connOf (reconnect s)
  = (Some (length (sockets s)), sockets s ++ [CONNECTING], timers s,
     reconnectTimer s, Z.min (reconnectDelay s * 2) 30000, nextTimer s).
Proof. reflexivity. Qed.

Lemma connOf_fields s w socks tms rt d nt :
  connOf s = (w, socks, tms, rt, d, nt) ->
  ws s = w /\ sockets s = socks /\ timers s = tms /\
  reconnectTimer s = rt /\ reconnectDelay s = d /\ nextTimer s = nt.
Proof. unfold connOf. intros [= <- <- <- <- <- <-]. done. Qed.

Lemma live_is_current (socks : list ReadyState) h h' st :
  length socks = S h ->
  (forall i, (i < h)%nat -> socks !! i = Some CLOSED) ->
  socks !! h' = Some st -> st <> CLOSED -> h' = h.
Proof.
  intros Hlen Hold Hlook Hlive.
  destruct (Nat.lt_trichotomy h' h) as [Hlt|[->|Hgt]]; [|done|].
  - rewrite (Hold h' Hlt) in Hlook. congruence.
  - rewrite lookup_ge_None_2 in Hlook by lia. done.
Qed.

Lemma backoff_step_bounds d :
  1000 <= d <= 30000 /\ (1000 | d) ->
  1000 <= Z.min (d * 2) 30000 <= 30000 /\ (1000 | Z.min (d * 2) 30000).
Proof.
  intros [Hb [k ->]]. split; [lia|].
  destruct (Z.min_spec (k * 1000 * 2) 30000) as [[_ ->]|[_ ->]].
  - exists (k * 2). lia.
  - exists 30. lia.
Qed.


Section ConnectionManager.

Variable toUpperCase : jsstring -> jsstring.

Lemma connOf_ws_onmessage now data s :
  connOf (ws_onmessage toUpperCase now data s) = connOf s.
Proof.
  unfold ws_onmessage.
  repeat case_bool_decide; try done.
  destruct (includes _ _); [|done].
  by destruct (heartbeatThought _).
Qed.

Lemma initial_connInv s : initial s -> connInv (connOf s).
Proof.
  intros (Hws & Hsocks & Hd & Hrt & Htm & _).
  unfold connOf. rewrite Hws, Hsocks, Hd, Hrt, Htm.
  split; [split; [lia|by exists 1]|].
  exists 0%nat. split_and!; [done|done|intros i Hi; lia|].
  left. split; [by left|done].
Qed.

Lemma step_connInv now e s s' :
  connInv (connOf s) -> step toUpperCase now e s = Some s' ->
  connInv (connOf s').
Proof.
  intros Hinv Hstep.
  destruct e; cbn [step] in Hstep;
    try (injection Hstep as <-;
         rewrite ?connOf_loadJournal, ?connOf_fetchStatus, ?connOf_sendMessage,
           ?connOf_switchMainView, ?connOf_switchRightTab; exact Hinv).
  - (* open *)
    case_bool_decide as Hg; [|done]. injection Hstep as <-.
    rewrite connOf_ws_onopen.
    destruct Hinv as (Hd & h0 & Hws & Hlen & Hold & Hcase).
    assert (h = h0) as -> by (eapply live_is_current; eauto).
    destruct Hcase as [[_ Htm]|[Hclosed _]]; [|congruence].
    cbn [ws sockets set_sockets reconnectTimer nextTimer].
    assert (timers (clearTimeout (reconnectTimer s)
                      (set_sockets (<[h0:=OPEN]> (sockets s)) s)) = []) as ->.
    { unfold clearTimeout. destruct (reconnectTimer s); cbn; by rewrite Htm. }
    split; [split; [lia|by exists 1]|].
    exists h0. split_and!; [done|by rewrite length_insert| |].
    + intros i Hi. rewrite list_lookup_insert_ne by lia. by apply Hold.
    + left. split; [|done]. right.
      apply list_lookup_insert_eq. lia.
  - (* message *)
    case_bool_decide; [|done]. injection Hstep as <-.
    destruct data; [by rewrite connOf_ws_onmessage|done].
  - (* close *)
    destruct (bool_decide (sockets s !! h = Some CONNECTING)
              || bool_decide (sockets s !! h = Some OPEN)) eqn:Hg; [|done].
    injection Hstep as <-.
    rewrite connOf_ws_onclose.
    cbn [ws sockets set_sockets timers reconnectDelay nextTimer].
    destruct Hinv as (Hd & h0 & Hws & Hlen & Hold & Hcase).
    apply orb_true_iff in Hg.
    assert (h = h0) as ->.
    { destruct Hg as [Hg|Hg]; apply bool_decide_eq_true in Hg;
        eapply live_is_current; eauto. }
    destruct Hcase as [[_ Htm]|[Hclosed _]].
    2: { destruct Hg as [Hg|Hg]; apply bool_decide_eq_true in Hg; congruence. }
    split; [done|].
    exists h0. split_and!; [done|by rewrite length_insert| |].
    + intros i Hi. rewrite list_lookup_insert_ne by lia. by apply Hold.
    + right. split; [apply list_lookup_insert_eq; lia|].
      exists (nextTimer s). by rewrite Htm.
  - (* timeout *)
    case_bool_decide as Hg; [|done]. injection Hstep as <-.
    rewrite connOf_reconnect.
    destruct Hinv as (Hd & h0 & Hws & Hlen & Hold & Hcase).
    destruct Hcase as [[_ Htm]|(Hclosed & t0 & Hrt & Htm)].
    { rewrite Htm in Hg. by apply elem_of_nil in Hg. }
    rewrite Htm in Hg. cbn in Hg. apply list_elem_of_singleton in Hg as ->.
    cbn [sockets timers reconnectTimer reconnectDelay nextTimer clearTimeout
         set_timers].
    rewrite Htm.
    assert (filter (fun p : nat * Z => p.1 ≠ t0) [(t0, reconnectDelay s)] = [])
      as -> by (rewrite filter_cons_False by (cbn; tauto); done).
    split; [by apply backoff_step_bounds|].
    exists (S h0). split_and!.
    + by rewrite Hlen.
    + rewrite length_app. cbn. lia.
    + intros i Hi. rewrite lookup_app_l by lia.
      destruct (decide (i = h0)) as [->|Hne]; [done|]. apply Hold. lia.
    + left. split; [|done]. left.
      rewrite lookup_app_r by lia. by rewrite Hlen, Nat.sub_diag.
  - (* status body *)
    case_bool_decide; [|done]. injection Hstep as <-.
    by rewrite connOf_fetchStatus_then.
  - (* graph body *)
    case_bool_decide; [|done]. injection Hstep as <-.
    by rewrite connOf_loadGraph_then.
Qed.

Lemma reachable_connInv s : reachable toUpperCase s -> connInv (connOf s).
Proof.
  induction 1 as [s Hinit|s now e s' _ IH Hstep].
  - by apply initial_connInv.
  - by eapply step_connInv.
Qed.

End ConnectionManager.

Section Backoff.

Variable toUpperCase : jsstring -> jsstring.


(** A socket that can still open is the current one, and then nothing is
    pending. *)
Lemma connInv_live_ready s h st :
  connInv (connOf s) -> sockets s !! h = Some st -> st <> CLOSED -> ready s.
Proof.
  intros (_ & h0 & Hws & Hlen & Hold & Hcase) Hlook Hlive.
  assert (h = h0) as -> by (eapply live_is_current; eauto).
  destruct Hcase as [[Hl Htm]|[Hclosed _]]; [|congruence].
  by exists h0.
Qed.

Lemma open_ready now h s s' :
  ready s -> step toUpperCase now (EvOpen h) s = Some s' ->
  ready s' /\ reconnectDelay s' = 1000 /\ timers s' = [].
Proof.
  intros (h0 & Hws & Hlive & Htm) Hstep. cbn [step] in Hstep.
  case_bool_decide as Hg; [|done]. injection Hstep as <-.
  set (s1 := ws_onopen now (set_sockets (<[h:=OPEN]> (sockets s)) s)).
  pose proof (connOf_ws_onopen now (set_sockets (<[h:=OPEN]> (sockets s)) s)) as Hc.
  fold s1 in Hc. apply connOf_fields in Hc as (Hws' & Hsocks' & Htm' & _ & Hd' & _).
  cbn [ws sockets set_sockets reconnectTimer] in Hws', Hsocks', Htm'.
  assert (timers s1 = []) as Htm''.
  { rewrite Htm'. unfold clearTimeout.
    destruct (reconnectTimer s); cbn; by rewrite Htm. }
  split_and!; [|done|done].
  exists h0. rewrite Hws', Hsocks'. split_and!; [done| |done].
  destruct (decide (h = h0)) as [->|Hne].
  - right. apply list_lookup_insert_eq. by eapply lookup_lt_Some.
  - by rewrite list_lookup_insert_ne.
Qed.



End Backoff.



(** In every reachable state at most one reconnection timeout is
    pending.  A close finds none pending and leaves the one it schedules;
    a timeout that fires was the one in [reconnectTimer] and leaves none;
    none is pending after an open. *)
Lemma one_pending_reconnection
    (toUpperCase : jsstring -> jsstring) (s : State) :
  reachable toUpperCase s ->
  (length (timers s) <= 1)%nat /\
  (forall now h s', step toUpperCase now (EvClose h) s = Some s' ->
     timers s = [] /\
     exists t, reconnectTimer s' = Some t /\ timers s' = [(t, reconnectDelay s)]) /\
  (forall now t s', step toUpperCase now (EvTimeout t) s = Some s' ->
     reconnectTimer s = Some t /\ timers s' = []) /\
  (forall now h s', step toUpperCase now (EvOpen h) s = Some s' ->
     timers s' = []).
Proof.
  intros Hreach.
  pose proof (reachable_connInv toUpperCase s Hreach) as Hinv.
  assert (forall now e s', step toUpperCase now e s = Some s' -> connInv (connOf s'))
    as Hnext by (intros now e s' Hstep; by eapply step_connInv).
  split_and!.
  - destruct Hinv as (_ & h & _ & _ & _ & [[_ ->]|(_ & t & _ & ->)]); cbn; lia.
  - intros now h s' Hstep.
    assert (ready s) as Hready.
    { cbn [step] in Hstep.
      destruct (bool_decide (sockets s !! h = Some CONNECTING)
                || bool_decide (sockets s !! h = Some OPEN)) eqn:Hg; [|done].
      apply orb_true_iff in Hg as [Hg|Hg]; apply bool_decide_eq_true in Hg;
        by eapply connInv_live_ready. }
    destruct Hready as (h0 & _ & _ & Htm). split; [done|].
    cbn [step] in Hstep.
    destruct (bool_decide (sockets s !! h = Some CONNECTING)
              || bool_decide (sockets s !! h = Some OPEN)); [|done].
    injection Hstep as <-.
    pose proof (connOf_ws_onclose now (set_sockets (<[h:=CLOSED]> (sockets s)) s))
      as Hc.
    apply connOf_fields in Hc as (_ & _ & Htm1 & Hrt1 & _).
    exists (nextTimer s). split; [exact Hrt1|].
    rewrite Htm1. cbn [timers set_sockets reconnectDelay nextTimer].
    by rewrite Htm.
  - intros now t s' Hstep.
    destruct Hinv as (_ & h & _ & _ & _ & Hcase).
    pose proof Hstep as Hg. cbn [step] in Hg.
    case_bool_decide as Hin; [|done].
    assert (s' = reconnect (clearTimeout (Some t) s)) as -> by congruence.
    clear Hg.
    destruct Hcase as [[_ Htm]|(_ & t0 & Hrt & Htm)].
    { rewrite Htm in Hin. by apply elem_of_nil in Hin. }
    rewrite Htm in Hin. cbn in Hin. apply list_elem_of_singleton in Hin as ->.
    split; [done|].
    pose proof (connOf_reconnect (clearTimeout (Some t0) s)) as Hc.
    apply connOf_fields in Hc as (_ & _ & Htm2 & _).
    rewrite Htm2. cbn [clearTimeout timers set_timers]. rewrite Htm.
    by rewrite filter_cons_False by (cbn; tauto).
  - intros now h s' Hstep.
    assert (ready s) as Hready.
    { pose proof Hstep as Hg. cbn [step] in Hg.
      case_bool_decide as Hc; [|done].
      by eapply connInv_live_ready. }
    by destruct (open_ready toUpperCase now h s s' Hready Hstep) as (_ & _ & ?).
Qed.

Lemma one_pending_reconnection_witness :
  reachable upperASCII closedOnce /\
  length (timers closedOnce) = 1%nat /\
  (forall now t s', step upperASCII now (EvTimeout t) closedOnce = Some s' ->
     timers s' = []).
Proof.
  assert (reachable upperASCII closedOnce) as Hreach.
  { apply (reachable_step upperASCII freshPage (lit "09:00:00") (EvClose 0)).
    - apply reachable_initial. repeat split.
    - vm_compute. reflexivity. }
  split; [exact Hreach|].
  split; [vm_compute; reflexivity|].
  intros now t s' Hstep.
  destruct (one_pending_reconnection upperASCII closedOnce Hreach)
    as (_ & _ & Hfire & _).
  by destruct (Hfire now t s' Hstep).
Defined.

(** * Further properties of the scripts *)

(** ** Trimming *)

Lemma skipWhiteSpace_split s :
  exists w, s = w ++ skipWhiteSpace s /\ forallb isWhiteSpace w = true.
Proof.
  induction s as [|c s (w & Hs & Hw)]; [by exists []|].
  cbn [skipWhiteSpace]. destruct (isWhiteSpace c) eqn:Hc.
  - exists (c :: w). split; [by rewrite <- app_comm_cons, <- Hs|].
    cbn. by rewrite Hc.
  - by exists [].
Qed.

Lemma skipWhiteSpace_head s c r :
  skipWhiteSpace s = c :: r -> isWhiteSpace c = false.
Proof.
  induction s as [|d s IH]; [done|].
  cbn [skipWhiteSpace]. destruct (isWhiteSpace d) eqn:Hd; [done|].
  by intros [= <- _].
Qed.

Lemma skipWhiteSpace_keep c r :
  isWhiteSpace c = false -> skipWhiteSpace (c :: r) = c :: r.
Proof. intros Hc. cbn. by rewrite Hc. Qed.

(** The two ends of a trimmed text. *)
Lemma trim_ends s :
  match trim s with
  | [] => True
  | c :: _ => isWhiteSpace c = false
  end /\
  match rev (trim s) with
  | [] => True
  | c :: _ => isWhiteSpace c = false
  end.
Proof.
  unfold trim. rewrite rev_involutive.
  set (a := skipWhiteSpace s).
  set (b := skipWhiteSpace (rev a)).
  split.
  - destruct (skipWhiteSpace_split (rev a)) as (w & Ha & _). fold b in Ha.
    apply (f_equal (@rev N)) in Ha. rewrite rev_involutive, rev_app_distr in Ha.
    destruct (rev b) as [|c r] eqn:Hb; [done|].
    apply (skipWhiteSpace_head s c (r ++ rev w)). exact Ha.
  - destruct b as [|c r] eqn:Hb; [done|].
    by apply (skipWhiteSpace_head (rev a) c r).
Qed.

Lemma trim_idempotent s : trim (trim s) = trim s.
Proof.
  destruct (trim_ends s) as [Hfirst Hlast].
  set (t := trim s) in *. unfold trim at 1.
  assert (skipWhiteSpace t = t) as ->.
  { destruct t as [|c r]; [done|]. by apply skipWhiteSpace_keep. }
  assert (skipWhiteSpace (rev t) = rev t) as ->.
  { destruct (rev t) as [|c r]; [done|]. by apply skipWhiteSpace_keep. }
  apply rev_involutive.
Qed.

(** ** What each handler leaves alone *)

Lemma keeps_addLog now text s :
  graphOf (addLog now text s) = graphOf s /\
  lastMemoryCount (addLog now text s) = lastMemoryCount s /\
  sent (addLog now text s) = sent s.
Proof. done. Qed.

Lemma keeps_ws_onopen now s :
  graphOf (ws_onopen now s) = graphOf s /\
  lastMemoryCount (ws_onopen now s) = lastMemoryCount s /\
  sent (ws_onopen now s) = sent s.
Proof.
  unfold ws_onopen, setConnectionDot, clearTimeout. cbv zeta.
  match goal with |- context [connectionDot ?x] => destruct (connectionDot x) end;
    change (reconnectTimer (set_reconnectDelay 1000 s)) with (reconnectTimer s);
    destruct (reconnectTimer s); done.
Qed.

Lemma keeps_ws_onclose now s :
  graphOf (ws_onclose now s) = graphOf s /\
  lastMemoryCount (ws_onclose now s) = lastMemoryCount s /\
  sent (ws_onclose now s) = sent s.
Proof.
  unfold ws_onclose, setTimeout, setConnectionDot. cbv zeta.
  match goal with |- context [connectionDot ?x] => destruct (connectionDot x) end;
    done.
Qed.

Lemma keeps_ws_onmessage toUpperCase now data s :
  graphOf (ws_onmessage toUpperCase now data s) = graphOf s /\
  lastMemoryCount (ws_onmessage toUpperCase now data s) = lastMemoryCount s /\
  sent (ws_onmessage toUpperCase now data s) = sent s /\
  userInput (ws_onmessage toUpperCase now data s) = userInput s /\
  connOf (ws_onmessage toUpperCase now data s) = connOf s.
Proof.
  unfold ws_onmessage.
  repeat case_bool_decide; try done.
  destruct (includes _ _); [|done].
  by destruct (heartbeatThought _).
Qed.

Lemma keeps_loadGraph force s :
  graphOf (loadGraph force s) = graphOf s /\
  lastMemoryCount (loadGraph force s) = lastMemoryCount s /\
  sent (loadGraph force s) = sent s.
Proof. unfold loadGraph. by destruct (networkContainer s). Qed.

Lemma keeps_updateGoal data s :
  graphOf (updateGoal data s) = graphOf s /\
  sent (updateGoal data s) = sent s.
Proof.
  unfold updateGoal. destruct (goal data) as [g|]; [|done].
  destruct (goal_goal g) as [[|c t]|]; [done| |done].
  case_bool_decide; [done|].
  unfold renderSubtasks. by destruct (default [] (goal_subtasks g)).
Qed.

Lemma keeps_fetchStatus_then data s :
  graphOf (fetchStatus_then data s) = graphOf s /\
  sent (fetchStatus_then data s) = sent s.
Proof.
  unfold fetchStatus_then.
  destruct (keeps_updateGoal data (updateStats data s)) as [-> ->].
  unfold updateStats. destruct (memoryCount s); [|done].
  match goal with |- context [if ?b then _ else _] => destruct b end; [|done].
  match goal with |- context [if ?b then _ else _] => destruct b end; [|done].
  destruct (keeps_loadGraph true
              (set_memoryCount (Some (default 0 (memory_count data))) s))
    as (Hg & _ & Hs).
  split; [exact Hg|exact Hs].
Qed.

Lemma keeps_sendMessage now s :
  graphOf (sendMessage now s) = graphOf s /\
  lastMemoryCount (sendMessage now s) = lastMemoryCount s.
Proof.
  unfold sendMessage. destruct (trim (userInput s)); [done|].
  by destruct (openSocket s).
Qed.

Lemma keeps_loadGraph_then force data s :
  lastMemoryCount (loadGraph_then force data s) = lastMemoryCount s /\
  sent (loadGraph_then force data s) = sent s.
Proof.
  unfold loadGraph_then. destruct (g_nodes data) as [nodes|]; [|done].
  destruct (negb (network s)).
  - destruct (nodesAdd nodes (graphNodes s)) as [ds []]; [|done].
    by destruct (g_edges data).
  - destruct force; [|done].
    match goal with |- context [if ?b then nodesAdd ?x ?y else ?z] =>
      destruct (if b then nodesAdd x y else z) as [ds []] end; [|done].
    destruct (g_edges data) as [edges|]; [|done].
    match goal with |- context [if ?b then _ else _] => by destruct b end.
Qed.

Lemma keeps_switchMainView viewId s :
  graphOf (switchMainView viewId s) = graphOf s /\
  lastMemoryCount (switchMainView viewId s) = lastMemoryCount s /\
  sent (switchMainView viewId s) = sent s.
Proof.
  unfold switchMainView. destruct viewId; [done| |done].
  apply (keeps_loadGraph false (set_activeView graph s)).
Qed.

(** An event changes the graph only through the continuation of
    [loadGraph], [lastMemoryCount] only through the continuation of
    [fetchStatus], and the frames sent only through [sendMessage]. *)
Lemma step_effects toUpperCase now e s s' :
  step toUpperCase now e s = Some s' ->
  (graphOf s' = graphOf s \/
   exists force data, e = EvGraphBody force data /\
                      s' = loadGraph_then force data s) /\
  (lastMemoryCount s' = lastMemoryCount s \/
   exists data, e = EvStatusBody data /\ s' = fetchStatus_then data s) /\
  (sent s' = sent s \/ e = EvSend /\ s' = sendMessage now s).
Proof.
  intros Hstep. destruct e; cbn [step] in Hstep.
  - case_bool_decide; [|done]. injection Hstep as <-.
    destruct (keeps_ws_onopen now (set_sockets (<[h:=OPEN]> (sockets s)) s))
      as (Hg & Hl & Hs).
    split_and!; left; [exact Hg|exact Hl|exact Hs].
  - case_bool_decide; [|done]. injection Hstep as <-.
    destruct data as [d|]; [|split_and!; by left].
    destruct (keeps_ws_onmessage toUpperCase now d s) as (Hg & Hl & Hs & _).
    split_and!; by left.
  - destruct (bool_decide (sockets s !! h = Some CONNECTING)
              || bool_decide (sockets s !! h = Some OPEN)); [|done].
    injection Hstep as <-.
    destruct (keeps_ws_onclose now (set_sockets (<[h:=CLOSED]> (sockets s)) s))
      as (Hg & Hl & Hs).
    split_and!; left; [exact Hg|exact Hl|exact Hs].
  - case_bool_decide; [|done]. injection Hstep as <-. split_and!; by left.
  - injection Hstep as <-. split_and!; by left.
  - case_bool_decide; [|done]. injection Hstep as <-.
    destruct (keeps_fetchStatus_then data s) as (Hg & Hs).
    split_and!; [by left|right; by exists data|by left].
  - case_bool_decide; [|done]. injection Hstep as <-.
    destruct (keeps_loadGraph_then force data s) as (Hl & Hs).
    split_and!; [right; by exists force, data|by left|by left].
  - injection Hstep as <-. split_and!; by left.
  - injection Hstep as <-.
    destruct (keeps_sendMessage now s) as (Hg & Hl).
    split_and!; [by left|by left|by right].
  - injection Hstep as <-.
    destruct (keeps_switchMainView viewId s) as (Hg & Hl & Hs).
    split_and!; by left.
  - injection Hstep as <-. destruct tabId; split_and!; by left.
  - injection Hstep as <-. split_and!; by left.
  - injection Hstep as <-. split_and!; by left.
Qed.

(** ** The connection over the whole event loop *)

(** X2.  In every reachable state [ws] is the last socket created and
    every earlier socket is closed; and either that socket is connecting
    or open and no timeout is pending, or it is closed and exactly one
    timeout is pending, the one in [reconnectTimer], scheduled with the
    current delay.  So the client is never without both a live socket and
    a scheduled retry, and never has two live sockets. *)
Theorem connection_or_retry (toUpperCase : jsstring -> jsstring) (s : State) :
  reachable toUpperCase s ->
  exists h,
    ws s = Some h /\ length (sockets s) = S h /\
    (forall i, (i < h)%nat -> sockets s !! i = Some CLOSED) /\
    ((sockets s !! h = Some CONNECTING \/ sockets s !! h = Some OPEN) /\
     timers s = []
     \/
     sockets s !! h = Some CLOSED /\
     exists t, reconnectTimer s = Some t /\ timers s = [(t, reconnectDelay s)]).
Proof.
  intros Hreach.
  by destruct (reachable_connInv toUpperCase s Hreach) as (_ & Hconn).
Qed.

Lemma connection_or_retry_witness :
  reachable upperASCII closedOnce /\
  sockets closedOnce = [CLOSED] /\
  timers closedOnce = [(0%nat, 1000)].
Proof.
  assert (reachable upperASCII closedOnce) as Hreach.
  { apply (reachable_step upperASCII freshPage (lit "09:00:00") (EvClose 0)).
    - apply reachable_initial. repeat split.
    - vm_compute. reflexivity. }
  split; [exact Hreach|].
  destruct (connection_or_retry upperASCII closedOnce Hreach)
    as (h & _ & _ & _ & _).
  split; vm_compute; reflexivity.
Defined.

(** X3.  In every reachable state the reconnection delay is a whole
    number of seconds between 1000 and 30000 ms, so the seconds the close
    handler prints, [reconnectDelay / 1000], are exact. *)
Theorem reconnectDelay_bounds (toUpperCase : jsstring -> jsstring) (s : State) :
  reachable toUpperCase s ->
  1000 <= reconnectDelay s <= 30000 /\
  reconnectDelay s = 1000 * (reconnectDelay s / 1000) /\
  1 <= reconnectDelay s / 1000 <= 30.
Proof.
  intros Hreach.
  destruct (reachable_connInv toUpperCase s Hreach) as ((Hb & k & Hk) & _).
  cbn in Hb, Hk. rewrite Hk. rewrite Z.div_mul by lia. lia.
Qed.

Lemma reconnectDelay_bounds_witness :
  reachable upperASCII closedOnce /\ reconnectDelay closedOnce / 1000 = 1.
Proof.
  assert (reachable upperASCII closedOnce) as Hreach.
  { apply (reachable_step upperASCII freshPage (lit "09:00:00") (EvClose 0)).
    - apply reachable_initial. repeat split.
    - vm_compute. reflexivity. }
  split; [exact Hreach|].
  destruct (reconnectDelay_bounds upperASCII closedOnce Hreach) as (_ & _ & _).
  vm_compute. reflexivity.
Defined.

(** ** The graph over the whole event loop *)

Lemma addItems_grows items ds :
  ds `prefix_of` (addItems items ds).1 /\
  (NoDup (n_id <$> ds) -> NoDup (n_id <$> (addItems items ds).1)).
Proof.
  revert ds. induction items as [|x items IH]; intros ds; [done|].
  cbn [addItems]. destruct (hasId (n_id x) ds) eqn:Hid; [done|].
  destruct (IH (ds ++ [x])) as [Hpre Hnd]. split.
  - etrans; [|exact Hpre]. by apply prefix_app_r.
  - intros Hds. apply Hnd. rewrite fmap_app. apply NoDup_app.
    split_and!; [done| |apply NoDup_singleton].
    intros i Hi ->%list_elem_of_singleton. by apply hasId_false in Hid.
Qed.

Lemma nodesAdd_grows items ds :
  ds `prefix_of` (nodesAdd items ds).1 /\
  (NoDup (n_id <$> ds) -> NoDup (n_id <$> (nodesAdd items ds).1)).
Proof.
  unfold nodesAdd. destruct (existsb _ items); [done|].
  apply addItems_grows.
Qed.

(** The continuation of [loadGraph] only ever appends. *)
Lemma loadGraph_then_grows force data s :
  graphNodes s `prefix_of` graphNodes (loadGraph_then force data s) /\
  graphEdges s `prefix_of` graphEdges (loadGraph_then force data s) /\
  (network s = true -> network (loadGraph_then force data s) = true) /\
  (NoDup (n_id <$> graphNodes s) ->
   NoDup (n_id <$> graphNodes (loadGraph_then force data s))).
Proof.
  unfold loadGraph_then. destruct (g_nodes data) as [nodes|]; [|done].
  destruct (network s) eqn:Hnet; cbn [negb].
  - destruct force; [|done].
    match goal with |- context [if ?b then nodesAdd ?x ?y else ?z] =>
      assert (graphNodes s `prefix_of` (if b then nodesAdd x y else z).1 /\
              (NoDup (n_id <$> graphNodes s) ->
               NoDup (n_id <$> (if b then nodesAdd x y else z).1))) as [Hpre Hnd]
        by (destruct b; [apply nodesAdd_grows|done]);
      destruct (if b then nodesAdd x y else z) as [ds ok]
    end.
    cbn [fst] in Hpre, Hnd.
    destruct ok; [|by split_and!].
    destruct (g_edges data) as [edges|]; [|by split_and!].
    match goal with |- context [if ?b then _ else _] => destruct b end;
      split_and!; try done.
    by apply prefix_app_r.
  - destruct (nodesAdd_grows nodes (graphNodes s)) as [Hpre Hnd].
    destruct (nodesAdd nodes (graphNodes s)) as [ds ok]. cbn [fst] in Hpre, Hnd.
    destruct ok; [|by split_and!].
    destruct (g_edges data) as [edges|]; [by split_and!; [| apply prefix_app_r| |]
                                         |by split_and!].
Qed.

(** X4.  No event ever removes or reorders anything in the client graph:
    across every step the nodes and edges held before are an initial
    segment of those held after, and a network once created stays. *)
Theorem graph_only_grows
    (toUpperCase : jsstring -> jsstring) (now : jsstring) (e : Event)
    (s s' : State) :
  step toUpperCase now e s = Some s' ->
  graphNodes s `prefix_of` graphNodes s' /\
  graphEdges s `prefix_of` graphEdges s' /\
  (network s = true -> network s' = true).
Proof.
  intros Hstep.
  destruct (step_effects toUpperCase now e s s' Hstep)
    as ([Hsame|(force & data & _ & ->)] & _).
  - unfold graphOf in Hsame. injection Hsame as Hn Hns Hes.
    rewrite Hn, Hns, Hes. done.
  - destruct (loadGraph_then_grows force data s) as (? & ? & ? & _). done.
Qed.

Lemma graph_only_grows_witness :
  step upperASCII (lit "09:00:02") (EvGraphBody true grownGraph)
       (loadGraph true seeded)
  = Some (loadGraph_then true grownGraph (loadGraph true seeded)) /\
  graphNodes seeded
  `prefix_of` graphNodes (loadGraph_then true grownGraph (loadGraph true seeded)).
Proof.
  assert (step upperASCII (lit "09:00:02") (EvGraphBody true grownGraph)
               (loadGraph true seeded)
          = Some (loadGraph_then true grownGraph (loadGraph true seeded))) as Hstep
    by (vm_compute; reflexivity).
  split; [exact Hstep|].
  destruct (graph_only_grows upperASCII _ _ _ _ Hstep) as (Hn & _).
  exact Hn.
Defined.

Section GraphInvariant.

Variable toUpperCase : jsstring -> jsstring.

Lemma reachable_ids_distinct s :
  reachable toUpperCase s -> NoDup (n_id <$> graphNodes s).
Proof.
  induction 1 as [s Hinit|s now e s' _ IH Hstep].
  - destruct Hinit as (_ & _ & _ & _ & _ & _ & -> & _). apply NoDup_nil_2.
  - destruct (step_effects toUpperCase now e s s' Hstep)
      as ([Hsame|(force & data & _ & ->)] & _).
    + unfold graphOf in Hsame. injection Hsame as _ Hns _. by rewrite Hns.
    + by apply loadGraph_then_grows.
Qed.

End GraphInvariant.

(** X5.  In every reachable state the node ids of the client graph are
    pairwise distinct: neither the seed nor a forced pass ever gets a
    second node with an id that is already held. *)
Theorem node_ids_stay_distinct (toUpperCase : jsstring -> jsstring) (s : State) :
  reachable toUpperCase s ->
  NoDup (n_id <$> graphNodes s) /\
  (forall i j n m, graphNodes s !! i = Some n -> graphNodes s !! j = Some m ->
                   n_id n = n_id m -> i = j).
Proof.
  intros Hreach.
  pose proof (reachable_ids_distinct toUpperCase s Hreach) as Hnd.
  split; [done|].
  intros i j n m Hi Hj Heq.
  eapply NoDup_lookup; [exact Hnd| |].
  - rewrite list_lookup_fmap, Hi. reflexivity.
  - rewrite list_lookup_fmap, Hj. cbn. by rewrite Heq.
Qed.

Lemma node_ids_stay_distinct_witness :
  reachable upperASCII (loadGraph_then false sampleGraph (switchMainView graph freshPage)) /\
  length (graphNodes (loadGraph_then false sampleGraph (switchMainView graph freshPage)))
  = 3%nat.
Proof.
  assert (reachable upperASCII
            (loadGraph_then false sampleGraph (switchMainView graph freshPage)))
    as Hreach.
  { apply (reachable_step upperASCII (switchMainView graph freshPage)
             (lit "09:00:01") (EvGraphBody false sampleGraph)).
    - apply (reachable_step upperASCII freshPage (lit "09:00:00")
               (EvSwitchMainView graph)).
      + apply reachable_initial. repeat split.
      + reflexivity.
    - vm_compute. reflexivity. }
  split; [exact Hreach|].
  destruct (node_ids_stay_distinct upperASCII _ Hreach) as (_ & _).
  vm_compute. reflexivity.
Defined.

(** ** The memory counter over the whole event loop *)

Lemma fetchStatus_then_last data s :
  lastMemoryCount (fetchStatus_then data s)
  = match memoryCount s with
    | None => lastMemoryCount s
    | Some _ => Z.max (lastMemoryCount s) (default 0 (memory_count data))
    end.
Proof.
  destruct (memoryCount s) as [shown|] eqn:Hshown.
  - apply fetchStatus_then_counter. by rewrite Hshown.
  - unfold fetchStatus_then.
    destruct (updateGoal_frame data (updateStats data s)) as (_ & -> & _).
    unfold updateStats. by rewrite Hshown.
Qed.

(** A snapshot that does not exceed the high-water mark issues no
    request and leaves the mark. *)
Lemma fetchStatus_then_quiet data s :
  default 0 (memory_count data) <= lastMemoryCount s ->
  requests (fetchStatus_then data s) = requests s /\
  lastMemoryCount (fetchStatus_then data s) = lastMemoryCount s.
Proof.
  intros Hle. split.
  - unfold fetchStatus_then.
    destruct (updateGoal_frame data (updateStats data s)) as (-> & _).
    unfold updateStats. destruct (memoryCount s); [|done].
    cbn [lastMemoryCount set_memoryCount].
    destruct (Z.ltb_spec (lastMemoryCount s) (default 0 (memory_count data)));
      [lia|done].
  - rewrite fetchStatus_then_last. destruct (memoryCount s); lia.
Qed.

(** X6.  [lastMemoryCount] never goes down: no event lowers it, and in
    every reachable state it is the sentinel -1 or a count a snapshot
    reported, so at least -1. *)
Theorem lastMemoryCount_never_decreases
    (toUpperCase : jsstring -> jsstring) (now : jsstring) (e : Event)
    (s s' : State) :
  step toUpperCase now e s = Some s' ->
  lastMemoryCount s <= lastMemoryCount s' /\
  (lastMemoryCount s' <> lastMemoryCount s ->
   exists data, e = EvStatusBody data /\
                lastMemoryCount s' = default 0 (memory_count data)).
Proof.
  intros Hstep.
  destruct (step_effects toUpperCase now e s s' Hstep)
    as (_ & [Hsame|(data & -> & ->)] & _).
  - rewrite Hsame. split; [lia|done].
  - rewrite fetchStatus_then_last.
    destruct (memoryCount s); [|split; [lia|done]].
    split; [lia|]. intros Hne. exists data. split; [done|lia].
Qed.

Lemma lastMemoryCount_never_decreases_witness :
  step upperASCII (lit "09:00:05") (EvStatusBody (mkStatus (Some 2) None))
       (fetchStatus watchingGraph)
  = Some (fetchStatus_then (mkStatus (Some 2) None) (fetchStatus watchingGraph)) /\
  3 <= lastMemoryCount
         (fetchStatus_then (mkStatus (Some 2) None) (fetchStatus watchingGraph)).
Proof.
  assert (step upperASCII (lit "09:00:05") (EvStatusBody (mkStatus (Some 2) None))
               (fetchStatus watchingGraph)
          = Some (fetchStatus_then (mkStatus (Some 2) None)
                    (fetchStatus watchingGraph))) as Hstep
    by (vm_compute; reflexivity).
  split; [exact Hstep|].
  destruct (lastMemoryCount_never_decreases upperASCII _ _ _ _ Hstep) as (Hle & _).
  exact Hle.
Defined.

(** X7.  Snapshots that do not exceed the highest count seen so far never
    trigger a graph refresh, however the counts move among themselves:
    after a sequence of such snapshots no request has been issued and
    [lastMemoryCount] is what it was.  So after the memory has been
    cleared, the graph is not refreshed again until the count passes its
    old maximum. *)
Theorem below_high_water_no_refresh (bodies : list StatusData) (s : State) :
  (forall d, d ∈ bodies -> default 0 (memory_count d) <= lastMemoryCount s) ->
  requests (processSnapshots bodies s) = requests s /\
  lastMemoryCount (processSnapshots bodies s) = lastMemoryCount s.
Proof.
  unfold processSnapshots. revert s.
  induction bodies as [|d bodies IH]; intros s Hle; [done|].
  cbn [foldl].
  destruct (fetchStatus_then_quiet d s) as [Hr Hl]; [apply Hle; left|].
  destruct (IH (fetchStatus_then d s)) as [Hr' Hl'].
  - intros d' Hd'. rewrite Hl. apply Hle. by right.
  - by rewrite Hr', Hl', Hr, Hl.
Qed.

Lemma below_high_water_no_refresh_witness :
  let bodies := [mkStatus (Some 0) None; mkStatus (Some 1) None;
                 mkStatus (Some 3) None] in
  (forall d, d ∈ bodies -> default 0 (memory_count d) <= lastMemoryCount watchingGraph) /\
  requests (processSnapshots bodies watchingGraph) = [] /\
  activeView watchingGraph = graph.
Proof.
  cbv zeta.
  assert (forall d, d ∈ [mkStatus (Some 0) None; mkStatus (Some 1) None;
                         mkStatus (Some 3) None] ->
                    default 0 (memory_count d) <= lastMemoryCount watchingGraph)
    as Hle.
  { intros d Hd. repeat (apply elem_of_cons in Hd as [->|Hd]); cbn; try lia.
    by apply elem_of_nil in Hd. }
  split; [exact Hle|].
  destruct (below_high_water_no_refresh _ watchingGraph Hle) as [Hr _].
  split; [|reflexivity].
  rewrite Hr. reflexivity.
Defined.

(** ** The streams over the whole event loop *)

Lemma streamsBounded_addLog now text s :
  (length (thoughtStream s) <= 20)%nat -> streamsBounded (addLog now text s).
Proof.
  intros Hth. split; [|exact Hth].
  rewrite logConsole_addLog. apply removeFirstWhileOver_length.
Qed.

Lemma streamsBounded_addThought text s :
  streamsBounded s -> streamsBounded (addThought text s).
Proof.
  intros [Hlog Hth]. split; [exact Hlog|].
  rewrite thoughtStream_addThought, removeLastIfOver_take by (cbn; lia).
  rewrite length_take. lia.
Qed.

Lemma streamsBounded_same s s' :
  logConsole s' = logConsole s -> thoughtStream s' = thoughtStream s ->
  streamsBounded s -> streamsBounded s'.
Proof. unfold streamsBounded. by intros -> ->. Qed.

Lemma streamsBounded_step toUpperCase now e s s' :
  step toUpperCase now e s = Some s' -> streamsBounded s -> streamsBounded s'.
Proof.
  intros Hstep Hb. pose proof Hb as [_ Hth].
  destruct e; cbn [step] in Hstep.
  - case_bool_decide; [|done]. injection Hstep as <-.
    unfold ws_onopen, setConnectionDot, clearTimeout. cbv zeta.
    match goal with |- context [connectionDot ?x] => destruct (connectionDot x) end;
      change (reconnectTimer (set_reconnectDelay 1000
                (set_sockets (<[h:=OPEN]> (sockets s)) s)))
        with (reconnectTimer s);
      destruct (reconnectTimer s);
      (eapply streamsBounded_same;
       [| |apply (streamsBounded_addLog now (lit "SYSTEM: Uplink established.") s Hth)];
       reflexivity).
  - case_bool_decide; [|done]. injection Hstep as <-.
    destruct data as [d|]; [|done].
    unfold ws_onmessage. repeat case_bool_decide; try done.
    pose proof (streamsBounded_addLog now (f_content d) s Hth) as Hlog.
    destruct (includes _ _); [|done].
    destruct (heartbeatThought _); [done|].
    by apply streamsBounded_addThought.
  - destruct (bool_decide (sockets s !! h = Some CONNECTING)
              || bool_decide (sockets s !! h = Some OPEN)); [|done].
    injection Hstep as <-.
    unfold ws_onclose, setTimeout, setConnectionDot. cbv zeta.
    match goal with |- context [connectionDot ?x] => destruct (connectionDot x) end;
      (eapply streamsBounded_same;
       [| |apply (streamsBounded_addLog now
                    (lit "SYSTEM: Uplink lost. Reconnecting in "
                     ++ decimal (reconnectDelay s / 1000) ++ lit "s...") s Hth)];
       reflexivity).
  - case_bool_decide; [|done]. by injection Hstep as <-.
  - by injection Hstep as <-.
  - case_bool_decide; [|done]. injection Hstep as <-.
    eapply streamsBounded_same; [| |exact Hb].
    + unfold fetchStatus_then, updateGoal.
      transitivity (logConsole (updateStats data s)).
      * destruct (goal data) as [g|]; [|done].
        destruct (goal_goal g) as [[|c t]|]; [done| |done].
        case_bool_decide; [done|].
        unfold renderSubtasks. by destruct (default [] (goal_subtasks g)).
      * unfold updateStats, loadGraph. destruct (memoryCount s); [|done].
        repeat match goal with |- context [if ?b then _ else _] => destruct b end;
          done.
    + unfold fetchStatus_then, updateGoal.
      transitivity (thoughtStream (updateStats data s)).
      * destruct (goal data) as [g|]; [|done].
        destruct (goal_goal g) as [[|c t]|]; [done| |done].
        case_bool_decide; [done|].
        unfold renderSubtasks. by destruct (default [] (goal_subtasks g)).
      * unfold updateStats, loadGraph. destruct (memoryCount s); [|done].
        repeat match goal with |- context [if ?b then _ else _] => destruct b end;
          done.
  - case_bool_decide; [|done]. injection Hstep as <-.
    eapply streamsBounded_same; [| |exact Hb];
      unfold loadGraph_then; (destruct (g_nodes data) as [nodes|]; [|done]);
      (destruct (negb (network s));
       [destruct (nodesAdd nodes (graphNodes s)) as [ds []]; [|done];
        by destruct (g_edges data)
       |destruct force; [|done];
        match goal with |- context [if ?b then nodesAdd ?x ?y else ?z] =>
          destruct (if b then nodesAdd x y else z) as [ds []] end; [|done];
        destruct (g_edges data) as [edges|]; [|done];
        match goal with |- context [if ?b then _ else _] => by destruct b end]).
  - by injection Hstep as <-.
  - injection Hstep as <-. unfold sendMessage.
    destruct (trim (userInput s)); [done|].
    destruct (openSocket s); [done|].
    by apply streamsBounded_addLog.
  - injection Hstep as <-. unfold switchMainView, loadGraph.
    destruct viewId; [done| |done]. by destruct (networkContainer _).
  - injection Hstep as <-. by destruct tabId.
  - by injection Hstep as <-.
  - by injection Hstep as <-.
Qed.

(** X8.  The capacities hold over the event loop: an event that finds at
    most 200 log lines and at most 20 thoughts leaves at most 200 and 20,
    so every state reached from a page whose streams are within capacity
    has them within capacity, whatever frames, closes and sends occur. *)
Theorem streams_stay_bounded
    (toUpperCase : jsstring -> jsstring) (events : list (jsstring * Event))
    (s s' : State) :
  streamsBounded s ->
  foldl (fun acc ne => acc ≫= step toUpperCase ne.1 ne.2) (Some s) events
  = Some s' ->
  (length (logConsole s') <= 200)%nat /\ (length (thoughtStream s') <= 20)%nat.
Proof.
  revert s. induction events as [|[now e] events IH]; intros s Hb Hrun.
  - cbn in Hrun. by injection Hrun as <-.
  - cbn [foldl] in Hrun. cbn [mbind option_bind fst snd] in Hrun.
    destruct (step toUpperCase now e s) as [s1|] eqn:Hstep.
    + apply (IH s1); [|done]. by eapply streamsBounded_step.
    + exfalso. clear -Hrun. induction events as [|ne events IH]; [done|].
      by apply IH.
Qed.

Lemma streams_stay_bounded_witness :
  streamsBounded fullStreams /\
  exists s',
    foldl (fun acc ne => acc ≫= step upperASCII ne.1 ne.2) (Some fullStreams)
      [(lit "09:10:00", EvClose 0%nat); (lit "09:10:01", EvTimeout 0%nat)]
    = Some s' /\
    (length (logConsole s') <= 200)%nat /\ (length (thoughtStream s') <= 20)%nat.
Proof.
  assert (streamsBounded fullStreams) as Hb by (split; vm_compute; lia).
  split; [exact Hb|].
  eexists. split; [vm_compute; reflexivity|].
  eapply (streams_stay_bounded upperASCII
            [(lit "09:10:00", EvClose 0%nat); (lit "09:10:01", EvTimeout 0%nat)]
            fullStreams _ Hb).
  vm_compute. reflexivity.
Defined.

(** ** Sending over the whole event loop *)

Lemma sendMessage_sent now s :
  sent (sendMessage now s) = sent s \/
  exists h, ws s = Some h /\ sockets s !! h = Some OPEN /\
            trim (userInput s) <> [] /\
            sent (sendMessage now s) = sent s ++ [(h, trim (userInput s))] /\
            userInput (sendMessage now s) = [].
Proof.
  destruct (sendMessage_guards now s) as (Hempty & Hclosed & Hopen & _).
  destruct (decide (trim (userInput s) = [])) as [He|Hne].
  - left. by rewrite (Hempty He).
  - destruct (openSocket s) as [h|] eqn:Ho.
    + right. exists h. destruct (openSocket_open s h Ho) as [Hws Hsock].
      destruct (Hopen h Hne eq_refl) as [Hsent Hinput]. done.
    + left. by destruct (Hclosed Hne eq_refl) as (_ & ? & _).
Qed.

(** X9.  Only a send by the user puts a frame on the wire, and then
    exactly one: across a step the frames sent are unchanged, or the
    event is the send, the current socket is open, the one frame added
    is the trimmed, non-empty input, and the input is cleared. *)
Theorem only_send_transmits
    (toUpperCase : jsstring -> jsstring) (now : jsstring) (e : Event)
    (s s' : State) :
  step toUpperCase now e s = Some s' ->
  sent s' = sent s \/
  e = EvSend /\
  exists h, ws s = Some h /\ sockets s !! h = Some OPEN /\
            trim (userInput s) <> [] /\
            sent s' = sent s ++ [(h, trim (userInput s))] /\
            userInput s' = [].
Proof.
  intros Hstep.
  destruct (step_effects toUpperCase now e s s' Hstep)
    as (_ & _ & [Hsame|[-> ->]]); [by left|].
  destruct (sendMessage_sent now s) as [Hsame|Hsend]; [by left|by right].
Qed.

Lemma only_send_transmits_witness :
  step upperASCII (lit "09:00:00") EvSend typedOnline
  = Some (sendMessage (lit "09:00:00") typedOnline) /\
  sent (sendMessage (lit "09:00:00") typedOnline) = [(0%nat, lit "status?")].
Proof.
  assert (step upperASCII (lit "09:00:00") EvSend typedOnline
          = Some (sendMessage (lit "09:00:00") typedOnline)) as Hstep
    by reflexivity.
  split; [exact Hstep|].
  destruct (only_send_transmits upperASCII _ _ _ _ Hstep)
    as [Hsame|(_ & h & _ & _ & _ & Hsent & _)].
  - vm_compute in Hsame. discriminate Hsame.
  - vm_compute. reflexivity.
Defined.

Section SentFrames.

Variable toUpperCase : jsstring -> jsstring.

Lemma reachable_sent_trimmed s :
  reachable toUpperCase s ->
  Forall (fun frame : nat * jsstring => frame.2 <> [] /\ trimmed frame.2) (sent s).
Proof.
  induction 1 as [s Hinit|s now e s' _ IH Hstep].
  - destruct Hinit as (_ & _ & _ & _ & _ & _ & _ & _ & _ & -> & _).
    apply Forall_nil_2.
  - destruct (step_effects toUpperCase now e s s' Hstep)
      as (_ & _ & [Hsame|[-> ->]]); [by rewrite Hsame|].
    destruct (sendMessage_sent now s)
      as [Hsame|(h & _ & _ & Hne & Hsent & _)]; [by rewrite Hsame|].
    rewrite Hsent. apply Forall_app. split; [done|].
    apply Forall_singleton. split; [done|]. apply trim_idempotent.
Qed.

End SentFrames.

(** X10.  Every frame the client has sent, in any reachable state, is a
    non-empty text without white space at either end. *)
Theorem sent_frames_are_trimmed (toUpperCase : jsstring -> jsstring) (s : State) :
  reachable toUpperCase s ->
  forall h text, (h, text) ∈ sent s ->
    text <> [] /\ trim text = text /\
    match text with c :: _ => isWhiteSpace c = false | [] => True end /\
    match rev text with c :: _ => isWhiteSpace c = false | [] => True end.
Proof.
  intros Hreach h text Hin.
  pose proof (reachable_sent_trimmed toUpperCase s Hreach) as Hall.
  rewrite Forall_forall in Hall. destruct (Hall _ Hin) as [Hne Htrim].
  cbn in Hne, Htrim. split; [done|]. split; [done|].
  unfold trimmed in Htrim. rewrite <- Htrim. apply trim_ends.
Qed.

Lemma sent_frames_are_trimmed_witness :
  reachable upperASCII
    (sendMessage (lit "09:00:02")
       (set_userInput (lit "  status?  ")
          (ws_onopen (lit "09:00:01") (set_sockets [OPEN] freshPage)))) /\
  sent (sendMessage (lit "09:00:02")
          (set_userInput (lit "  status?  ")
             (ws_onopen (lit "09:00:01") (set_sockets [OPEN] freshPage))))
  = [(0%nat, lit "status?")].
Proof.
  assert (reachable upperASCII
            (sendMessage (lit "09:00:02")
               (set_userInput (lit "  status?  ")
                  (ws_onopen (lit "09:00:01") (set_sockets [OPEN] freshPage)))))
    as Hreach.
  { apply (reachable_step upperASCII
             (set_userInput (lit "  status?  ")
                (ws_onopen (lit "09:00:01") (set_sockets [OPEN] freshPage)))
             (lit "09:00:02") EvSend); [|reflexivity].
    apply (reachable_step upperASCII
             (ws_onopen (lit "09:00:01") (set_sockets [OPEN] freshPage))
             (lit "09:00:02") (EvType (lit "  status?  "))); [|reflexivity].
    apply (reachable_step upperASCII freshPage (lit "09:00:01") (EvOpen 0)).
    - apply reachable_initial. repeat split.
    - vm_compute. reflexivity. }
  split; [exact Hreach|].
  assert ((0%nat, lit "status?") ∈
          sent (sendMessage (lit "09:00:02")
                  (set_userInput (lit "  status?  ")
                     (ws_onopen (lit "09:00:01") (set_sockets [OPEN] freshPage)))))
    as Hin by (vm_compute; left).
  destruct (sent_frames_are_trimmed upperASCII _ Hreach _ _ Hin) as (_ & _).
  vm_compute. reflexivity.
Defined.

(** X11.  A send that goes out consumes the input, so sending again
    right away does nothing: on an open socket, or with nothing typed,
    [sendMessage] twice is [sendMessage] once.  With a text typed and no
    open socket, each attempt logs the notice again. *)
Theorem sendMessage_twice (now1 now2 : jsstring) (s : State) :
  (trim (userInput s) = [] \/ openSocket s <> None ->
   sendMessage now2 (sendMessage now1 s) = sendMessage now1 s) /\
  (trim (userInput s) <> [] -> openSocket s = None ->
   sendMessage now2 (sendMessage now1 s)
   = addLog now2 cannotSend (addLog now1 cannotSend s)).
Proof.
  split.
  - intros Hcase. unfold sendMessage at 2 3.
    destruct (trim (userInput s)) as [|c text] eqn:Htext.
    + unfold sendMessage. by rewrite Htext.
    + destruct Hcase as [?|Hopen]; [done|].
      destruct (openSocket s) as [h|]; [|done].
      reflexivity.
  - intros Hne Hclosed. unfold sendMessage at 2.
    destruct (trim (userInput s)) as [|c text] eqn:Htext; [done|].
    rewrite Hclosed. unfold sendMessage.
    change (userInput (addLog now1 cannotSend s)) with (userInput s).
    rewrite Htext.
    replace (openSocket (addLog now1 cannotSend s)) with (openSocket s)
      by reflexivity.
    by rewrite Hclosed.
Qed.

Lemma sendMessage_twice_witness :
  openSocket typedOnline <> None /\
  sent (sendMessage (lit "09:00:01") (sendMessage (lit "09:00:00") typedOnline))
  = [(0%nat, lit "status?")].
Proof.
  assert (openSocket typedOnline <> None) as Hopen by (vm_compute; discriminate).
  split; [exact Hopen|].
  destruct (sendMessage_twice (lit "09:00:00") (lit "09:00:01") typedOnline)
    as [Hsame _].
  rewrite (Hsame (or_intror Hopen)). vm_compute. reflexivity.
Defined.

(** ** The seed of the graph *)

(** X12.  While no network exists, the first body with distinct node ids,
    none of them held yet, and with edges is taken over whole, whether or
    not the pass is forced: its nodes and edges are appended in order and
    the network is created.  A body without [nodes] changes nothing.  A
    body without [edges] leaves its nodes in the data set but no network,
    so the next body is treated as a seed again. *)
Theorem seed_takes_body_whole
    (force : bool) (nodes : list GraphNode) (edges : list GraphEdge)
    (s : State) :
  network s = false ->
  NoDup (n_id <$> nodes) ->
  (forall n, n ∈ nodes -> n_id n ∉ n_id <$> graphNodes s) ->
  loadGraph_then force (mkGraphData (Some nodes) (Some edges)) s
  = set_network true
      (set_graphEdges (graphEdges s ++ edges)
         (set_graphNodes (graphNodes s ++ nodes) s)) /\
  loadGraph_then force (mkGraphData None (Some edges)) s = s /\
  loadGraph_then force (mkGraphData (Some nodes) None) s
  = set_graphNodes (graphNodes s ++ nodes) s /\
  network (loadGraph_then force (mkGraphData (Some nodes) None) s) = false.
Proof.
  intros Hnet Hnd Hnew. unfold loadGraph_then. cbn [g_nodes g_edges].
  rewrite Hnet. cbn [negb]. rewrite (nodesAdd_fresh nodes (graphNodes s) Hnd Hnew).
  split_and!; done.
Qed.

Lemma seed_takes_body_whole_witness :
  network freshPage = false /\
  graphNodes (loadGraph_then false sampleGraph freshPage)
  = default [] (g_nodes sampleGraph) /\
  graphEdges (loadGraph_then false sampleGraph freshPage)
  = default [] (g_edges sampleGraph) /\
  network (loadGraph_then false sampleGraph freshPage) = true.
Proof.
  assert (network freshPage = false) as Hnet by reflexivity.
  assert (NoDup (n_id <$> [mkNode (lit "m1") (lit "coffee");
                           mkNode (lit "m2") (lit "tea");
                           mkNode (lit "m3") (lit "water")])) as Hnd
    by (apply (bool_decide_unpack _); vm_compute; exact I).
  assert (forall n, n ∈ [mkNode (lit "m1") (lit "coffee");
                         mkNode (lit "m2") (lit "tea");
                         mkNode (lit "m3") (lit "water")] ->
                    n_id n ∉ n_id <$> graphNodes freshPage) as Hnew
    by (intros n _; apply not_elem_of_nil).
  split; [exact Hnet|].
  destruct (seed_takes_body_whole false _
              [mkEdge (lit "m1") (lit "m2") (lit "like");
               mkEdge (lit "m2") (lit "m3") (lit "like")] freshPage Hnet Hnd Hnew)
    as (Hseed & _).
  unfold sampleGraph. rewrite Hseed. split_and!; reflexivity.
Defined.

(** ** Status snapshots compose *)

(** The goal block writes a title and a subtask list that depend on the
    body alone. *)
Lemma updateGoal_shape d :
  exists title children,
    forall s, updateGoal d s = set_subtaskList children (set_goalTitle title s).
Proof.
  unfold updateGoal, renderSubtasks.
  destruct (goal d) as [g|]; [|by eexists _, _].
  destruct (goal_goal g) as [[|c t]|]; [by eexists _, _| |by eexists _, _].
  case_bool_decide; [by eexists _, _|].
  destruct (default [] (goal_subtasks g)); by eexists _, _.
Qed.

Lemma updateStats_updateGoal d d' s :
  updateStats d (updateGoal d' s) = updateGoal d' (updateStats d s).
Proof.
  destruct (updateGoal_shape d') as (title & children & Hshape).
  rewrite !Hshape. clear Hshape.
  destruct s. unfold updateStats, loadGraph.
  cbn [memoryCount set_subtaskList set_goalTitle].
  destruct memoryCount0 as [shown|]; [|reflexivity].
  cbn [lastMemoryCount set_memoryCount activeView networkContainer
       set_subtaskList set_goalTitle].
  repeat match goal with
         | |- context [if ?b then _ else _] => destruct b
         end; reflexivity.
Qed.

Lemma updateGoal_overwrites d d' s :
  updateGoal d (updateGoal d' s) = updateGoal d s.
Proof.
  destruct (updateGoal_shape d) as (title & children & Hshape).
  destruct (updateGoal_shape d') as (title' & children' & Hshape').
  rewrite !Hshape, Hshape'. by destruct s.
Qed.

Lemma updateStats_twice d s :
  updateStats d (updateStats d s) = updateStats d s.
Proof.
  destruct s. unfold updateStats, loadGraph. cbn.
  destruct memoryCount0 as [shown|]; [|done]. cbn.
  set (count := default 0 (memory_count d)).
  destruct (Z.ltb_spec lastMemoryCount0 count) as [Hlt|Hge]; cbn.
  - rewrite Z.ltb_irrefl.
    repeat match goal with
           | |- context [if ?b then _ else _] => destruct b; cbn
           end; reflexivity.
  - destruct (Z.ltb_spec lastMemoryCount0 count); [lia|done].
Qed.

(** X13.  Processing the same snapshot twice is processing it once: the
    second time finds the count no greater than [lastMemoryCount], issues
    no further request, and rewrites the counter and the goal display
    with what they already show. *)
Theorem same_snapshot_twice (data : StatusData) (s : State) :
  fetchStatus_then data (fetchStatus_then data s) = fetchStatus_then data s.
Proof.
  unfold fetchStatus_then.
  rewrite updateStats_updateGoal, updateGoal_overwrites.
  by rewrite updateStats_twice.
Qed.

(** X14.  The goal display is overwritten by each snapshot and depends on
    nothing before it: after two snapshots the title and the subtask
    list are those of the second alone, while the counter bookkeeping of
    the two commutes with it. *)
Theorem goal_display_last_snapshot_wins (first second : StatusData) (s : State) :
  fetchStatus_then second (fetchStatus_then first s)
  = updateGoal second (updateStats second (updateStats first s)) /\
  goalTitle (fetchStatus_then second (fetchStatus_then first s))
  = goalTitle (updateGoal second s) /\
  subtaskList (fetchStatus_then second (fetchStatus_then first s))
  = subtaskList (updateGoal second s).
Proof.
  assert (fetchStatus_then second (fetchStatus_then first s)
          = updateGoal second (updateStats second (updateStats first s))) as Heq.
  { unfold fetchStatus_then.
    by rewrite updateStats_updateGoal, updateGoal_overwrites. }
  rewrite Heq. split; [done|].
  generalize (updateStats second (updateStats first s)). intros s1.
  unfold updateGoal, renderSubtasks.
  destruct (goal second) as [g|]; [|done].
  destruct (goal_goal g) as [[|c t]|]; [done| |done].
  case_bool_decide; [done|].
  by destruct (default [] (goal_subtasks g)).
Qed.

(** ** The heartbeat pattern and the dispatcher *)

Lemma includes_tail pat c s :
  includes pat (c :: s) = false -> includes pat s = false.
Proof.
  rewrite includes_cons. by destruct (stripPrefix pat (c :: s)).
Qed.

Lemma replaceHeartbeat_absent s :
  includes (lit "Heartbeat:") s = false -> replaceHeartbeat s = s.
Proof.
  induction s as [|c s IH]; [done|].
  intros Hno. cbn [replaceHeartbeat].
  rewrite (matchAt_none _ Hno). f_equal. apply IH.
  by apply (includes_tail _ c).
Qed.

Lemma replaceHeartbeat_shorter s :
  includes (lit "Heartbeat:") s = true ->
  (length (replaceHeartbeat s) + 10 <= length s)%nat.
Proof.
  assert (forall pat s r, stripPrefix pat s = Some r ->
                          length s = (length pat + length r)%nat) as Hstrip.
  { induction pat as [|p pat IHp]; intros [|c t] r; cbn; try congruence.
    - intros [= <-]. done.
    - intros [= <-]. done.
    - destruct (p =? c)%N; [|done]. intros Hr. by rewrite (IHp t r Hr). }
  assert (forall t, (length (skipWhiteSpace t) <= length t)%nat) as Hskip.
  { intros t. destruct (skipWhiteSpace_split t) as (w & Ht & _).
    rewrite Ht at 2. rewrite length_app. lia. }
  assert (forall t r, afterMarker t = Some r -> (length r + 10 <= length t)%nat)
    as Hafter.
  { intros t r. unfold afterMarker.
    destruct (stripPrefix (lit "Heartbeat:") t) as [r1|] eqn:H1; [|done].
    apply Hstrip in H1. change (length (lit "Heartbeat:")) with 10%nat in H1.
    pose proof (Hskip r1).
    destruct (stripPrefix (lit "Autonomy:") (skipWhiteSpace r1)) as [r2|] eqn:H2.
    - apply Hstrip in H2. pose proof (Hskip r2). intros [= <-]. lia.
    - intros [= <-]. lia. }
  assert (forall t r, matchAt t = Some r -> (length r + 10 <= length t)%nat)
    as Hmatch.
  { induction t as [|c t IHt]; intros r; cbn [matchAt].
    - apply Hafter.
    - destruct (isLineTerminator c); [apply Hafter|].
      destruct (matchAt t) as [r'|] eqn:Hm.
      + intros [= <-]. specialize (IHt r' eq_refl). cbn [length]. lia.
      + apply Hafter. }
  induction s as [|c s IH]; [done|].
  intros Hinc. cbn [replaceHeartbeat].
  destruct (matchAt (c :: s)) as [r|] eqn:Hm; [by apply Hmatch|].
  assert (includes (lit "Heartbeat:") s = true) as Hs.
  { rewrite includes_cons in Hinc.
    destruct (stripPrefix (lit "Heartbeat:") (c :: s)) as [r|] eqn:Hp; [|done].
    assert (is_Some (matchAt (c :: s))) as [? ?]
      by (apply stripPrefix_matchAt; by rewrite Hp).
    congruence. }
  specialize (IH Hs). cbn [length]. lia.
Qed.

(** X15.  The guard [content.includes("Heartbeat:")] of the dispatcher is
    true exactly when the pattern it then replaces has a match.  Under
    the guard the replacement always cuts the marker out, so the result
    is at least the ten characters of [Heartbeat:] shorter; without the
    marker the replacement would leave the text as it is. *)
Theorem heartbeat_guard_is_pattern_test (content : jsstring) :
  includes (lit "Heartbeat:") content = heartbeatTest content /\
  (includes (lit "Heartbeat:") content = true ->
   (length (replaceHeartbeat content) + 10 <= length content)%nat) /\
  (includes (lit "Heartbeat:") content = false ->
   replaceHeartbeat content = content).
Proof.
  split_and!.
  - symmetry. apply heartbeatTest_includes.
  - apply replaceHeartbeat_shorter.
  - apply replaceHeartbeat_absent.
Qed.

Lemma heartbeat_guard_is_pattern_test_witness :
  includes (lit "Heartbeat:") (lit "x Heartbeat: tick") = true /\
  (length (replaceHeartbeat (lit "x Heartbeat: tick")) + 10
   <= length (lit "x Heartbeat: tick"))%nat.
Proof.
  assert (includes (lit "Heartbeat:") (lit "x Heartbeat: tick") = true) as Hinc
    by (vm_compute; reflexivity).
  split; [exact Hinc|].
  destruct (heartbeat_guard_is_pattern_test (lit "x Heartbeat: tick"))
    as (_ & Hcut & _).
  exact (Hcut Hinc).
Defined.

Lemma skipWhiteSpace_twice s :
  skipWhiteSpace (skipWhiteSpace s) = skipWhiteSpace s.
Proof.
  destruct (skipWhiteSpace s) as [|c r] eqn:Hs; [done|].
  apply skipWhiteSpace_keep. by apply (skipWhiteSpace_head s c r).
Qed.

Lemma trim_skipWhiteSpace s : trim (skipWhiteSpace s) = trim s.
Proof. unfold trim. by rewrite skipWhiteSpace_twice. Qed.

(** X16.  When the marker stands on the first line of a log text and
    does not occur again, the thought is the text after the marker,
    without an [Autonomy:] label that may lead it, and without white
    space at either end; what stood before the marker is dropped. *)
Theorem heartbeat_thought_after_marker (before after : jsstring) :
  forallb (fun c => negb (isLineTerminator c)) before = true ->
  includes (lit "Heartbeat:") (drop 1 (lit "Heartbeat:" ++ after)) = false ->
  heartbeatThought (before ++ lit "Heartbeat:" ++ after)
  = trim (match stripPrefix (lit "Autonomy:") (skipWhiteSpace after) with
          | Some rest => rest
          | None => after
          end).
Proof.
  intros Hline Honce. unfold heartbeatThought.
  rewrite (replaceHeartbeat_marker before after Hline Honce).
  destruct (stripPrefix (lit "Autonomy:") (skipWhiteSpace after));
    apply trim_skipWhiteSpace.
Qed.

Lemma heartbeat_thought_after_marker_witness :
  forallb (fun c => negb (isLineTerminator c)) ([0x26A1%N] ++ lit " ") = true /\
  includes (lit "Heartbeat:")
    (drop 1 (lit "Heartbeat:" ++ lit " Autonomy:  tidy notes ")) = false /\
  heartbeatThought
    (([0x26A1%N] ++ lit " ") ++ lit "Heartbeat:" ++ lit " Autonomy:  tidy notes ")
  = lit "tidy notes".
Proof.
  assert (forallb (fun c => negb (isLineTerminator c)) ([0x26A1%N] ++ lit " ") = true)
    as Hline by (vm_compute; reflexivity).
  assert (includes (lit "Heartbeat:")
            (drop 1 (lit "Heartbeat:" ++ lit " Autonomy:  tidy notes ")) = false)
    as Honce by (vm_compute; reflexivity).
  split; [exact Hline|]. split; [exact Honce|].
  rewrite (heartbeat_thought_after_marker _ _ Hline Honce).
  vm_compute. reflexivity.
Defined.

(** X17.  No frame from the server, whatever its type and content, sends
    anything, changes the input field, the graph, [lastMemoryCount] or
    the connection state.  A frame of a type the dispatcher does not know
    changes nothing at all.  The thought stream is left as it is or gets
    one thought at its head, and that thought is never empty and has no
    white space at either end. *)
Theorem dispatcher_is_confined
    (toUpperCase : jsstring -> jsstring) (now : jsstring) (data : Frame)
    (s : State) :
  let s' := ws_onmessage toUpperCase now data s in
  sent s' = sent s /\ userInput s' = userInput s /\
  graphOf s' = graphOf s /\ lastMemoryCount s' = lastMemoryCount s /\
  connOf s' = connOf s /\
  (f_type data ∉ [lit "response"; lit "status"; lit "log";
                  lit "refresh_status"; lit "refresh_journal"] -> s' = s) /\
  (thoughtStream s' = thoughtStream s \/
   exists thought,
     thought <> [] /\ trim thought = thought /\
     thoughtStream s' = removeLastIfOver 20 (thought :: thoughtStream s)).
Proof.
  cbv zeta.
  destruct (keeps_ws_onmessage toUpperCase now data s) as (Hg & Hl & Hs & Hu & Hc).
  split_and!; try done.
  - intros Hunknown. unfold ws_onmessage.
    repeat (case_bool_decide as Ht;
            [exfalso; apply Hunknown; rewrite Ht; set_solver|clear Ht]).
    done.
  - unfold ws_onmessage. repeat case_bool_decide; try by left.
    destruct (includes _ _); [|by left].
    destruct (heartbeatThought (f_content data)) as [|c t] eqn:Hth; [by left|].
    right. exists (c :: t). split_and!; [done| |done].
    rewrite <- Hth. unfold heartbeatThought. apply trim_idempotent.
Qed.

Lemma dispatcher_is_confined_witness :
  (lit "tool_start" ∉ [lit "response"; lit "status"; lit "log";
                       lit "refresh_status"; lit "refresh_journal"]) /\
  ws_onmessage upperASCII (lit "09:00:00")
    (mkFrame (lit "tool_start") [] []) fullStreams = fullStreams.
Proof.
  assert (lit "tool_start" ∉ [lit "response"; lit "status"; lit "log";
                              lit "refresh_status"; lit "refresh_journal"])
    as Hunknown by (apply (bool_decide_unpack _); vm_compute; exact I).
  split; [exact Hunknown|].
  destruct (dispatcher_is_confined upperASCII (lit "09:00:00")
              (mkFrame (lit "tool_start") [] []) fullStreams)
    as (_ & _ & _ & _ & _ & Hsame & _).
  exact (Hsame Hunknown).
Defined.

(** ** The live stream of the Ether script *)

Lemma ether_stream_history now texts stream :
  (length stream <= 50)%nat ->
  EtherStream.addStreamLines now texts stream
  = take 50 (reverse (EtherStream.streamLine now <$> texts) ++ stream).
Proof.
  unfold EtherStream.addStreamLines. revert stream.
  induction texts as [|t texts IH]; intros stream Hs.
  - cbn. by rewrite take_ge.
  - cbn [foldl].
    assert (EtherStream.addStreamLine now t stream
            = take 50 (EtherStream.streamLine now t :: stream)) as Hone
      by (apply removeLastIfOver_take; cbn; lia).
    rewrite IH by (rewrite Hone, length_take; lia).
    rewrite Hone, fmap_cons, reverse_cons, <- app_assoc. cbn [app].
    set (lines := reverse (EtherStream.streamLine now <$> texts)).
    destruct (decide (length lines <= 50)%nat) as [Hr|Hr].
    + rewrite !take_app_ge by done. f_equal.
      rewrite take_take. f_equal. lia.
    + rewrite !take_app_le by lia. done.
Qed.

(** X18.  The preview of the arguments of a [tool_start] frame is never
    longer than 33 characters and always starts as the arguments do:
    arguments of up to 30 characters are shown whole, longer ones are cut
    after 30 characters and followed by three dots. *)
Theorem argsPreview_bounded (args : jsstring) :
  (length (EtherStream.argsPreview args) <= 33)%nat /\
  take 30 (EtherStream.argsPreview args) = take 30 args /\
  ((length args <= 30)%nat -> EtherStream.argsPreview args = args) /\
  ((30 < length args)%nat ->
   EtherStream.argsPreview args = take 30 args ++ lit "..." /\
   length (EtherStream.argsPreview args) = 33%nat).
Proof.
  unfold EtherStream.argsPreview.
  destruct (Nat.ltb_spec 30 (length args)) as [Hlong|Hshort].
  - split_and!.
    + rewrite length_app, length_take.
      change (length (lit "...")) with 3%nat. lia.
    + rewrite take_app_le by (rewrite length_take; lia).
      rewrite take_take. f_equal.
    + lia.
    + intros _. split; [done|]. rewrite length_app, length_take.
      change (length (lit "...")) with 3%nat. lia.
  - rewrite app_nil_r. split_and!.
    + rewrite length_take. lia.
    + by rewrite take_take.
    + intros _. by apply take_ge.
    + lia.
Qed.

Lemma argsPreview_bounded_witness :
  (30 < length (lit "{'query': 'what did we decide about the launch'}"))%nat /\
  EtherStream.argsPreview (lit "{'query': 'what did we decide about the launch'}")
  = lit "{'query': 'what did we decide ...".
Proof.
  assert (30 < length (lit "{'query': 'what did we decide about the launch'}"))%nat
    as Hlong by (vm_compute; lia).
  split; [exact Hlong|].
  destruct (argsPreview_bounded (lit "{'query': 'what did we decide about the launch'}"))
    as (_ & _ & _ & Hcut).
  destruct (Hcut Hlong) as [-> _]. vm_compute. reflexivity.
Defined.

(** X19.  The live stream of the Ether script keeps the newest 50 lines,
    newest first: a stream holding at most 50 lines holds at most 50
    after any number of insertions, namely the lines inserted, last one
    first, followed by the old ones, cut off after 50; each insertion puts
    its line at the head. *)
Theorem ether_stream_newest_fifty
    (now : jsstring) (texts : list jsstring) (stream : list jsstring) :
  (length stream <= 50)%nat ->
  EtherStream.addStreamLines now texts stream
  = take 50 (reverse (EtherStream.streamLine now <$> texts) ++ stream) /\
  (length (EtherStream.addStreamLines now texts stream) <= 50)%nat /\
  (forall text,
     EtherStream.addStreamLine now text stream
     = EtherStream.streamLine now text :: take 49 stream).
Proof.
  intros Hs. split_and!.
  - by apply ether_stream_history.
  - rewrite ether_stream_history by done. rewrite length_take. lia.
  - intros text. unfold EtherStream.addStreamLine.
    by rewrite removeLastIfOver_take by (cbn; lia).
Qed.

Lemma ether_stream_newest_fifty_witness :
  (length (numbered <$> seq 1 50) <= 50)%nat /\
  EtherStream.addStreamLines (lit "09:00") [lit "a"; lit "b"] (numbered <$> seq 1 50)
  = [lit "[09:00] b"; lit "[09:00] a"] ++ (numbered <$> seq 1 48).
Proof.
  assert (length (numbered <$> seq 1 50) <= 50)%nat as Hs by (vm_compute; lia).
  split; [exact Hs|].
  destruct (ether_stream_newest_fifty (lit "09:00") [lit "a"; lit "b"]
              (numbered <$> seq 1 50) Hs) as (-> & _).
  vm_compute. reflexivity.
Defined.

(** ** The host health grid *)

Lemma removeFirst_unfold pat s :
  removeFirst pat s
  = match stripPrefix pat s with
    | Some rest => rest
    | None => match s with
              | [] => []
              | c :: s' => c :: removeFirst pat s'
              end
    end.
Proof. by destruct s. Qed.

Lemma removeFirst_prefix pat rest : removeFirst pat (pat ++ rest) = rest.
Proof. by rewrite removeFirst_unfold, stripPrefix_app. Qed.

Lemma removeFirst_absent pat s : includes pat s = false -> removeFirst pat s = s.
Proof.
  induction s as [|c s IH]; intros Hno.
  - rewrite includes_nil in Hno. cbn.
    by destruct (stripPrefix pat []).
  - rewrite includes_cons in Hno. cbn [removeFirst].
    destruct (stripPrefix pat (c :: s)); [done|]. by rewrite IH.
Qed.

(** X20.  The label of a host in the health grid is the host without its
    scheme: for a name that contains neither [http://] nor [https://],
    the hosts [https://name], [http://name] and [name] are all labelled
    [name].  The grid has one item per host, in the order of the map,
    marked online or offline by its flag, and the placeholder when the
    map is empty. *)
Theorem health_grid_labels (name : jsstring) (healthMap : list (jsstring * bool)) :
  includes (lit "http://") name = false ->
  includes (lit "https://") name = false ->
  cleanHost (lit "https://" ++ name) = name /\
  cleanHost (lit "http://" ++ name) = name /\
  cleanHost name = name /\
  renderOllamaHealth [] = [HealthEmpty (lit "No hosts configured")] /\
  (healthMap <> [] ->
   length (renderOllamaHealth healthMap) = length healthMap /\
   forall i host (ok : bool), healthMap !! i = Some (host, ok) ->
     renderOllamaHealth healthMap !! i
     = Some (HealthItem (cleanHost host)
               (if ok then lit "online" else lit "offline")
               (if ok then lit "ACTIVE" else lit "OFFLINE"))).
Proof.
  intros Hhttp Hhttps. unfold cleanHost. split_and!.
  - rewrite removeFirst_prefix. by apply removeFirst_absent.
  - rewrite (removeFirst_absent (lit "https://")).
    + by rewrite removeFirst_prefix.
    + change (lit "http://" ++ name)
        with (104 :: 116 :: 116 :: 112 :: 58 :: 47 :: 47 :: name)%N.
      rewrite !includes_cons. cbn [stripPrefix lit].
      change (lit "https://") with (104 :: 116 :: 116 :: 112 :: 115 :: lit "://")%N.
      cbn [stripPrefix N.eqb Pos.eqb]. 
      change (104 :: 116 :: 116 :: 112 :: 115 :: lit "://")%N with (lit "https://").
      exact Hhttps.
  - rewrite (removeFirst_absent (lit "https://")) by done.
    by apply removeFirst_absent.
  - reflexivity.
  - intros Hne. destruct healthMap as [|e rest]; [done|].
    unfold renderOllamaHealth. split; [by rewrite length_fmap|].
    intros i host ok Hi. rewrite list_lookup_fmap, Hi. reflexivity.
Qed.

Lemma health_grid_labels_witness :
  includes (lit "http://") (lit "10.0.0.7:11434") = false /\
  includes (lit "https://") (lit "10.0.0.7:11434") = false /\
  renderOllamaHealth [(lit "http://10.0.0.7:11434", false)]
  = [HealthItem (lit "10.0.0.7:11434") (lit "offline") (lit "OFFLINE")].
Proof.
  assert (includes (lit "http://") (lit "10.0.0.7:11434") = false) as Hhttp
    by (vm_compute; reflexivity).
  assert (includes (lit "https://") (lit "10.0.0.7:11434") = false) as Hhttps
    by (vm_compute; reflexivity).
  split; [exact Hhttp|]. split; [exact Hhttps|].
  destruct (health_grid_labels (lit "10.0.0.7:11434")
              [(lit "http://10.0.0.7:11434", false)] Hhttp Hhttps)
    as (_ & Hclean & _).
  unfold renderOllamaHealth. cbn [fmap list_fmap fst snd].
  change (lit "http://10.0.0.7:11434") with (lit "http://" ++ lit "10.0.0.7:11434").
  rewrite Hclean. reflexivity.
Defined.

(** ** The journal feed *)

(** X21.  The journal feed shows one card per entry, newest first: entry
    [i] of the body is card [n - 1 - i] of the feed.  Without entries the
    feed holds the placeholder alone, so it is never empty.  An entry
    whose text is not JSON is shown as it is, without an outcome tag. *)
Theorem journal_newest_first
    (JSON_parse : jsstring -> option ParsedEntry)
    (toLocaleString : jsstring -> jsstring)
    (entries : list JournalEntry) :
  let feed := loadJournal_then JSON_parse toLocaleString in
  feed None = [JournalEmpty (lit "No entries found.")] /\
  feed (Some []) = [JournalEmpty (lit "No entries found.")] /\
  (entries <> [] ->
   length (feed (Some entries)) = length entries /\
   forall i e, entries !! i = Some e ->
     feed (Some entries) !! (length entries - S i)%nat
     = Some (JournalCard (renderEntry JSON_parse toLocaleString e))) /\
  (forall e, JSON_parse (j_entry e) = None ->
     card_body (renderEntry JSON_parse toLocaleString e) = j_entry e /\
     card_outcome (renderEntry JSON_parse toLocaleString e) = None).
Proof.
  cbv zeta. split_and!; try reflexivity.
  - intros Hne.
    assert (loadJournal_then JSON_parse toLocaleString (Some entries)
            = (fun e => JournalCard (renderEntry JSON_parse toLocaleString e))
                <$> reverse entries) as ->
      by (destruct entries; [done|reflexivity]).
    split; [by rewrite length_fmap, length_reverse|].
    intros i e Hi. rewrite list_lookup_fmap.
    pose proof (lookup_lt_Some _ _ _ Hi) as Hlt.
    rewrite reverse_lookup by lia.
    replace (length entries - S (length entries - S i))%nat with i by lia.
    by rewrite Hi.
  - intros e Hparse. unfold renderEntry. by rewrite Hparse.
Qed.

Lemma journal_newest_first_witness :
  [mkEntry (lit "t1") (lit "first"); mkEntry (lit "t2") (lit "second")] <> [] /\
  loadJournal_then (fun _ => None) (fun t => t)
    (Some [mkEntry (lit "t1") (lit "first"); mkEntry (lit "t2") (lit "second")])
  !! 0%nat
  = Some (JournalCard (mkCard (lit "t2") (lit "second") None)).
Proof.
  assert ([mkEntry (lit "t1") (lit "first"); mkEntry (lit "t2") (lit "second")]
          <> []) as Hne by discriminate.
  split; [exact Hne|].
  destruct (journal_newest_first (fun _ => None) (fun t => t)
              [mkEntry (lit "t1") (lit "first"); mkEntry (lit "t2") (lit "second")])
    as (_ & _ & Horder & _).
  destruct (Horder Hne) as [_ Hat].
  exact (Hat 1%nat (mkEntry (lit "t2") (lit "second")) eq_refl).
Defined.

(** ** The system panel *)

(** X22.  A label of the system panel has the length of its key, holds
    no underscore, and differs from the key only where the key has an
    underscore, where it has a space.  The panel gets one row per key in
    the order of the body, and is left alone when the body reports an
    error. *)
Theorem system_panel_labels (key : jsstring) (info : list (jsstring * jsstring)) :
  length (replaceUnderscores key) = length key /\
  (95%N ∉ replaceUnderscores key) /\
  (forall i c, key !! i = Some c ->
     replaceUnderscores key !! i = Some (if (c =? 95)%N then 32%N else c)) /\
  fetchSystemInfo_then true info = None /\
  (exists rows, fetchSystemInfo_then false info = Some rows /\
                length rows = length info /\ rows.*2 = info.*2).
Proof.
  unfold replaceUnderscores. split_and!.
  - apply length_fmap.
  - intros (c & Hc & _)%list_elem_of_fmap.
    destruct (c =? 95)%N eqn:Heq; [discriminate|].
    apply N.eqb_neq in Heq. congruence.
  - intros i c Hi. by rewrite list_lookup_fmap, Hi.
  - reflexivity.
  - eexists. split; [reflexivity|]. split; [apply length_fmap|].
    rewrite <- list_fmap_compose. done.
Qed.

(** ** Requests over the whole event loop *)

Lemma requests_fetchStatus_then data s :
  exists fire : bool,
    requests (fetchStatus_then data s)
    = requests s ++ (if fire then [ReqGraph true] else []) /\
    (fire = true ->
     default 0 (memory_count data) > lastMemoryCount s /\
     lastMemoryCount s <> -1 /\ activeView s = graph /\
     networkContainer s = true /\ memoryCount s <> None).
Proof.
  destruct (memoryCount s) as [shown|] eqn:Hshown.
  - assert (memoryCount s <> None) as Hel by (by rewrite Hshown).
    destruct (fetchStatus_then_counter data s Hel) as [Hreq _].
    cbv zeta in Hreq.
    eexists. split; [exact Hreq|].
    rewrite !andb_true_iff, negb_true_iff, Z.ltb_lt, Z.eqb_neq, bool_decide_eq_true.
    intros (((? & ?) & ?) & ?). split_and!; [lia|done..].
  - exists false. split; [|done]. rewrite app_nil_r.
    unfold fetchStatus_then.
    destruct (updateGoal_frame data (updateStats data s)) as (-> & _).
    unfold updateStats. by rewrite Hshown.
Qed.

Lemma requests_ws_onmessage toUpperCase now data s :
  exists new, requests (ws_onmessage toUpperCase now data s) = requests s ++ new /\
              (new = [] \/ new = [ReqStatus] \/ new = [ReqJournal]).
Proof.
  unfold ws_onmessage.
  repeat case_bool_decide;
    try (exists (@nil Request); split; [by rewrite app_nil_r|by left]).
  - destruct (includes _ _);
      [destruct (heartbeatThought _)|];
      exists (@nil Request); (split; [by rewrite app_nil_r|by left]).
  - exists [ReqStatus]. split; [done|]. right. by left.
  - exists [ReqJournal]. split; [done|]. right. by right.
Qed.

(** Membership in a short explicit list of requests that does not hold
    the request. *)
Ltac not_requested Hin :=
  repeat (apply elem_of_cons in Hin as [Hin|Hin]; [discriminate Hin|]);
  by apply elem_of_nil in Hin.

(** What one event adds to the requests. *)
Lemma step_requests toUpperCase now e s s' :
  step toUpperCase now e s = Some s' ->
  exists new,
    requests s' = requests s ++ new /\
    (ReqGraph true ∈ new ->
     exists data, e = EvStatusBody data /\
       default 0 (memory_count data) > lastMemoryCount s /\
       lastMemoryCount s <> -1 /\ activeView s = graph) /\
    (ReqGraph false ∈ new -> e = EvSwitchMainView graph).
Proof.
  assert (forall new : list Request,
            new = [] \/ new = [ReqStatus] \/ new = [ReqJournal] \/
            new = [ReqStatus; ReqJournal] ->
            forall force, ReqGraph force ∉ new) as Hplain.
  { intros new [ -> | [ -> | [ -> | -> ] ] ] force Hin; not_requested Hin. }
  intros Hstep. destruct e; cbn [step] in Hstep.
  - case_bool_decide; [|done]. injection Hstep as <-.
    exists [ReqStatus]. split.
    + unfold ws_onopen, setConnectionDot, clearTimeout. cbv zeta.
      match goal with |- context [connectionDot ?x] => destruct (connectionDot x) end;
        change (reconnectTimer (set_reconnectDelay 1000
                  (set_sockets (<[h:=OPEN]> (sockets s)) s)))
          with (reconnectTimer s);
        destruct (reconnectTimer s); reflexivity.
    + split; intros Hin; by eapply Hplain in Hin; [|right; left].
  - case_bool_decide; [|done]. injection Hstep as <-.
    destruct data as [d|].
    + destruct (requests_ws_onmessage toUpperCase now d s) as (new & Hreq & Hnew).
      exists new. split; [done|].
      split; intros Hin; eapply Hplain in Hin; try done;
        destruct Hnew as [?|[?|?]]; tauto.
    + exists (@nil Request). split; [by rewrite app_nil_r|]. split; intros Hin; not_requested Hin.
  - destruct (bool_decide (sockets s !! h = Some CONNECTING)
              || bool_decide (sockets s !! h = Some OPEN)); [|done].
    injection Hstep as <-.
    exists (@nil Request). split; [|split; intros Hin; not_requested Hin].
    rewrite app_nil_r.
    unfold ws_onclose, setTimeout, setConnectionDot. cbv zeta.
    match goal with |- context [connectionDot ?x] => destruct (connectionDot x) end;
      reflexivity.
  - case_bool_decide; [|done]. injection Hstep as <-.
    exists (@nil Request). split; [by rewrite app_nil_r|split; intros Hin; not_requested Hin].
  - injection Hstep as <-. exists [ReqStatus].
    split; [done|]. split; intros Hin; by eapply Hplain in Hin; [|right; left].
  - case_bool_decide; [|done]. injection Hstep as <-.
    destruct (requests_fetchStatus_then data s) as (fire & Hreq & Hfire).
    exists (if fire then [ReqGraph true] else []). split; [done|].
    destruct fire.
    + split.
      * intros _. exists data. destruct (Hfire eq_refl) as (? & ? & ? & _). done.
      * intros Hin. not_requested Hin.
    + split; intros Hin; not_requested Hin.
  - case_bool_decide; [|done]. injection Hstep as <-.
    exists (@nil Request). split; [|split; intros Hin; not_requested Hin].
    rewrite app_nil_r. unfold loadGraph_then.
    destruct (g_nodes data) as [nodes|]; [|done].
    destruct (negb (network s)).
    + destruct (nodesAdd nodes (graphNodes s)) as [ds []]; [|done].
      by destruct (g_edges data).
    + destruct force; [|done].
      match goal with |- context [if ?b then nodesAdd ?x ?y else ?z] =>
        destruct (if b then nodesAdd x y else z) as [ds []] end; [|done].
      destruct (g_edges data) as [edges|]; [|done].
      match goal with |- context [if ?b then _ else _] => by destruct b end.
  - injection Hstep as <-.
    exists (@nil Request). split; [by rewrite app_nil_r|split; intros Hin; not_requested Hin].
  - injection Hstep as <-.
    exists (@nil Request). split; [|split; intros Hin; not_requested Hin].
    rewrite app_nil_r. unfold sendMessage.
    destruct (trim (userInput s)); [done|]. by destruct (openSocket s).
  - injection Hstep as <-. destruct viewId.
    + exists (@nil Request). split; [by rewrite app_nil_r|split; intros Hin; not_requested Hin].
    + exists (if networkContainer s then [ReqGraph false] else []).
      split; [apply (requests_loadGraph false (set_activeView graph s))|].
      split; [|done]. intros Hin. destruct (networkContainer s); not_requested Hin.
    + exists (@nil Request). split; [by rewrite app_nil_r|split; intros Hin; not_requested Hin].
  - injection Hstep as <-. destruct tabId.
    + exists (@nil Request). split; [by rewrite app_nil_r|split; intros Hin; not_requested Hin].
    + exists (@nil Request). split; [by rewrite app_nil_r|split; intros Hin; not_requested Hin].
    + exists [ReqJournal]. split; [done|].
      split; intros Hin; by eapply Hplain in Hin; [|right; right; left].
  - injection Hstep as <-. exists [ReqStatus].
    split; [done|]. split; intros Hin; by eapply Hplain in Hin; [|right; left].
  - injection Hstep as <-. exists [ReqStatus; ReqJournal].
    split; [unfold loadJournal, fetchStatus; cbn [requests set_requests];
            by rewrite <- app_assoc|].
    split; intros Hin; by eapply Hplain in Hin; [|right; right; right].
Qed.

(** X23.  Over the whole event loop a forced graph fetch is issued by one
    thing only: a status body whose count is strictly greater than
    [lastMemoryCount], with [lastMemoryCount] not the sentinel and the
    graph view active.  A non-forced graph fetch is issued only by
    switching to the graph view.  No frame, close, open, timeout, poll or
    send ever fetches the graph. *)
Theorem graph_fetch_origins
    (toUpperCase : jsstring -> jsstring) (now : jsstring) (e : Event)
    (s s' : State) :
  step toUpperCase now e s = Some s' ->
  exists new,
    requests s' = requests s ++ new /\
    (ReqGraph true ∈ new ->
     exists data, e = EvStatusBody data /\
       default 0 (memory_count data) > lastMemoryCount s /\
       lastMemoryCount s <> -1 /\ activeView s = graph) /\
    (ReqGraph false ∈ new -> e = EvSwitchMainView graph).
Proof. apply step_requests. Qed.

Lemma graph_fetch_origins_witness :
  step upperASCII (lit "09:00:05") (EvStatusBody (mkStatus (Some 5) None))
       (fetchStatus watchingGraph)
  = Some (fetchStatus_then (mkStatus (Some 5) None) (fetchStatus watchingGraph)) /\
  requests (fetchStatus_then (mkStatus (Some 5) None) (fetchStatus watchingGraph))
  = [ReqStatus; ReqGraph true].
Proof.
  assert (step upperASCII (lit "09:00:05") (EvStatusBody (mkStatus (Some 5) None))
               (fetchStatus watchingGraph)
          = Some (fetchStatus_then (mkStatus (Some 5) None)
                    (fetchStatus watchingGraph))) as Hstep
    by (vm_compute; reflexivity).
  split; [exact Hstep|].
  destruct (graph_fetch_origins upperASCII _ _ _ _ Hstep) as (new & Hreq & _).
  vm_compute. reflexivity.
Defined.

(** * Dispatch, refresh and reconnection over whole runs *)

(** ** Log frames and the thought stream *)

Lemma includes_marker_inside pat before after :
  includes pat (before ++ pat ++ after) = true.
Proof.
  induction before as [|c before IH].
  - cbn [app]. destruct (pat ++ after) as [|d rest] eqn:Hs.
    + rewrite includes_nil, <- Hs, stripPrefix_app. done.
    + rewrite includes_cons, <- Hs, stripPrefix_app. done.
  - change ((c :: before) ++ pat ++ after) with (c :: (before ++ pat ++ after)).
    rewrite includes_cons, IH. by destruct (stripPrefix _ _).
Qed.

Lemma last_removeFirstWhileOver {A} (cap : nat) (l : list A) (x : A) :
  (1 <= cap)%nat -> last (removeFirstWhileOver cap (l ++ [x])) = Some x.
Proof.
  intros Hcap. rewrite removeFirstWhileOver_drop.
  rewrite drop_app_keep by (rewrite length_app; cbn; lia).
  apply last_snoc.
Qed.

(** A pattern that does not start a line, and holds no character of the
    text after the line, does not start the line followed by that text. *)
Lemma stripPrefix_line_none (pat line rest : jsstring) :
  stripPrefix pat line = None ->
  (forall c, head rest = Some c -> c ∉ pat) ->
  stripPrefix pat (line ++ rest) = None.
Proof.
  revert line. induction pat as [|p pat IH]; intros line Hno Hrest.
  - by destruct line.
  - destruct line as [|x line].
    + destruct rest as [|c rest]; [done|].
      cbn [app stripPrefix].
      destruct (p =? c)%N eqn:Hpc; [|done].
      apply N.eqb_eq in Hpc as ->.
      destruct (Hrest c eq_refl). left.
    + cbn [app stripPrefix] in Hno |- *.
      destruct (p =? x)%N; [|done].
      apply IH; [done|].
      intros c Hc Hin. apply (Hrest c Hc). by right.
Qed.

Lemma lineTerminator_not_in_marker c :
  isLineTerminator c = true -> c ∉ lit "Heartbeat:".
Proof.
  intros Hc Hin.
  repeat (apply elem_of_cons in Hin as [->|Hin]; [by vm_compute in Hc|]).
  by apply elem_of_nil in Hin.
Qed.

(** The pattern matches nowhere from the head of a line without the
    marker, whatever the lines after it hold. *)
Lemma matchAt_line_none (line rest : jsstring) :
  forallb (fun c => negb (isLineTerminator c)) line = true ->
  includes (lit "Heartbeat:") line = false ->
  (forall c, head rest = Some c -> isLineTerminator c = true) ->
  matchAt (line ++ rest) = None.
Proof.
  intros Hline Hno Hrest.
  assert (forall l, stripPrefix (lit "Heartbeat:") l = None ->
                    afterMarker (l ++ rest) = None) as Hafter.
  { intros l Hl. unfold afterMarker.
    rewrite (stripPrefix_line_none (lit "Heartbeat:") l rest Hl); [done|].
    intros c Hc. apply lineTerminator_not_in_marker. by apply Hrest. }
  induction line as [|x line IH].
  - cbn [app]. destruct rest as [|c rest]; [done|].
    cbn [matchAt]. rewrite (Hrest c eq_refl).
    by apply (Hafter []).
  - cbn [forallb] in Hline. apply andb_true_iff in Hline as [Hx Hline].
    apply negb_true_iff in Hx.
    rewrite includes_cons in Hno.
    destruct (stripPrefix (lit "Heartbeat:") (x :: line)) as [r|] eqn:Hp; [done|].
    change ((x :: line) ++ rest) with (x :: (line ++ rest)).
    cbn [matchAt]. rewrite Hx, (IH Hline Hno).
    by apply (Hafter (x :: line)).
Qed.

(** What is cut out when the first line holds the marker: everything up
    to its last marker, the white space after it and an [Autonomy:] label
    with its white space.  What is left is the text after that marker,
    later lines included. *)
Lemma replaceHeartbeat_first_line (before line rest : jsstring) :
  forallb (fun c => negb (isLineTerminator c)) before = true ->
  forallb (fun c => negb (isLineTerminator c)) line = true ->
  includes (lit "Heartbeat:") (drop 1 (lit "Heartbeat:" ++ line)) = false ->
  (forall c, head rest = Some c -> isLineTerminator c = true) ->
  replaceHeartbeat (before ++ lit "Heartbeat:" ++ line ++ rest)
  = match stripPrefix (lit "Autonomy:") (skipWhiteSpace (line ++ rest)) with
    | Some r => skipWhiteSpace r
    | None => skipWhiteSpace (line ++ rest)
    end.
Proof.
  intros Hbefore Hline Honce Hrest.
  set (after := line ++ rest).
  set (left := match stripPrefix (lit "Autonomy:") (skipWhiteSpace after) with
               | Some r => skipWhiteSpace r
               | None => skipWhiteSpace after
               end).
  assert (afterMarker (lit "Heartbeat:" ++ after) = Some left) as Hafter.
  { unfold afterMarker. rewrite stripPrefix_app. cbv zeta. unfold left.
    by destruct (stripPrefix (lit "Autonomy:") (skipWhiteSpace after)). }
  assert (matchAt (drop 1 (lit "Heartbeat:" ++ after)) = None) as Hlater.
  { change (drop 1 (lit "Heartbeat:" ++ after))
      with (drop 1 (lit "Heartbeat:" ++ line) ++ rest).
    apply matchAt_line_none; [|done|done].
    change (drop 1 (lit "Heartbeat:" ++ line)) with (lit "eartbeat:" ++ line).
    rewrite forallb_app, Hline. done. }
  assert (matchAt (lit "Heartbeat:" ++ after) = Some left) as Hhere.
  { change (lit "Heartbeat:" ++ after)
      with (72%N :: drop 1 (lit "Heartbeat:" ++ after)) in Hafter |- *.
    cbn [matchAt]. change (isLineTerminator 72) with false. cbv iota.
    by rewrite Hlater. }
  assert (matchAt (before ++ lit "Heartbeat:" ++ after) = Some left) as Hm.
  { clear Hafter Hlater. induction before as [|c before IH]; [done|].
    cbn [forallb] in Hbefore. apply andb_true_iff in Hbefore as [Hc Hbefore].
    apply negb_true_iff in Hc.
    change ((c :: before) ++ lit "Heartbeat:" ++ after)
      with (c :: (before ++ lit "Heartbeat:" ++ after)).
    cbn [matchAt]. rewrite Hc, (IH Hbefore). done. }
  destruct before as [|c before].
  - change ([] ++ lit "Heartbeat:" ++ after)
      with (72%N :: drop 1 (lit "Heartbeat:" ++ after)) in Hm |- *.
    cbn [replaceHeartbeat]. by rewrite Hm.
  - change ((c :: before) ++ lit "Heartbeat:" ++ after)
      with (c :: (before ++ lit "Heartbeat:" ++ after)) in Hm |- *.
    cbn [replaceHeartbeat]. by rewrite Hm.
Qed.

(** The thought of a text whose first line holds the marker. *)
Lemma heartbeatThought_first_line (before line rest : jsstring) :
  forallb (fun c => negb (isLineTerminator c)) before = true ->
  forallb (fun c => negb (isLineTerminator c)) line = true ->
  includes (lit "Heartbeat:") (drop 1 (lit "Heartbeat:" ++ line)) = false ->
  (forall c, head rest = Some c -> isLineTerminator c = true) ->
  heartbeatThought (before ++ lit "Heartbeat:" ++ line ++ rest)
  = trim (match stripPrefix (lit "Autonomy:") (skipWhiteSpace (line ++ rest)) with
          | Some r => r
          | None => line ++ rest
          end).
Proof.
  intros Hbefore Hline Honce Hrest. unfold heartbeatThought.
  rewrite (replaceHeartbeat_first_line before line rest Hbefore Hline Honce Hrest).
  destruct (stripPrefix (lit "Autonomy:") (skipWhiteSpace (line ++ rest)));
    apply trim_skipWhiteSpace.
Qed.

(** C7 (as amended).  A [log] frame puts its content, as a time-stamped
    line, at the end of the log console (the oldest lines leaving when
    there are more than 200), and changes nothing else but the thought
    stream.  Without the marker [Heartbeat:] in the content the thought
    stream is not touched; with it, at most one thought is put at its
    head, and never an empty one.  When the first line of the content
    holds the marker, the thought is the text after the last marker of
    that line, without an [Autonomy:] label leading it and without white
    space at either end, and it is inserted if and only if it is not
    empty. *)
Theorem log_frame_thought (toUpperCase : jsstring -> jsstring)
    (now : jsstring) (data : Frame) (s : State) :
  f_type data = lit "log" ->
  let content := f_content data in
  let s' := ws_onmessage toUpperCase now data s in
  logConsole s'
  = removeFirstWhileOver 200 (logConsole s ++ [lit "[" ++ now ++ lit "] " ++ content]) /\
  last (logConsole s') = Some (lit "[" ++ now ++ lit "] " ++ content) /\
  s' = set_thoughtStream (thoughtStream s') (set_logConsole (logConsole s') s) /\
  (includes (lit "Heartbeat:") content = false ->
   thoughtStream s' = thoughtStream s) /\
  (thoughtStream s' = thoughtStream s \/
   exists thought,
     thought <> [] /\
     thoughtStream s' = removeLastIfOver 20 (thought :: thoughtStream s)) /\
  (forall before line rest,
     content = before ++ lit "Heartbeat:" ++ line ++ rest ->
     forallb (fun c => negb (isLineTerminator c)) before = true ->
     forallb (fun c => negb (isLineTerminator c)) line = true ->
     includes (lit "Heartbeat:") (drop 1 (lit "Heartbeat:" ++ line)) = false ->
     (forall c, head rest = Some c -> isLineTerminator c = true) ->
     let after := line ++ rest in
     let remainder :=
       trim (match stripPrefix (lit "Autonomy:") (skipWhiteSpace after) with
             | Some r => r
             | None => after
             end) in
     (remainder <> [] ->
      thoughtStream s' = removeLastIfOver 20 (remainder :: thoughtStream s)) /\
     (remainder = [] -> thoughtStream s' = thoughtStream s)).
Proof.
  intros Htype. cbv zeta. unfold ws_onmessage.
  rewrite Htype.
  rewrite (bool_decide_eq_false_2 (lit "log" = lit "response")) by discriminate.
  rewrite (bool_decide_eq_false_2 (lit "log" = lit "status")) by discriminate.
  rewrite (bool_decide_eq_true_2 (lit "log" = lit "log")) by reflexivity.
  assert (last (logConsole (addLog now (f_content data) s))
          = Some (lit "[" ++ now ++ lit "] " ++ f_content data)) as Hlast
    by (apply (last_removeFirstWhileOver 200); lia).
  destruct (includes (lit "Heartbeat:") (f_content data)) eqn:Hinc.
  - destruct (heartbeatThought (f_content data)) as [|c thought] eqn:Hth.
    + split; [reflexivity|]. split; [exact Hlast|].
      split; [by destruct s|]. split; [done|]. split; [by left|].
      intros before line rest Hcontent Hbefore Hline Honce Hrest. cbv zeta.
      rewrite <- (heartbeatThought_first_line before line rest
                    Hbefore Hline Honce Hrest).
      rewrite <- Hcontent, Hth. done.
    + split; [reflexivity|]. split; [exact Hlast|].
      split; [by destruct s|]. split; [done|].
      split; [right; by exists (c :: thought)|].
      intros before line rest Hcontent Hbefore Hline Honce Hrest. cbv zeta.
      rewrite <- (heartbeatThought_first_line before line rest
                    Hbefore Hline Honce Hrest).
      rewrite <- Hcontent, Hth. done.
  - split; [reflexivity|]. split; [exact Hlast|].
    split; [by destruct s|]. split; [done|]. split; [by left|].
    intros before line rest Hcontent _ _ _ _.
    rewrite Hcontent, includes_marker_inside in Hinc. done.
Qed.

Lemma log_frame_thought_witness :
  let data := mkFrame (lit "log")
                (([0x26A1%N] ++ lit " ") ++ lit "Heartbeat:" ++ lit " Autonomy: idle scan")
                [] in
  f_type data = lit "log" /\
  thoughtStream (ws_onmessage upperASCII (lit "09:00:00") data freshPage)
  = [lit "idle scan"] /\
  logConsole (ws_onmessage upperASCII (lit "09:00:00") data freshPage)
  = [lit "[09:00:00] " ++ f_content data].
Proof.
  cbv zeta. split; [reflexivity|].
  destruct (log_frame_thought upperASCII (lit "09:00:00")
              (mkFrame (lit "log")
                 (([0x26A1%N] ++ lit " ") ++ lit "Heartbeat:"
                  ++ lit " Autonomy: idle scan") [])
              freshPage eq_refl) as (Hlog & _ & _ & _ & _ & Hmarker).
  split.
  - destruct (Hmarker ([0x26A1%N] ++ lit " ") (lit " Autonomy: idle scan") []
                eq_refl) as [Hins _];
      [vm_compute; reflexivity|vm_compute; reflexivity|vm_compute; reflexivity
      |intros c [=]|].
    rewrite Hins; [vm_compute; reflexivity|]. vm_compute. discriminate.
  - rewrite Hlog. vm_compute. reflexivity.
Defined.

(** C7: a thought can come from a line before the marker.  In the text
    of two lines [warmup] and [Heartbeat:] followed by blanks nothing but
    white space follows the marker, and yet the frame puts the thought
    [warmup] on the thought stream. *)
Lemma thought_from_an_earlier_line :
  let data := mkFrame (lit "log") warmupLine [] in
  f_content data = (lit "warmup" ++ [10%N]) ++ lit "Heartbeat:" ++ lit "   " /\
  includes (lit "Heartbeat:") (drop 1 (lit "Heartbeat:" ++ lit "   ")) = false /\
  trim (lit "   ") = [] /\
  thoughtStream (ws_onmessage upperASCII (lit "09:00:00") data freshPage)
  = [lit "warmup"] /\
  thoughtStream (ws_onmessage upperASCII (lit "09:00:00") data freshPage)
  <> thoughtStream freshPage.
Proof.
  cbv zeta. split_and!; try (vm_compute; reflexivity).
  vm_compute. discriminate.
Qed.

(** ** The refresh trigger over a history of snapshots *)

(** No event adds or removes the counter element or the graph
    container. *)
Lemma step_page toUpperCase now e s s' :
  step toUpperCase now e s = Some s' ->
  networkContainer s' = networkContainer s /\
  (memoryCount s' = None <-> memoryCount s = None).
Proof.
  intros Hstep. destruct e; cbn [step] in Hstep.
  - case_bool_decide; [|done]. injection Hstep as <-.
    unfold ws_onopen, setConnectionDot, clearTimeout. cbv zeta.
    match goal with |- context [connectionDot ?x] => destruct (connectionDot x) end;
      change (reconnectTimer (set_reconnectDelay 1000
                (set_sockets (<[h:=OPEN]> (sockets s)) s)))
        with (reconnectTimer s);
      destruct (reconnectTimer s); done.
  - case_bool_decide; [|done]. injection Hstep as <-.
    destruct data as [d|]; [|done].
    unfold ws_onmessage. repeat case_bool_decide; try done.
    destruct (includes _ _); [|done]. by destruct (heartbeatThought _).
  - destruct (bool_decide (sockets s !! h = Some CONNECTING)
              || bool_decide (sockets s !! h = Some OPEN)); [|done].
    injection Hstep as <-.
    unfold ws_onclose, setTimeout, setConnectionDot. cbv zeta.
    match goal with |- context [connectionDot ?x] => destruct (connectionDot x) end;
      done.
  - case_bool_decide; [|done]. by injection Hstep as <-.
  - by injection Hstep as <-.
  - case_bool_decide; [|done]. injection Hstep as <-.
    unfold fetchStatus_then.
    destruct (updateGoal_shape data) as (title & children & ->).
    cbn [networkContainer memoryCount set_subtaskList set_goalTitle].
    unfold updateStats, loadGraph. destruct (memoryCount s) eqn:Hshown; [|done].
    repeat match goal with |- context [if ?b then _ else _] => destruct b end;
      done.
  - case_bool_decide; [|done]. injection Hstep as <-.
    unfold loadGraph_then. destruct (g_nodes data) as [nodes|]; [|done].
    destruct (negb (network s)).
    + destruct (nodesAdd nodes (graphNodes s)) as [ds []]; [|done].
      by destruct (g_edges data).
    + destruct force; [|done].
      match goal with |- context [if ?b then nodesAdd ?x ?y else ?z] =>
        destruct (if b then nodesAdd x y else z) as [ds []] end; [|done].
      destruct (g_edges data) as [edges|]; [|done].
      match goal with |- context [if ?b then _ else _] => by destruct b end.
  - by injection Hstep as <-.
  - injection Hstep as <-. unfold sendMessage.
    destruct (trim (userInput s)); [done|]. by destruct (openSocket s).
  - injection Hstep as <-. unfold switchMainView, loadGraph.
    destruct viewId; [done| |done]. destruct s as [].
    cbn [networkContainer set_activeView]. by destruct networkContainer0.
  - injection Hstep as <-. by destruct tabId.
  - by injection Hstep as <-.
  - by injection Hstep as <-.
Qed.

Lemma foldl_max_ge (base : Z) (counts : list Z) :
  base <= foldl Z.max base counts.
Proof.
  revert base. induction counts as [|c counts IH]; intros base; [done|].
  cbn [foldl]. specialize (IH (Z.max base c)). lia.
Qed.

Lemma highest_sentinel (counts : list Z) :
  (forall c, c ∈ counts -> 0 <= c) -> (highest counts = -1 <-> counts = []).
Proof.
  intros Hpos. unfold highest. split; [|by intros ->].
  destruct counts as [|c counts]; [done|]. cbn [foldl]. intros Heq.
  pose proof (foldl_max_ge (Z.max (-1) c) counts).
  assert (0 <= c) by (apply Hpos; left). lia.
Qed.

Lemma runEvents_none toUpperCase events :
  foldl (fun acc ne => acc ≫= step toUpperCase ne.1 ne.2) None events = None.
Proof. induction events as [|ne events IH]; [done|]. exact IH. Qed.

(** Over a run [lastMemoryCount] is the highest count seen, and the page
    keeps its elements. *)
Lemma runEvents_highest toUpperCase events s s' :
  memoryCount s <> None ->
  runEvents toUpperCase events s = Some s' ->
  lastMemoryCount s' = foldl Z.max (lastMemoryCount s) (countsSeen events) /\
  networkContainer s' = networkContainer s /\
  memoryCount s' <> None.
Proof.
  unfold runEvents. revert s.
  induction events as [|[now e] events IH]; intros s Hel Hrun.
  - cbn in Hrun. by injection Hrun as <-.
  - cbn [foldl mbind option_bind fst snd] in Hrun.
    destruct (step toUpperCase now e s) as [s1|] eqn:Hstep.
    2: { by rewrite runEvents_none in Hrun. }
    destruct (step_page toUpperCase now e s s1 Hstep) as [Hc Hm].
    destruct (IH s1) as (Hl & Hc' & Hm'); [tauto|done|].
    split_and!; [|congruence|done].
    rewrite Hl. unfold countsSeen. cbn [omap list_omap fst snd].
    destruct (step_effects toUpperCase now e s s1 Hstep)
      as (_ & [Hsame|(d & -> & ->)] & _).
    + destruct e; try (by rewrite Hsame).
      cbn [step] in Hstep. case_bool_decide; [|done]. injection Hstep as <-.
      cbn [foldl]. f_equal. rewrite fetchStatus_then_last.
      destruct (memoryCount s); [done|]. done.
    + cbn [foldl]. f_equal. rewrite fetchStatus_then_last.
      destruct (memoryCount s); [done|]. done.
Qed.

(** C2 (as amended).  [lastMemoryCount] holds the highest count of all
    snapshots processed so far, not the count of the last one.  On a page
    with the counter element and the graph container, after any run of
    events from the loaded script, a snapshot issues the forced graph
    fetch if and only if its count is strictly greater than the highest
    count seen before, at least one snapshot was seen before, and the
    graph view is the active one; otherwise it issues no request.  The
    first snapshot never issues it. *)
Theorem forced_refresh_on_new_maximum
    (toUpperCase : jsstring -> jsstring) (events : list (jsstring * Event))
    (s0 s : State) (data : StatusData) :
  initial s0 ->
  memoryCount s0 <> None ->
  networkContainer s0 = true ->
  runEvents toUpperCase events s0 = Some s ->
  (forall c, c ∈ countsSeen events -> 0 <= c) ->
  let count := default 0 (memory_count data) in
  let s' := fetchStatus_then data s in
  lastMemoryCount s = highest (countsSeen events) /\
  (requests s' = requests s ++ [ReqGraph true] <->
   count > highest (countsSeen events) /\ countsSeen events <> [] /\
   activeView s = graph) /\
  (requests s' = requests s ++ [ReqGraph true] \/ requests s' = requests s) /\
  (countsSeen events = [] -> requests s' = requests s).
Proof.
  intros Hinit Hel Hc Hrun Hpos. cbv zeta.
  destruct (runEvents_highest toUpperCase events s0 s Hel Hrun) as (Hl & Hc' & Hel').
  assert (lastMemoryCount s = highest (countsSeen events)) as Hhigh.
  { rewrite Hl. unfold highest. f_equal.
    by destruct Hinit as (_ & _ & _ & _ & _ & _ & _ & _ & ? & _). }
  rewrite Hc in Hc'.
  destruct (forced_refresh_trigger data s Hel' Hc') as (Hiff & Hor & Hfirst).
  cbv zeta in Hiff, Hor, Hfirst.
  pose proof (highest_sentinel (countsSeen events) Hpos) as Hsent.
  split; [done|]. rewrite <- Hhigh. split_and!.
  - rewrite Hiff. rewrite <- Hsent, <- Hhigh. tauto.
  - done.
  - intros Hnone. apply Hfirst. rewrite Hhigh. by apply Hsent.
Qed.

Lemma forced_refresh_on_new_maximum_witness :
  let events :=
    [(lit "09:00:00", EvSwitchMainView graph);
     (lit "09:00:01", EvPoll);
     (lit "09:00:02", EvStatusBody (mkStatus (Some 3) None));
     (lit "09:00:03", EvStatusBody (mkStatus (Some 2) None))] in
  initial freshPage /\
  exists s,
    runEvents upperASCII events freshPage = Some s /\
    countsSeen events = [3; 2] /\
    lastMemoryCount s = 3 /\
    requests (fetchStatus_then (mkStatus (Some 3) None) s) = requests s /\
    requests (fetchStatus_then (mkStatus (Some 4) None) s)
    = requests s ++ [ReqGraph true].
Proof.
  cbv zeta.
  assert (initial freshPage) as Hinit by (repeat split).
  split; [exact Hinit|].
  eexists. split; [vm_compute; reflexivity|].
  split; [reflexivity|].
  match goal with |- lastMemoryCount ?s = _ /\ _ =>
    assert (runEvents upperASCII
              [(lit "09:00:00", EvSwitchMainView graph);
               (lit "09:00:01", EvPoll);
               (lit "09:00:02", EvStatusBody (mkStatus (Some 3) None));
               (lit "09:00:03", EvStatusBody (mkStatus (Some 2) None))] freshPage
            = Some s) as Hrun by (vm_compute; reflexivity);
    assert (memoryCount freshPage <> None) as Hel by (vm_compute; discriminate);
    assert (forall c, c ∈ countsSeen
              [(lit "09:00:00", EvSwitchMainView graph);
               (lit "09:00:01", EvPoll);
               (lit "09:00:02", EvStatusBody (mkStatus (Some 3) None));
               (lit "09:00:03", EvStatusBody (mkStatus (Some 2) None))] -> 0 <= c)
      as Hpos
      by (intros c Hin; vm_compute in Hin;
          repeat (apply elem_of_cons in Hin as [->|Hin]; [lia|]);
          by apply elem_of_nil in Hin);
    pose proof (forced_refresh_on_new_maximum upperASCII _ freshPage s
                  (mkStatus (Some 4) None) Hinit Hel eq_refl Hrun Hpos)
      as (Hhigh & Hiff & _)
  end.
  cbv zeta in Hiff.
  split; [vm_compute; reflexivity|].
  split; [vm_compute; reflexivity|].
  apply Hiff. split_and!; [vm_compute; reflexivity|discriminate|reflexivity].
Defined.

(** C2: a count above the last one seen does not refresh while it is not
    above the highest.  With the graph view shown and the snapshots 3 and
    2 processed, the page shows 2 as the last count; the next snapshot
    reports 3, more than the last value, and no forced fetch is issued. *)
Lemma refresh_skipped_after_dip :
  let data := mkStatus (Some 3) None in
  memoryCount afterDip = Some 2 /\
  default 0 (memory_count data) > 2 /\
  lastMemoryCount afterDip <> -1 /\
  activeView afterDip = graph /\
  networkContainer afterDip = true /\
  requests (fetchStatus_then data afterDip) = requests afterDip /\
  ReqGraph true ∉ requests (fetchStatus_then data afterDip).
Proof.
  cbv zeta. split_and!; try (vm_compute; reflexivity).
  - vm_compute. discriminate.
  - apply (bool_decide_unpack _). vm_compute. exact I.
Qed.

(** ** Pending reconnections, and who removes them *)





